(** * E-commerce search application: retrieval, configuration and chatbot

    A shallow embedding of [app/config.py], [app/services/openai_service.py],
    [app/services/azure_search_service.py] and the search and chatbot parts of
    [app/app.py].

    Python [str] values are modelled by Rocq strings holding their UTF-8
    encoding; Python floats by the kernel's binary64 floats; dictionaries with
    string keys by [gmap string _]; raised exceptions by the left summand of
    a result type, threaded together with the observable world (requests sent
    to the three remote back ends, Streamlit output, session state) by a small
    state-and-exception monad. *)

From Stdlib Require Import ZArith String Ascii List Floats SpecFloat Lia.
From stdpp Require Import base option list strings gmap pretty.
Import ListNotations.

Set Warnings "-register-all,-inexact-float".

Open Scope string_scope.
Open Scope list_scope.
Open Scope Z_scope.

(** ** Python values *)

(** The values that travel through the product dictionaries: JSON null,
    integers, doubles, strings and lists, which is what the index schema
    (strings, an integer price, a string collection, double scores) delivers. *)
Inductive PyVal : Type :=
| VNone
| VInt (n : Z)
| VFloat (f : float)
| VStr (s : string)
| VList (l : list PyVal).

(** Python truthiness, as used by [if x:], [x or y] and [not x]. *)
Definition truthy (v : PyVal) : bool :=
  match v with
  | VNone => false
  | VInt n => negb (n =? 0)
  | VFloat f => negb (PrimFloat.eqb f 0%float)
  | VStr s => negb (String.eqb s "")
  | VList l => match l with [] => false | _ => true end
  end.

(** [x or y] *)
Definition py_or (x y : PyVal) : PyVal := if truthy x then x else y.

(** [type(v).__name__] *)
Definition type_name (v : PyVal) : string :=
  match v with
  | VNone => "NoneType"
  | VInt _ => "int"
  | VFloat _ => "float"
  | VStr _ => "str"
  | VList _ => "list"
  end.

(** A dictionary with string keys; [d.get(k)] and [d.get(k, default)]. *)
Abbreviation PyDict := (gmap string PyVal).

Definition dict_get (d : PyDict) (k : string) : PyVal :=
  default VNone (d !! k).

Definition dict_get_default (d : PyDict) (k : string) (dflt : PyVal) : PyVal :=
  default dflt (d !! k).

(** ** Exceptions and results *)

(** A raised exception (always a subclass of [Exception] here): its class
    name and [str(e)]. *)
Record PyExn : Type := mkExn { exn_class : string; exn_str : string }.

Definition Result (A : Type) : Type := PyExn + A.

Definition ValueError (msg : string) : PyExn := mkExn "ValueError" msg.
Definition TypeError (msg : string) : PyExn := mkExn "TypeError" msg.
Definition IndexError (msg : string) : PyExn := mkExn "IndexError" msg.
Definition OverflowError (msg : string) : PyExn := mkExn "OverflowError" msg.

Definition is_exception (e : PyExn) (cls : string) : bool :=
  String.eqb (exn_class e) cls.

(** ** Strings *)

Definition chars (s : string) : list ascii := list_ascii_of_string s.
Definition of_chars (l : list ascii) : string := string_of_list_ascii l.

(** UTF-8 encoding of a code point, the representation of a Python character
    inside the byte strings of this development. *)
Definition utf8_encode (cp : N) : list ascii :=
  let b (n : N) := ascii_of_N n in
  if (cp <? 128)%N then [b cp]
  else if (cp <? 2048)%N then [b (192 + cp / 64)%N; b (128 + cp mod 64)%N]
  else if (cp <? 65536)%N then
    [b (224 + cp / 4096)%N; b (128 + (cp / 64) mod 64)%N; b (128 + cp mod 64)%N]
  else
    [b (240 + cp / 262144)%N; b (128 + (cp / 4096) mod 64)%N;
     b (128 + (cp / 64) mod 64)%N; b (128 + cp mod 64)%N].

(** The code points for which [str.isspace] holds: the characters that
    [str.strip()] without argument removes. *)
Definition whitespace_code_points : list N :=
  [9; 10; 11; 12; 13; 28; 29; 30; 31; 32; 133; 160; 5760;
   8192; 8193; 8194; 8195; 8196; 8197; 8198; 8199; 8200; 8201; 8202;
   8232; 8233; 8239; 8287; 12288]%N.

Definition whitespace : list (list ascii) :=
  Eval vm_compute in map utf8_encode whitespace_code_points.

Definition LF : ascii := ascii_of_N 10.
Definition SP : ascii := ascii_of_N 32.

(** [s.replace("\n", " ")]: the byte 10 occurs in UTF-8 text only as the
    encoding of the line feed, so the replacement is bytewise. *)
Definition replace_newlines (s : list ascii) : list ascii :=
  map (fun c => if Ascii.eqb c LF then SP else c) s.

(** [drop_prefix p s] is [Some r] when [s = p ++ r]. *)
Fixpoint drop_prefix (p s : list ascii) : option (list ascii) :=
  match p, s with
  | [], _ => Some s
  | _ :: _, [] => None
  | a :: p', b :: s' => if Ascii.eqb a b then drop_prefix p' s' else None
  end.

(** Removes one leading element of [ws] from [s], if there is one. *)
Fixpoint drop_any (ws : list (list ascii)) (s : list ascii) : option (list ascii) :=
  match ws with
  | [] => None
  | w :: ws' =>
      match drop_prefix w s with
      | Some r => Some r
      | None => drop_any ws' s
      end
  end.

Fixpoint drop_all (fuel : nat) (ws : list (list ascii)) (s : list ascii) : list ascii :=
  match fuel with
  | O => s
  | S fuel' =>
      match drop_any ws s with
      | Some r => drop_all fuel' ws r
      | None => s
      end
  end.

Definition lstrip (s : list ascii) : list ascii :=
  drop_all (length s) whitespace s.

Definition rstrip (s : list ascii) : list ascii :=
  rev (drop_all (length s) (map (@rev ascii) whitespace) (rev s)).

(** [s.strip()] *)
Definition py_strip (s : string) : string := of_chars (rstrip (lstrip (chars s))).

Definition py_replace_newlines (s : string) : string :=
  of_chars (replace_newlines (chars s)).

(** [sep.join(l)] on strings. *)
Fixpoint join (sep : string) (l : list string) : string :=
  match l with
  | [] => ""
  | [x] => x
  | x :: rest => x +:+ sep +:+ join sep rest
  end.

(** [sub in s] *)
Definition contains (s sub : string) : Prop :=
  exists pre post, s = pre +:+ sub +:+ post.

(** ** Number formatting *)

(** [str(n)] for an integer. *)
Definition str_int (n : Z) : string := pretty n.

(** Commas between groups of three digits; the digits come least
    significant first. *)
Fixpoint group_thousands_rev (ds : list ascii) : list ascii :=
  match ds with
  | a :: b :: c :: ((_ :: _) as rest) =>
      a :: b :: c :: ","%char :: group_thousands_rev rest
  | _ => ds
  end.

(** [format(n, ",")] for an integer. *)
Definition format_int_grouped (n : Z) : string :=
  (if n <? 0 then "-" else "") +:+
  of_chars (rev (group_thousands_rev (rev (chars (str_int (Z.abs n)))))).

(** Rounding of [num / den] to the nearest integer, ties to even. *)
Definition round_half_even (num den : Z) : Z :=
  let q := num / den in
  let r := num mod den in
  if 2 * r <? den then q
  else if den <? 2 * r then q + 1
  else if Z.even q then q else q + 1.

(** The value [m * 2^e] in units of [10^-4], correctly rounded. *)
Definition scaled4 (m : positive) (e : Z) : Z :=
  if 0 <=? e then Z.pos m * 2 ^ e * 10000
  else round_half_even (Z.pos m * 10000) (2 ^ (- e)).

Definition pad4 (d : Z) : string :=
  let s := str_int d in
  of_chars (repeat "0"%char (4 - String.length s)) +:+ s.

Definition fixed4 (units : Z) : string :=
  str_int (units / 10000) +:+ "." +:+ pad4 (units mod 10000).

(** [format(x, ".4f")] for a double given by its IEEE 754 decomposition. *)
Definition format_sf_4f (x : spec_float) : string :=
  match x with
  | S754_nan => "nan"
  | S754_infinity s => (if s then "-" else "") +:+ "inf"
  | S754_zero s => (if s then "-" else "") +:+ "0.0000"
  | S754_finite s m e => (if s then "-" else "") +:+ fixed4 (scaled4 m e)
  end.

Definition format_float_4f (f : float) : string := format_sf_4f (Prim2SF f).

(** [float(n)] for an integer: the nearest double, [OverflowError] beyond
    the range. *)
Definition int_to_float (n : Z) : Result spec_float :=
  match binary_normalize prec emax n 0 false with
  | S754_infinity _ => inl (OverflowError "int too large to convert to float")
  | x => inr x
  end.

(** ** Configuration ([config.py]) *)

(** The process environment when the class body runs, that is after
    [load_dotenv] has added the entries of the [.env] file;
    [os.getenv(name)] and [os.getenv(name, default)]. *)
Abbreviation Env := (gmap string string).

Definition getenv (env : Env) (name : string) : PyVal :=
  match env !! name with
  | Some v => VStr v
  | None => VNone
  end.

Definition getenv_default (env : Env) (name dflt : string) : string :=
  default dflt (env !! name).

Module Config.

(** The class attributes of [Config] that are read from the environment. *)
Record t : Type := mk {
  AZURE_OPENAI_ENDPOINT : PyVal;
  AZURE_OPENAI_API_KEY : PyVal;
  AZURE_OPENAI_API_VERSION : string;
  AZURE_OPENAI_DEPLOYMENT_NAME : string;
  AZURE_OPENAI_VISION_DEPLOYMENT_NAME : string;
  AZURE_OPENAI_EMBEDDING_DEPLOYMENT_NAME : string;
  AZURE_SEARCH_SERVICE_ENDPOINT : PyVal;
  AZURE_SEARCH_INDEX_NAME : string;
  EMBEDDING_DIMENSION : Z
}.

(** The attributes of the class once [EMBEDDING_DIMENSION] has been
    converted. *)
Definition class_attributes (env : Env) (dimension : Z) : t := {|
  AZURE_OPENAI_ENDPOINT := getenv env "AZURE_OPENAI_ENDPOINT";
  AZURE_OPENAI_API_KEY := getenv env "AZURE_OPENAI_API_KEY";
  AZURE_OPENAI_API_VERSION :=
    getenv_default env "AZURE_OPENAI_API_VERSION" "2024-10-21";
  AZURE_OPENAI_DEPLOYMENT_NAME :=
    getenv_default env "AZURE_OPENAI_DEPLOYMENT_NAME" "gpt-4";
  AZURE_OPENAI_VISION_DEPLOYMENT_NAME :=
    getenv_default env "AZURE_OPENAI_VISION_DEPLOYMENT_NAME" "gpt-4o";
  AZURE_OPENAI_EMBEDDING_DEPLOYMENT_NAME :=
    getenv_default env "AZURE_OPENAI_EMBEDDING_DEPLOYMENT_NAME"
      "text-embedding-ada-002";
  AZURE_SEARCH_SERVICE_ENDPOINT := getenv env "AZURE_SEARCH_SERVICE_ENDPOINT";
  AZURE_SEARCH_INDEX_NAME :=
    getenv_default env "AZURE_SEARCH_INDEX_NAME" "products-index";
  EMBEDDING_DIMENSION := dimension
|}.

(** The class body. [py_int] is [int] of the runtime on a text: which texts
    it accepts, and the exception it raises for the others, are left open.
    The exception of [int(os.getenv("EMBEDDING_DIMENSION", "1536"))] leaves
    the class body: no class is created. *)
Definition load (py_int : string -> Result Z) (env : Env) : Result t :=
  match py_int (getenv_default env "EMBEDDING_DIMENSION" "1536") with
  | inl e => inl e
  | inr dimension => inr (class_attributes env dimension)
  end.

(** Application settings, constants of the class. *)
Definition MAX_SEARCH_RESULTS : Z := 5.
Definition DEFAULT_TEMPERATURE : float := 0.7%float.
Definition MAX_TOKENS : Z := 1000.

(** [getattr(cls, field)] for the fields that [validate] names. *)
Definition getattr (c : t) (field : string) : PyVal :=
  if String.eqb field "AZURE_OPENAI_ENDPOINT" then AZURE_OPENAI_ENDPOINT c
  else if String.eqb field "AZURE_OPENAI_API_KEY" then AZURE_OPENAI_API_KEY c
  else if String.eqb field "AZURE_SEARCH_SERVICE_ENDPOINT"
       then AZURE_SEARCH_SERVICE_ENDPOINT c
  else VNone.

Definition required_fields : list string :=
  ["AZURE_OPENAI_ENDPOINT"; "AZURE_OPENAI_API_KEY";
   "AZURE_SEARCH_SERVICE_ENDPOINT"].

Definition missing_fields (c : t) : list string :=
  List.filter (fun field => negb (truthy (getattr c field))) required_fields.

(** [Config.validate()] *)
Definition validate (c : t) : Result bool :=
  match missing_fields c with
  | [] => inr true
  | missing =>
      inl (ValueError ("Missing required configuration: " +:+ join ", " missing))
  end.

(** The statements at the end of the module, run when [config] is
    imported: the lines printed and how the import ends. *)
Definition module_init (c : t) : list string * Result unit :=
  match validate c with
  | inr _ => (["✅ Configuration loaded successfully"], inr tt)
  | inl e =>
      if is_exception e "ValueError"
      then (["⚠️ Configuration warning: " +:+ exn_str e], inr tt)
      else ([], inl e)
  end.

(** The import of [config]: the class body, then the statements at the end
    of the module. An exception of the class body ends the import. *)
Definition import_module (py_int : string -> Result Z) (env : Env)
  : list string * Result unit :=
  match load py_int env with
  | inl e => ([], inl e)
  | inr c => module_init c
  end.

End Config.

(** ** The observable world *)

(** [client.embeddings.create(input=..., model=...)] *)
Record EmbeddingRequest : Type := {
  emb_input : list string;
  emb_model : string
}.

(** A chat message: a dictionary with keys [role] and [content], and for
    the assistant turns of the transcript that carry one, [product]. *)
Record ChatMessage : Type := {
  role : string;
  content : PyVal;
  product : option PyDict
}.

(** [client.chat.completions.create(model=..., messages=..., ...)] *)
Record CompletionRequest : Type := {
  cr_model : string;
  cr_messages : list ChatMessage;
  cr_temperature : float;
  cr_max_tokens : Z
}.

(** [VectorizedQuery(vector=..., k_nearest_neighbors=..., fields=...)] *)
Record VectorizedQuery : Type := {
  vector : list float;
  k_nearest_neighbors : Z;
  vq_fields : string
}.

(** The keyword arguments of [search_client.search]; [None] stands for an
    argument that is not passed, [search_text] is passed in every call and is
    Python's [None] in pure vector search. *)
Record SearchRequest : Type := {
  search_text : option string;
  vector_queries : option (list VectorizedQuery);
  select : list string;
  top : Z;
  search_fields : option (list string)
}.

(** One search result: a mapping (read with [.get]) that also has
    attributes (read with [getattr]). *)
Record SearchResult : Type := {
  items : PyDict;
  attributes : PyDict
}.

Inductive StCall : Type :=
| st_error (msg : string)
| st_rerun.

(** What the application has done so far: the requests sent to the three
    remote services, the Streamlit calls, and the transcript in
    [st.session_state.chat_messages]. Newest entries are last. *)
Record World : Type := {
  embedding_requests : list EmbeddingRequest;
  completion_requests : list CompletionRequest;
  search_requests : list SearchRequest;
  st_calls : list StCall;
  chat_messages : list ChatMessage
}.

Definition log_embedding (r : EmbeddingRequest) (w : World) : World :=
  {| embedding_requests := embedding_requests w ++ [r];
     completion_requests := completion_requests w;
     search_requests := search_requests w;
     st_calls := st_calls w;
     chat_messages := chat_messages w |}.

Definition log_completion (r : CompletionRequest) (w : World) : World :=
  {| embedding_requests := embedding_requests w;
     completion_requests := completion_requests w ++ [r];
     search_requests := search_requests w;
     st_calls := st_calls w;
     chat_messages := chat_messages w |}.

Definition log_search (r : SearchRequest) (w : World) : World :=
  {| embedding_requests := embedding_requests w;
     completion_requests := completion_requests w;
     search_requests := search_requests w ++ [r];
     st_calls := st_calls w;
     chat_messages := chat_messages w |}.

Definition log_st (c : StCall) (w : World) : World :=
  {| embedding_requests := embedding_requests w;
     completion_requests := completion_requests w;
     search_requests := search_requests w;
     st_calls := st_calls w ++ [c];
     chat_messages := chat_messages w |}.

Definition append_chat (m : ChatMessage) (w : World) : World :=
  {| embedding_requests := embedding_requests w;
     completion_requests := completion_requests w;
     search_requests := search_requests w;
     st_calls := st_calls w;
     chat_messages := chat_messages w ++ [m] |}.

(** The remote services, which this program does not implement: what each
    answers to a request, given everything that happened before. An answer is
    the part of the response that the program reads ([response.data[i].embedding],
    [response.choices[i].message.content], the result documents) or the
    exception that the call raises. The search results are read in full by
    [_process_results] before anything else happens, so a failure while they
    are fetched counts as a failure of the call. *)
Record Remote : Type := {
  embeddings_create : World -> EmbeddingRequest -> Result (list (list float));
  completions_create : World -> CompletionRequest -> Result (list PyVal);
  search : World -> SearchRequest -> Result (list SearchResult)
}.

(** ** Computations: state and exceptions *)

Definition M (A : Type) : Type := World -> Result A * World.

Definition ret {A} (a : A) : M A := fun w => (inr a, w).

Definition raise {A} (e : PyExn) : M A := fun w => (inl e, w).

Definition bind {A B} (m : M A) (k : A -> M B) : M B :=
  fun w =>
    match m w with
    | (inr a, w') => k a w'
    | (inl e, w') => (inl e, w')
    end.

(** [try: body / except Exception as e: handler(e)] *)
Definition try_except {A} (body : M A) (handler : PyExn -> M A) : M A :=
  fun w =>
    match body w with
    | (inr a, w') => (inr a, w')
    | (inl e, w') => handler e w'
    end.

Definition lift {A} (r : Result A) : M A := fun w => (r, w).

Definition modify (f : World -> World) : M unit := fun w => (inr tt, f w).

Definition get_world : M World := fun w => (inr w, w).

Declare Scope py_scope.
Delimit Scope py_scope with py.
Notation "x <- m ;; k" := (bind m (fun x => k))
  (at level 100, m at next level, right associativity) : py_scope.
Notation "m ;;; k" := (bind m (fun _ => k))
  (at level 100, right associativity) : py_scope.
Open Scope py_scope.

(** [l[0]] *)
Definition first_item {A} (l : list A) : Result A :=
  match l with
  | x :: _ => inr x
  | [] => inl (IndexError "list index out of range")
  end.

(** ** Literals of [app.py] *)

Definition system_prompt : string :=
  "당신은 친절한 이커머스 상품 추천 챗봇입니다. 
사용자의 질문에 따라 검색된 상품 정보를 바탕으로 자연스럽고 친절하게 상품을 추천하고 설명해주세요.
상품의 특징, 장점, 어울리는 상황 등을 포함하여 구체적으로 설명하되, 자연스러운 대화체를 유지하세요.
가격과 브랜드 정보도 함께 안내해주세요.".

Definition no_product_message : string :=
  "죄송합니다. 요청하신 내용과 관련된 상품을 찾을 수 없습니다. 다른 키워드로 다시 질문해주시겠어요?".

Definition error_message_prefix : string := "죄송합니다. 오류가 발생했습니다: ".

Definition search_error_prefix : string := "❌ 검색 중 오류가 발생했습니다: ".

Definition load_error_prefix : string := "❌ 상품을 불러오는 중 오류가 발생했습니다: ".

Definition no_price_info : string := "가격 정보 없음".

Definition won : string := "원".

(** The f-string of [product_context], given its eight interpolated
    strings. *)
Definition product_context_template
    (name_str brand_str price_str description_str caption_str
     image_description_str tags_str score_str : string) : string :=
  "
[추천 상품 정보]
- 상품명: " +:+ name_str +:+
    "
- 브랜드: " +:+ brand_str +:+
    "
- 가격: " +:+ price_str +:+
    "
- 설명: " +:+ description_str +:+
    "
- 이미지 캡션: " +:+ caption_str +:+
    "
- 이미지 설명: " +:+ image_description_str +:+
    "
- 태그: " +:+ tags_str +:+
    "
- 관련도 점수: " +:+ score_str +:+
    "
".

Definition ALL_SEARCH_FIELDS : list string :=
  ["name"; "brand"; "description"; "imageCaption"; "imageDescription"; "imageTags"].

Definition SELECT_FIELDS : list string :=
  ["id"; "name"; "brand"; "description"; "price"; "imageUrl";
   "imageCaption"; "imageDescription"; "imageTags"].

(** ** Formatting of dynamically typed values *)

(** The conversions of Python's runtime that this program can reach only
    with values the catalogue does not hold (a double where a string or the
    price is expected, a list where a string is expected) are left open. *)
Record Builtins : Type := {
  repr_float : float -> string;
  repr_list : list PyVal -> string;
  format_float_grouped : float -> string
}.

Section Formatting.

Context (py : Builtins).

(** [str(v)], what an f-string does with [{v}]. *)
Definition py_str (v : PyVal) : string :=
  match v with
  | VNone => "None"
  | VInt n => str_int n
  | VFloat f => repr_float py f
  | VStr s => s
  | VList l => repr_list py l
  end.

(** [format(v, ",")] *)
Definition format_grouped (v : PyVal) : Result string :=
  match v with
  | VInt n => inr (format_int_grouped n)
  | VFloat f => inr (format_float_grouped py f)
  | VStr _ => inl (ValueError "Cannot specify ',' with 's'.")
  | VNone =>
      inl (TypeError "unsupported format string passed to NoneType.__format__")
  | VList _ =>
      inl (TypeError "unsupported format string passed to list.__format__")
  end.

(** [format(v, ".4f")] *)
Definition format_4f (v : PyVal) : Result string :=
  match v with
  | VInt n =>
      match int_to_float n with
      | inr x => inr (format_sf_4f x)
      | inl e => inl e
      end
  | VFloat f => inr (format_float_4f f)
  | VStr _ => inl (ValueError "Unknown format code 'f' for object of type 'str'")
  | VNone =>
      inl (TypeError "unsupported format string passed to NoneType.__format__")
  | VList _ =>
      inl (TypeError "unsupported format string passed to list.__format__")
  end.

(** The strings of a list that [str.join] accepts; the [TypeError] names
    the first item that is not a string. *)
Fixpoint join_items (i : Z) (l : list PyVal) : Result (list string) :=
  match l with
  | [] => inr []
  | VStr s :: rest =>
      match join_items (i + 1) rest with
      | inr ss => inr (s :: ss)
      | inl e => inl e
      end
  | v :: _ =>
      inl (TypeError ("sequence item " +:+ str_int i +:+
                      ": expected str instance, " +:+ type_name v +:+ " found"))
  end.

(** [sep.join(l)] *)
Definition py_join (sep : string) (l : list PyVal) : Result string :=
  match join_items 0 l with
  | inr ss => inr (join sep ss)
  | inl e => inl e
  end.

(** [price_str], [tags_str] and [score_str] of the chatbot. *)
Definition price_str (top_product : PyDict) : Result string :=
  let price := dict_get_default top_product "price" (VInt 0) in
  match price with
  | VNone => inr no_price_info
  | _ =>
      match format_grouped price with
      | inr s => inr (s +:+ won)
      | inl e => inl e
      end
  end.

Definition tags_str (top_product : PyDict) : Result string :=
  let tags := dict_get_default top_product "imageTags" (VList []) in
  match tags with
  | VList ((_ :: _) as l) => py_join ", " l
  | _ => inr "N/A"
  end.

Definition score_str (top_product : PyDict) : Result string :=
  let score := dict_get_default top_product "score" (VInt 0) in
  match score with
  | VNone => inr "N/A"
  | _ => format_4f score
  end.

(** [{top_product.get(key) or 'N/A'}] *)
Definition field_or_na (top_product : PyDict) (key : string) : string :=
  py_str (py_or (dict_get top_product key) (VStr "N/A")).

(** The grounding context of the chatbot; the statements are evaluated in
    the order of the source, so the first failing conversion is the one
    raised. *)
Definition product_context (top_product : PyDict) : Result string :=
  match price_str top_product with
  | inl e => inl e
  | inr price_s =>
      match tags_str top_product with
      | inl e => inl e
      | inr tags_s =>
          match score_str top_product with
          | inl e => inl e
          | inr score_s =>
              inr (product_context_template
                     (field_or_na top_product "name")
                     (field_or_na top_product "brand")
                     price_s
                     (field_or_na top_product "description")
                     (field_or_na top_product "imageCaption")
                     (field_or_na top_product "imageDescription")
                     tags_s score_s)
          end
      end
  end.

End Formatting.

(** ** The services and the application *)

Section Services.

Context (cfg : Config.t) (remote : Remote) (py : Builtins).

(** *** [OpenAIService] ([services/openai_service.py]) *)

Definition gpt_deployment : string := Config.AZURE_OPENAI_DEPLOYMENT_NAME cfg.
Definition embedding_deployment : string :=
  Config.AZURE_OPENAI_EMBEDDING_DEPLOYMENT_NAME cfg.

(** The remote calls: the request is recorded, then the service answers. *)
Definition call_embeddings (req : EmbeddingRequest) : M (list (list float)) :=
  fun w => (embeddings_create remote w req, log_embedding req w).

Definition call_completions (req : CompletionRequest) : M (list PyVal) :=
  fun w => (completions_create remote w req, log_completion req w).

Definition call_search (req : SearchRequest) : M (list SearchResult) :=
  fun w => (search remote w req, log_search req w).

Definition get_embedding (text : string) : M (list float) :=
  let text := py_strip (py_replace_newlines text) in
  data <- call_embeddings {| emb_input := [text];
                             emb_model := embedding_deployment |} ;;
  lift (first_item data).

(** [temperature or Config.DEFAULT_TEMPERATURE] *)
Definition or_float (x : option float) (dflt : float) : float :=
  match x with
  | Some f => if PrimFloat.eqb f 0%float then dflt else f
  | None => dflt
  end.

(** [max_tokens or Config.MAX_TOKENS], [top_k or Config.MAX_SEARCH_RESULTS] *)
Definition or_int (x : option Z) (dflt : Z) : Z :=
  match x with
  | Some n => if n =? 0 then dflt else n
  | None => dflt
  end.

Definition chat_completion (messages : list ChatMessage)
    (temperature : option float) (max_tokens : option Z) : M PyVal :=
  let temperature := or_float temperature Config.DEFAULT_TEMPERATURE in
  let max_tokens := or_int max_tokens Config.MAX_TOKENS in
  choices <- call_completions {| cr_model := gpt_deployment;
                                 cr_messages := messages;
                                 cr_temperature := temperature;
                                 cr_max_tokens := max_tokens |} ;;
  lift (first_item choices).

(** *** [AzureSearchService] ([services/azure_search_service.py]) *)

Definition _process_result (result : SearchResult) : PyDict :=
  list_to_map
    [("id", dict_get (items result) "id");
     ("name", dict_get (items result) "name");
     ("brand", dict_get (items result) "brand");
     ("description", dict_get (items result) "description");
     ("price", dict_get (items result) "price");
     ("imageUrl", dict_get (items result) "imageUrl");
     ("imageCaption", dict_get (items result) "imageCaption");
     ("imageDescription", dict_get (items result) "imageDescription");
     ("imageTags", dict_get_default (items result) "imageTags" (VList []));
     ("score", dict_get_default (attributes result) "@search.score" VNone);
     ("reranker_score",
       dict_get_default (attributes result) "@search.reranker_score" VNone)].

Definition _process_results (results : list SearchResult) : list PyDict :=
  map _process_result results.

(** [search_params["search_fields"] = search_fields] only [if search_fields:] *)
Definition fields_if_specified (search_fields : option (list string))
  : option (list string) :=
  match search_fields with
  | Some ((_ :: _) as l) => Some l
  | _ => None
  end.

Definition get_all_products (top_k : Z) : M (list PyDict) :=
  results <- call_search {| search_text := Some "*";
                            vector_queries := None;
                            select := SELECT_FIELDS;
                            top := top_k;
                            search_fields := None |} ;;
  ret (_process_results results).

Definition keyword_search (query : string)
    (search_fields : option (list string)) (top_k : option Z)
  : M (list PyDict) :=
  let top_k := or_int top_k Config.MAX_SEARCH_RESULTS in
  results <- call_search {| search_text := Some query;
                            vector_queries := None;
                            select := SELECT_FIELDS;
                            top := top_k;
                            search_fields := fields_if_specified search_fields |} ;;
  ret (_process_results results).

Definition hybrid_search (query : string)
    (search_fields : option (list string)) (top_k : option Z)
  : M (list PyDict) :=
  let top_k := or_int top_k Config.MAX_SEARCH_RESULTS in
  query_embedding <- get_embedding query ;;
  let vector_query := {| vector := query_embedding;
                         k_nearest_neighbors := top_k;
                         vq_fields := "descriptionVector" |} in
  results <- call_search {| search_text := Some query;
                            vector_queries := Some [vector_query];
                            select := SELECT_FIELDS;
                            top := top_k;
                            search_fields := fields_if_specified search_fields |} ;;
  ret (_process_results results).

Definition vector_search (query : string)
    (search_fields : option (list string)) (top_k : option Z)
  : M (list PyDict) :=
  let top_k := or_int top_k Config.MAX_SEARCH_RESULTS in
  query_embedding <- get_embedding query ;;
  let vector_query := {| vector := query_embedding;
                         k_nearest_neighbors := top_k;
                         vq_fields := "descriptionVector" |} in
  results <- call_search {| search_text := None;
                            vector_queries := Some [vector_query];
                            select := SELECT_FIELDS;
                            top := top_k;
                            search_fields := None |} ;;
  ret (_process_results results).

(** *** Search functions of [app.py] *)

(** The body of [try:] in [search_products]. *)
Definition search_by_strategy (query strategy : string)
    (search_fields : list string) : M (list PyDict) :=
  let fields_to_search :=
    match search_fields with [] => None | _ => Some search_fields end in
  if String.eqb strategy "keyword"
  then keyword_search query fields_to_search None
  else if String.eqb strategy "vector"
  then vector_search query fields_to_search None
  else hybrid_search query fields_to_search None.

Definition search_products (query strategy : string)
    (search_fields : list string) : M (list PyDict) :=
  try_except
    (search_by_strategy query strategy search_fields)
    (fun e =>
       modify (log_st (st_error (search_error_prefix +:+ exn_str e))) ;;;
       ret []).

Definition load_all_products : M (list PyDict) :=
  try_except
    (get_all_products 100)
    (fun e =>
       modify (log_st (st_error (load_error_prefix +:+ exn_str e))) ;;;
       ret []).

(** *** The chatbot of [main] *)

(** [chat_messages[-7:] if len(chat_messages) > 7 else chat_messages] *)
Definition recent_messages (chat_messages : list ChatMessage)
  : list ChatMessage :=
  if 7 <? Z.of_nat (length chat_messages)
  then skipn (length chat_messages - 7)%nat chat_messages
  else chat_messages.

(** The body of [try:] in the chatbot: retrieval, grounding context,
    prompt, completion, and the assistant turn appended to the transcript.
    [get_openai_service()] returns the instance that was created together with
    the search service when the application started. *)
Definition respond (prompt : string) : M unit :=
  search_results <- search_products prompt "hybrid" ALL_SEARCH_FIELDS ;;
  match search_results with
  | top_product :: _ =>
      product_context <- lift (product_context py top_product) ;;
      w <- get_world ;;
      let messages :=
        ([ {| role := "system"; content := VStr system_prompt; product := None |};
           {| role := "system"; content := VStr product_context; product := None |} ]
         ++ recent_messages (chat_messages w))%list in
      assistant_message <- chat_completion messages None None ;;
      modify (append_chat {| role := "assistant";
                             content := assistant_message;
                             product := Some top_product |})
  | [] =>
      modify (append_chat {| role := "assistant";
                             content := VStr no_product_message;
                             product := None |})
  end.

(** What [main] does with a submitted chat message ([if prompt:]). *)
Definition chat_submit (prompt : string) : M unit :=
  modify (append_chat {| role := "user"; content := VStr prompt;
                         product := None |}) ;;;
  try_except
    (respond prompt)
    (fun e =>
       modify (append_chat {| role := "assistant";
                              content := VStr (error_message_prefix +:+ exn_str e);
                              product := None |})) ;;;
  modify (log_st st_rerun).

(** [prompt = st.chat_input(...)] is [None] until a message is submitted. *)
Definition chat_input (prompt : option string) : M unit :=
  match prompt with
  | Some p => if String.eqb p "" then ret tt else chat_submit p
  | None => ret tt
  end.

End Services.

(** ** Vocabulary of the properties *)

Definition plain_fields : list string :=
  ["id"; "name"; "brand"; "description"; "price"; "imageUrl";
   "imageCaption"; "imageDescription"].

Definition embedding_request_for cfg (query : string) : EmbeddingRequest :=
  {| emb_input := [py_strip (py_replace_newlines query)];
     emb_model := embedding_deployment cfg |}.

Definition keyword_request (query : string) (search_fields : option (list string))
    (top_k : Z) : SearchRequest :=
  {| search_text := Some query; vector_queries := None; select := SELECT_FIELDS;
     top := top_k; search_fields := fields_if_specified search_fields |}.

Definition hybrid_request (query : string) (search_fields : option (list string))
    (top_k : Z) (v : list float) : SearchRequest :=
  {| search_text := Some query;
     vector_queries := Some [ {| vector := v; k_nearest_neighbors := top_k;
                                 vq_fields := "descriptionVector" |} ];
     select := SELECT_FIELDS; top := top_k;
     search_fields := fields_if_specified search_fields |}.

Definition vector_request (top_k : Z) (v : list float) : SearchRequest :=
  {| search_text := None;
     vector_queries := Some [ {| vector := v; k_nearest_neighbors := top_k;
                                 vq_fields := "descriptionVector" |} ];
     select := SELECT_FIELDS; top := top_k; search_fields := None |}.

(** How a remote answer becomes the result of a search method. *)
Definition processed (answer : Result (list SearchResult)) : Result (list PyDict) :=
  match answer with
  | inr results => inr (_process_results results)
  | inl e => inl e
  end.

(** The embedding requests that a strategy adds. *)
Definition embeddings_of_strategy cfg (strategy query : string)
  : list EmbeddingRequest :=
  if String.eqb strategy "keyword" then [] else [embedding_request_for cfg query].

Definition user_turn (prompt : string) : ChatMessage :=
  {| role := "user"; content := VStr prompt; product := None |}.

Definition apology_turn : ChatMessage :=
  {| role := "assistant"; content := VStr no_product_message; product := None |}.

Definition system_turn (text : string) : ChatMessage :=
  {| role := "system"; content := VStr text; product := None |}.

(** The completion request of a recommendation with grounding context
    [ctx], built when the transcript is [transcript]. *)
Definition recommendation_request cfg (ctx : string)
    (transcript : list ChatMessage) : CompletionRequest :=
  {| cr_model := gpt_deployment cfg;
     cr_messages := [system_turn system_prompt; system_turn ctx]
                    ++ recent_messages transcript;
     cr_temperature := Config.DEFAULT_TEMPERATURE;
     cr_max_tokens := Config.MAX_TOKENS |}.

(** [s] is a concatenation of elements of [ws]. *)
Definition all_of (ws : list (list ascii)) (s : list ascii) : Prop :=
  exists parts, Forall (fun p => In p ws) parts /\ s = concat parts.

Definition starts_with_any (ws : list (list ascii)) (s : list ascii) : Prop :=
  exists w r, In w ws /\ s = w ++ r.

Definition ends_with_any (ws : list (list ascii)) (s : list ascii) : Prop :=
  exists w r, In w ws /\ s = r ++ w.

(** ** Sample data *)

Definition empty_world : World :=
  {| embedding_requests := []; completion_requests := [];
     search_requests := []; st_calls := []; chat_messages := [] |}.

(** The value of a text of ASCII digits, read as a decimal numeral. *)
Fixpoint digits_value (acc : Z) (digits : list ascii) : option Z :=
  match digits with
  | [] => Some acc
  | c :: rest =>
      let code := Z.of_N (N_of_ascii c) in
      if (48 <=? code) && (code <=? 57)
      then digits_value (10 * acc + (code - 48)) rest
      else None
  end.

(** [int] on the texts of the samples: a text of ASCII digits is read as a
    decimal numeral, a text of letters is refused. *)
Definition sample_int (text : string) : Result Z :=
  match chars text with
  | [] => inl (ValueError "invalid literal for int() with base 10: ''")
  | digits =>
      match digits_value 0 digits with
      | Some n => inr n
      | None =>
          inl (ValueError ("invalid literal for int() with base 10: '"
                           +:+ text +:+ "'"))
      end
  end.

(** The configuration of a process whose environment is empty. *)
Definition default_config : Config.t := Config.class_attributes ∅ 1536.

(** A back end over a fixed catalogue that honours [top], an embedding
    service with one-dimensional vectors and a completion service with a
    constant answer. *)
Definition stub_remote (catalogue : list SearchResult) : Remote :=
  {| embeddings_create := fun _ _ => inr [[0.5%float]];
     completions_create := fun _ _ => inr [VStr "This coat suits the winter."];
     search := fun _ req => inr (firstn (Z.to_nat (top req)) catalogue) |}.

(** Services that are down: every call raises. *)
Definition failing_remote (e : PyExn) : Remote :=
  {| embeddings_create := fun _ _ => inl e;
     completions_create := fun _ _ => inl e;
     search := fun _ _ => inl e |}.

Definition stub_builtins : Builtins :=
  {| repr_float := fun _ => "0.0";
     repr_list := fun _ => "[]";
     format_float_grouped := fun _ => "0.0" |}.

Definition coat_result : SearchResult :=
  {| items := {[ "id" := VStr "p-001"; "name" := VStr "Wool coat";
                 "brand" := VStr "Nord"; "price" := VInt 25000;
                 "imageTags" := VList [VStr "winter"; VStr "coat"] ]};
     attributes := {[ "@search.score" := VFloat 0.87%float ]} |}.

(** A payload whose tag collection is an explicit null. *)
Definition null_tags_result : SearchResult :=
  {| items := {[ "id" := VStr "p-002"; "imageTags" := VNone ]};
     attributes := ∅ |}.

Definition sample_turn (n : Z) : ChatMessage :=
  {| role := if Z.even n then "user" else "assistant";
     content := VStr ("turn " +:+ str_int n);
     product := None |}.

Definition ten_turns : list ChatMessage :=
  map sample_turn [0; 1; 2; 3; 4; 5; 6; 7; 8; 9].

Definition world_with (transcript : list ChatMessage) : World :=
  {| embedding_requests := []; completion_requests := [];
     search_requests := []; st_calls := []; chat_messages := transcript |}.

Definition coat_product : PyDict := _process_result coat_result.

Definition coat_context : string :=
  Eval vm_compute in
    match product_context stub_builtins coat_product with
    | inr s => s
    | inl _ => ""
    end.

(** ** Further vocabulary *)

(** [search_fields if search_fields else None] *)
Definition selected_fields (search_fields : list string) : option (list string) :=
  match search_fields with [] => None | _ => Some search_fields end.

(** The keys of a product dictionary. *)
Definition PRODUCT_KEYS : list string :=
  ["id"; "name"; "brand"; "description"; "price"; "imageUrl"; "imageCaption";
   "imageDescription"; "imageTags"; "score"; "reranker_score"].

(** The search requests that a retrieval through [search_products] adds,
    given the outcome of the embedding call. *)
Definition searches_of_strategy (query strategy : string)
    (search_fields : list string) (embedding : Result (list float))
  : list SearchRequest :=
  if String.eqb strategy "keyword"
  then [keyword_request query (selected_fields search_fields)
          Config.MAX_SEARCH_RESULTS]
  else match embedding with
       | inl _ => []
       | inr v =>
           if String.eqb strategy "vector"
           then [vector_request Config.MAX_SEARCH_RESULTS v]
           else [hybrid_request query (selected_fields search_fields)
                   Config.MAX_SEARCH_RESULTS v]
       end.

(** The assistant turn that reports an exception. *)
Definition error_turn (e : PyExn) : ChatMessage :=
  {| role := "assistant";
     content := VStr (error_message_prefix +:+ exn_str e);
     product := None |}.

(** The assistant turn of a recommendation. *)
Definition recommendation_turn (text : PyVal) (top_product : PyDict) : ChatMessage :=
  {| role := "assistant"; content := text; product := Some top_product |}.

(** A completion service that has no choice to offer. *)
Definition no_choice_remote (catalogue : list SearchResult) : Remote :=
  {| embeddings_create := embeddings_create (stub_remote catalogue);
     completions_create := fun _ _ => inr [];
     search := search (stub_remote catalogue) |}.

(** A payload whose price is a string. *)
Definition text_price_result : SearchResult :=
  {| items := {[ "id" := VStr "p-004"; "name" := VStr "Scarf";
                 "price" := VStr "12000" ]};
     attributes := ∅ |}.

(** The values that [format(v, ",")], the tag join and [format(v, ".4f")]
    accept. *)
Definition groupable (v : PyVal) : bool :=
  match v with
  | VStr _ | VList _ => false
  | _ => true
  end.

Definition is_str (v : PyVal) : bool :=
  match v with VStr _ => true | _ => false end.

Definition joinable (v : PyVal) : bool :=
  match v with
  | VList l => forallb is_str l
  | _ => true
  end.

Definition fixed_point_formattable (v : PyVal) : bool :=
  match v with
  | VStr _ | VList _ => false
  | VInt n => match int_to_float n with inr _ => true | inl _ => false end
  | _ => true
  end.

(** A field that the payload does not have, or has as null. *)
Definition blank (field : option PyVal) : Prop :=
  field = None \/ field = Some VNone.

(** The grounding context in which every line holds its placeholder. *)
Definition placeholder_context : string :=
  product_context_template "N/A" "N/A" no_price_info "N/A" "N/A" "N/A" "N/A" "N/A".

(** No element of [ws] is a proper prefix of an element of [ws]. *)
Definition prefix_free (ws : list (list ascii)) : bool :=
  forallb (fun w =>
             forallb (fun w' => match drop_prefix w w' with
                                | Some (_ :: _) => false
                                | _ => true
                                end) ws) ws.

(** * The rest of the application *)

(** ** Document upload ([services/azure_search_service.py]) *)

(** [search_client.upload_documents(documents=...)]: for each result, whether
    it succeeded, or the exception raised. The functions below give how they
    end, with the value returned or the exception raised, and the lines they
    print; [except Exception] catches every exception of the call. *)
Definition upload_product (upload_documents : list PyDict -> Result (list bool))
    (product : PyDict) : Result bool * list string :=
  match
    match upload_documents [product] with
    | inr result => first_item result
    | inl e => inl e
    end
  with
  | inr succeeded => (inr succeeded, [])
  | inl e => (inr false, ["Error uploading product: " +:+ exn_str e])
  end.

(** [sum(1 for r in results if r.succeeded)] *)
Definition success_count (results : list bool) : Z :=
  fold_left Z.add
    (map (fun _ => 1) (List.filter (fun succeeded => succeeded) results)) 0.

Definition upload_products (upload_documents : list PyDict -> Result (list bool))
    (products : list PyDict) : Result Z * list string :=
  match
    match upload_documents products with
    | inr results => inr (success_count results)
    | inl e => inl e
    end
  with
  | inr count => (inr count, [])
  | inl e => (inr 0, ["Error uploading products: " +:+ exn_str e])
  end.

(** ** Literals of the product grid ([app.py]) *)

Definition DQ : string := String (ascii_of_N 34) EmptyString.

Definition CARD_STYLE : string :=
  "
                <style>
                img {
                    height: 280px !important;
                    object-fit: cover !important;
                }
                hr {
                    margin-top: 0.5rem !important;
                    margin-bottom: 0.5rem !important;
                }
                </style>
                ".

Definition PLACEHOLDER_IMAGE : string := "https://via.placeholder.com/300x300?text=No+Image".

Definition name_markdown (name : string) : string :=
  "**" +:+ name +:+ "**".

Definition brand_markdown (brand : string) : string :=
  "<span style='color: #666; font-size: 0.9rem;'>🏷️ " +:+ brand +:+ "</span>".

Definition price_markdown (price : string) : string :=
  "<span style='color: #666; font-size: 0.9rem;'>💰 " +:+ price +:+ "원</span>".

Definition score_caption (score : string) : string :=
  "⭐ 관련도: " +:+ score.

Definition description_div (desc : string) : string :=
  "<div style=" +:+ DQ +:+ "height: 70px; overflow: hidden; margin-top: 8px;" +:+ DQ +:+ "><small>📝 " +:+ desc +:+ "</small></div>".

Definition empty_description_div : string :=
  "<div style=" +:+ DQ +:+ "height: 70px; margin-top: 8px;" +:+ DQ +:+ "></div>".

Definition caption_div (caption : string) : string :=
  "<div style=" +:+ DQ +:+ "height: 55px; overflow: hidden; margin-top: 8px; padding-top: 8px; border-top: 1px solid #e0e0e0;" +:+ DQ +:+ "><small>💬 " +:+ caption +:+ "</small></div>".

Definition empty_caption_div : string :=
  "<div style=" +:+ DQ +:+ "height: 55px; margin-top: 8px; padding-top: 8px; border-top: 1px solid #e0e0e0;" +:+ DQ +:+ "></div>".

Definition tags_div (tags_str : string) : string :=
  "<div style=" +:+ DQ +:+ "height: 70px; overflow: hidden; margin-top: 8px; padding-top: 8px; border-top: 1px solid #e0e0e0;" +:+ DQ +:+ "><small>🏷️ " +:+ tags_str +:+ "</small></div>".

Definition empty_tags_div : string :=
  "<div style=" +:+ DQ +:+ "height: 70px; margin-top: 8px; padding-top: 8px; border-top: 1px solid #e0e0e0;" +:+ DQ +:+ "></div>".

Definition DETAILS_LABEL : string := "🔍 상세보기".

Definition NO_PRODUCTS_INFO : string := "😔 표시할 상품이 없습니다.".

Definition grid_header (total_products page total_pages : string) : string :=
  "### 📦 전체 " +:+ total_products +:+ "개 상품 | 📄 " +:+ page +:+ "/" +:+ total_pages +:+ " 페이지".

Definition PREV_LABEL : string := "◀️ 이전".

Definition NEXT_LABEL : string := "다음 ▶️".

Definition page_indicator (page total_pages : string) : string :=
  "<h4 style='text-align: center;'>페이지 " +:+ page +:+ " / " +:+ total_pages +:+ "</h4>".

Definition SEARCH_EMPTY_WARNING : string := "😔 검색 결과가 없습니다.".

Definition QUERY_MISSING_WARNING : string := "검색어를 입력하세요.".

Definition found_message (count : string) : string :=
  "✅ " +:+ count +:+ "개 상품을 찾았습니다!".

Definition loaded_message (count : string) : string :=
  "✅ " +:+ count +:+ "개 상품을 불러왔습니다!".

Definition NOTHING_LOADED_INFO : string :=
  "상품이 없습니다. 전체보기를 클릭하여 상품을 불러오세요.".

Definition search_title (search_query : string) : string :=
  "🔍 '" +:+ search_query +:+ "' 검색 결과".

Definition LISTING_TITLE : string := "전체 상품 목록".

(** ** Rendering *)

(** The Streamlit calls of the pages, with the arguments that depend on the
    data. The containers and columns they are placed in are not recorded,
    except the chat message container, which is named after the role. *)
Inductive Widget : Type :=
| st_image (image : PyVal)
| st_markdown (body : string)
| st_caption (body : string)
| st_write (body : PyVal)
| st_expander (label : string)
| st_info (body : string)
| st_warning (body : string)
| st_success (body : string)
| st_subheader (body : string)
| st_divider
| st_button (label : string) (disabled : bool)
| st_chat_message (name : string).

(** A rendering: what has been shown, and the value or the exception it
    ends with. *)
Definition Render (A : Type) : Type := list Widget * Result A.

Definition render_ret {A} (a : A) : Render A := ([], inr a).

Definition render_bind {A B} (m : Render A) (k : A -> Render B) : Render B :=
  match m with
  | (shown, inr a) => let (shown', r) := k a in (shown ++ shown', r)
  | (shown, inl e) => (shown, inl e)
  end.

Definition emit (w : Widget) : Render unit := ([w], inr tt).

Definition render_lift {A} (r : Result A) : Render A := ([], r).

Notation "x <~ m ;; k" := (render_bind m (fun x => k))
  (at level 100, m at next level, right associativity) : py_scope.
Notation "m ~;; k" := (render_bind m (fun _ => k))
  (at level 100, right associativity) : py_scope.

(** [for x in l: body(x)] *)
Fixpoint render_for {A} (l : list A) (body : A -> Render unit) : Render unit :=
  match l with
  | [] => render_ret tt
  | x :: rest => body x ~;; render_for rest body
  end.

(** ** Lengths and slices *)

(** A byte that continues a UTF-8 sequence. *)
Definition is_continuation (c : ascii) : bool :=
  (128 <=? N_of_ascii c)%N && (N_of_ascii c <? 192)%N.

(** [len(s)] for a string: the number of its characters. *)
Definition str_len (s : list ascii) : nat :=
  length (List.filter (fun c => negb (is_continuation c)) s).

(** [s[:n]] for a string: its first [n] characters. *)
Fixpoint str_take (n : nat) (s : list ascii) : list ascii :=
  match s with
  | [] => []
  | c :: rest =>
      if is_continuation c then c :: str_take n rest
      else match n with
           | O => []
           | S n' => c :: str_take n' rest
           end
  end.

Definition no_len (v : PyVal) : PyExn :=
  TypeError ("object of type '" +:+ type_name v +:+ "' has no len()").

(** [len(v)] *)
Definition py_len (v : PyVal) : Result Z :=
  match v with
  | VStr s => inr (Z.of_nat (str_len (chars s)))
  | VList l => inr (Z.of_nat (length l))
  | _ => inl (no_len v)
  end.

(** [text = text[:limit] + "..."] when [len(text) > limit]. *)
Definition clip (limit : nat) (text : PyVal) : Result PyVal :=
  match py_len text with
  | inl e => inl e
  | inr n =>
      if Z.of_nat limit <? n then
        match text with
        | VStr s => inr (VStr (of_chars (str_take limit (chars s)) +:+ "..."))
        | _ =>
            inl (TypeError ("can only concatenate list (not " +:+ DQ +:+ "str"
                            +:+ DQ +:+ ") to list"))
        end
      else inr text
  end.

(** [l[start:stop]] with the indices of Python: a negative index counts
    from the end, and both are clamped to the list. *)
Definition slice_index (len i : Z) : nat :=
  Z.to_nat (if i <? 0 then Z.max (i + len) 0 else Z.min i len).

Definition py_slice {A} (l : list A) (start stop : Z) : list A :=
  let len := Z.of_nat (length l) in
  skipn (slice_index len start) (firstn (slice_index len stop) l).

(** [range(start, stop, step)] for a positive step. *)
Fixpoint py_range (fuel : nat) (start stop step : Z) : list Z :=
  match fuel with
  | O => []
  | S fuel' =>
      if start <? stop then start :: py_range fuel' (start + step) stop step
      else []
  end.

(** ** Division and ceiling *)

Definition exact_int (n : Z) : spec_float :=
  match n with
  | Z0 => S754_zero false
  | Zpos p => S754_finite false p 0
  | Zneg p => S754_finite true p 0
  end.

(** [a / b] on integers: the double nearest to the quotient. *)
Definition true_divide (a b : Z) : Result spec_float :=
  if b =? 0 then inl (mkExn "ZeroDivisionError" "division by zero")
  else match SFdiv prec emax (exact_int a) (exact_int b) with
       | S754_infinity _ =>
           inl (OverflowError "integer division result too large for a float")
       | q => inr q
       end.

(** [math.ceil(x)] *)
Definition math_ceil (x : spec_float) : Result Z :=
  match x with
  | S754_nan => inl (ValueError "cannot convert float NaN to integer")
  | S754_infinity _ =>
      inl (OverflowError "cannot convert float infinity to integer")
  | S754_zero _ => inr 0
  | S754_finite s m e =>
      if 0 <=? e then inr ((if s then -1 else 1) * (Z.pos m * 2 ^ e))
      else if s then inr (- (Z.pos m / 2 ^ (- e)))
      else inr (- ((- Z.pos m) / 2 ^ (- e)))
  end.

(** ** The product grid ([app.py]) *)

Definition PRODUCTS_PER_PAGE : Z := 9.

Module Pagination.

(** The local variables of [display_products_grid]. *)
Record t : Type := mk {
  total_products : Z;
  total_pages : Z;
  page : Z;
  start_idx : Z;
  end_idx : Z;
  page_products : list PyDict
}.

End Pagination.

(** The computation of [display_products_grid] for a list of products that
    is not empty. *)
Definition paginate (products : list PyDict) (page : Z) : Result Pagination.t :=
  let total_products := Z.of_nat (length products) in
  match
    match true_divide total_products PRODUCTS_PER_PAGE with
    | inr q => math_ceil q
    | inl e => inl e
    end
  with
  | inl e => inl e
  | inr total_pages =>
      let page := Z.max 1 (Z.min page total_pages) in
      let start_idx := (page - 1) * PRODUCTS_PER_PAGE in
      let end_idx := Z.min (start_idx + PRODUCTS_PER_PAGE) total_products in
      inr {| Pagination.total_products := total_products;
             Pagination.total_pages := total_pages;
             Pagination.page := page;
             Pagination.start_idx := start_idx;
             Pagination.end_idx := end_idx;
             Pagination.page_products := py_slice products start_idx end_idx |}
  end.

Inductive Button : Type := Prev | Next.

Definition is_prev (clicked : option Button) : bool :=
  match clicked with Some Prev => true | _ => false end.

Definition is_next (clicked : option Button) : bool :=
  match clicked with Some Next => true | _ => false end.

(** The rows of three columns: [for i in range(0, len(page_products), 3)],
    [for j, col in enumerate(cols)], [if i + j < len(page_products)]. *)
Definition render_cards (card : PyDict -> Render unit)
    (page_products : list PyDict) : Render unit :=
  let len := Z.of_nat (length page_products) in
  render_for (py_range (length page_products) 0 len 3) (fun i =>
    render_for [0; 1; 2] (fun j =>
      if i + j <? len then
        match page_products !! Z.to_nat (i + j) with
        | Some product => card product
        | None => render_lift (inl (IndexError "list index out of range"))
        end
      else render_ret tt)).

Section Presentation.

Context (cfg : Config.t) (remote : Remote) (py : Builtins).

(** [desc = product['description']], clipped, inside its [div]; the empty
    [div] when there is none. *)
Definition clipped_div (limit : nat) (wrap : string -> string) (empty : string)
    (text : PyVal) : Render unit :=
  if truthy text then
    clipped <~ render_lift (clip limit text) ;;
    emit (st_markdown (wrap (py_str py clipped)))
  else emit (st_markdown empty).

(** [" • ".join([f"#{tag}" for tag in tags])] *)
Definition hash_tags (tags : list PyVal) : string :=
  join " • " (map (fun tag => "#" +:+ py_str py tag) tags).

Definition display_product_card (product : PyDict) (show_score : bool)
  : Render unit :=
  (if truthy (dict_get product "imageUrl")
   then emit (st_image (dict_get product "imageUrl")) ~;;
        emit (st_markdown CARD_STYLE)
   else emit (st_image (VStr PLACEHOLDER_IMAGE))) ~;;
  emit (st_markdown
          (name_markdown (py_str py (dict_get_default product "name" (VStr "N/A"))))) ~;;
  emit (st_markdown
          (brand_markdown (py_str py (dict_get_default product "brand" (VStr "N/A"))))) ~;;
  (price <~ render_lift (format_grouped py (dict_get_default product "price" (VInt 0))) ;;
   emit (st_markdown (price_markdown price))) ~;;
  (if show_score && truthy (dict_get product "score")
   then score <~ render_lift (format_4f (dict_get product "score")) ;;
        emit (st_caption (score_caption score))
   else render_ret tt) ~;;
  clipped_div 80 description_div empty_description_div
    (dict_get product "description") ~;;
  clipped_div 50 caption_div empty_caption_div
    (dict_get product "imageCaption") ~;;
  (match dict_get product "imageTags" with
   | VList ((_ :: _) as tags) => emit (st_markdown (tags_div (hash_tags tags)))
   | _ => emit (st_markdown empty_tags_div)
   end) ~;;
  (if truthy (dict_get product "imageDescription")
   then emit (st_expander DETAILS_LABEL) ~;;
        emit (st_write (dict_get product "imageDescription"))
   else render_ret tt).

(** [display_products_grid]; [clicked] is the button pressed in this run,
    if any, and the result is the page that the pressed button stores in
    [st.session_state.current_page] before [st.rerun()]. A disabled button
    cannot be pressed. *)
Definition display_products_grid (products : list PyDict) (page : Z)
    (show_scores : bool) (clicked : option Button) : Render (option Z) :=
  match products with
  | [] => emit (st_info NO_PRODUCTS_INFO) ~;; render_ret None
  | _ =>
      pg <~ render_lift (paginate products page) ;;
      let page := Pagination.page pg in
      let total_pages := Pagination.total_pages pg in
      emit (st_markdown
              (grid_header (str_int (Pagination.total_products pg))
                 (str_int page) (str_int total_pages))) ~;;
      emit st_divider ~;;
      render_cards (fun product => display_product_card product show_scores)
        (Pagination.page_products pg) ~;;
      emit st_divider ~;;
      emit (st_button PREV_LABEL (page <=? 1)) ~;;
      if is_prev clicked && negb (page <=? 1) then render_ret (Some (page - 1))
      else
        emit (st_markdown (page_indicator (str_int page) (str_int total_pages))) ~;;
        emit (st_button NEXT_LABEL (total_pages <=? page)) ~;;
        if is_next clicked && negb (total_pages <=? page)
        then render_ret (Some (page + 1))
        else render_ret None
  end.

End Presentation.

(** ** The sidebar and the product list of [main] *)

Module Session.

(** The part of [st.session_state] that the product pages use. *)
Record t : Type := mk {
  products : list PyDict;
  current_page : Z;
  is_search_mode : bool;
  search_query : string
}.

End Session.

Section Pages.

Context (cfg : Config.t) (remote : Remote) (py : Builtins).

(** The search button: [if st.button("검색", ...)]. The result is the session
    state afterwards and the notice shown. *)
Definition search_clicked (search_query strategy : string)
    (search_fields : list string) (s : Session.t) : M (Session.t * list Widget) :=
  if negb (String.eqb search_query "") then
    let s1 := {| Session.products := Session.products s;
                 Session.current_page := Session.current_page s;
                 Session.is_search_mode := Session.is_search_mode s;
                 Session.search_query := search_query |} in
    results <- search_products cfg remote search_query strategy search_fields ;;
    match results with
    | _ :: _ =>
        ret ({| Session.products := results;
                Session.current_page := 1;
                Session.is_search_mode := true;
                Session.search_query := search_query |},
             [st_success (found_message (str_int (Z.of_nat (length results))))])
    | [] => ret (s1, [st_warning SEARCH_EMPTY_WARNING])
    end
  else ret (s, [st_warning QUERY_MISSING_WARNING]).

(** The show-all button: [if st.button("전체보기", ...)]. *)
Definition show_all_clicked (s : Session.t) : M (Session.t * list Widget) :=
  all_products <- load_all_products remote ;;
  ret ({| Session.products := all_products;
          Session.current_page := 1;
          Session.is_search_mode := false;
          Session.search_query := "" |},
       [st_success (loaded_message (str_int (Z.of_nat (length all_products))))]).

(** The product list view: the session state afterwards and what is
    rendered; a pressed page button stores the new page. *)
Definition product_list_view (s : Session.t) (clicked : option Button)
  : M (Session.t * Render unit) :=
  products <- (match Session.products s with
               | [] => load_all_products remote
               | loaded => ret loaded
               end) ;;
  match products with
  | _ :: _ =>
      let title_text :=
        if Session.is_search_mode s then search_title (Session.search_query s)
        else LISTING_TITLE in
      let grid := display_products_grid py products (Session.current_page s)
                    (Session.is_search_mode s) clicked in
      ret ({| Session.products := products;
              Session.current_page :=
                match snd grid with
                | inr (Some new_page) => new_page
                | _ => Session.current_page s
                end;
              Session.is_search_mode := Session.is_search_mode s;
              Session.search_query := Session.search_query s |},
           (st_subheader title_text :: fst grid,
            match snd grid with inr _ => inr tt | inl e => inl e end))
  | [] =>
      ret ({| Session.products := products;
              Session.current_page := Session.current_page s;
              Session.is_search_mode := Session.is_search_mode s;
              Session.search_query := Session.search_query s |},
           ([st_info NOTHING_LOADED_INFO], inr tt))
  end.

End Pages.

(** ** More sample data *)

(** A catalogue entry without a price. *)
Definition unpriced_result : SearchResult :=
  {| items := {[ "id" := VStr "p-006"; "name" := VStr "Gloves" ]};
     attributes := ∅ |}.

Definition numbered_product (n : Z) : PyDict :=
  {[ "id" := VStr (str_int n); "price" := VInt (1000 * n) ]}.

Definition twenty_products : list PyDict :=
  map numbered_product
    [1; 2; 3; 4; 5; 6; 7; 8; 9; 10; 11; 12; 13; 14; 15; 16; 17; 18; 19; 20].

Definition empty_session : Session.t :=
  {| Session.products := []; Session.current_page := 1;
     Session.is_search_mode := false; Session.search_query := "" |}.

(** A value that can be shown clipped: nothing to show, or a text or a list
    that [clip] accepts. *)
Definition clippable (limit : nat) (v : PyVal) : bool :=
  negb (truthy v) ||
  match clip limit v with inr _ => true | inl _ => false end.

(** The products shown on a page; no product when the page cannot be
    computed. *)
Definition page_of (products : list PyDict) (page : Z) : list PyDict :=
  match paginate products page with
  | inr pg => Pagination.page_products pg
  | inl _ => []
  end.

(** The numbers from 1 to [n]. *)
Definition pages_upto (n : Z) : list Z :=
  map Z.of_nat (seq 1 (Z.to_nat n)).

(** The page count computed through the double quotient agrees with the
    integer ceiling of [n / 9]. *)
Definition page_count_ok (n : Z) : bool :=
  match true_divide n PRODUCTS_PER_PAGE with
  | inr q =>
      match math_ceil q with
      | inr k => k =? (n + 8) / 9
      | inl _ => false
      end
  | inl _ => false
  end.

(** The largest number of products for which the page count is checked
    below; the application lists at most 100. *)
Definition CHECKED_PRODUCTS : nat := 1000.

(** One row of the grid: the body of the outer loop of [render_cards]. *)
Definition row_body (card : PyDict -> Render unit) (page_products : list PyDict)
    (i : Z) : Render unit :=
  render_for [0; 1; 2] (fun j =>
    if i + j <? Z.of_nat (length page_products) then
      match page_products !! Z.to_nat (i + j) with
      | Some product => card product
      | None => render_lift (inl (IndexError "list index out of range"))
      end
    else render_ret tt).

Definition is_button (w : Widget) : bool :=
  match w with st_button _ _ => true | _ => false end.

(** Nothing of what a rendering shows is a button. *)
Definition buttonless {A} (r : Render A) : Prop :=
  Forall (fun w => is_button w = false) (fst r).

(** ** The chat transcript of [main] *)

Definition GREETING_INFO : string := "👋 안녕하세요! 상품에 대해 무엇이든 물어보세요.".

Definition recommended_heading (name : string) : string :=
  "#### 추천 상품: " +:+ name.

Definition PRODUCT_DETAILS_LABEL : string := "📦 상품 상세 정보 보기".

Definition detail_name (name : string) : string :=
  "**상품명:** " +:+ name.

Definition detail_brand (brand : string) : string :=
  "**브랜드:** " +:+ brand.

Definition detail_price (price_str : string) : string :=
  "**가격:** " +:+ price_str.

Definition DESCRIPTION_HEADING : string := "**📝 상품 설명**".

Definition CAPTION_HEADING : string := "**💬 이미지 캡션**".

Definition IMAGE_DESCRIPTION_HEADING : string := "**🖼️ 이미지 상세 설명**".

Definition TAGS_HEADING : string := "**🏷️ 태그**".

Definition relevance_caption (score : string) : string :=
  "⭐ 검색 관련도: " +:+ score.

(** [message["role"] == "assistant" and message.get("product")]: the product
    of an assistant turn, when it is a dictionary that is not empty. *)
Definition shown_product (message : ChatMessage) : option PyDict :=
  if String.eqb (role message) "assistant" then
    match product message with
    | Some p => if bool_decide (p = ∅) then None else Some p
    | None => None
    end
  else None.

Section Transcript.

Context (py : Builtins).

(** The body of the expander of an assistant turn with a product. *)
Definition product_details (product : PyDict) : Render unit :=
  (if truthy (dict_get product "imageUrl")
   then emit (st_image (dict_get product "imageUrl"))
   else render_ret tt) ~;;
  emit (st_markdown
          (detail_name (py_str py (dict_get_default product "name" (VStr "N/A"))))) ~;;
  emit (st_markdown
          (detail_brand (py_str py (dict_get_default product "brand" (VStr "N/A"))))) ~;;
  (price_s <~ render_lift (price_str py product) ;;
   emit (st_markdown (detail_price price_s))) ~;;
  emit st_divider ~;;
  emit (st_markdown DESCRIPTION_HEADING) ~;;
  emit (st_write (dict_get_default product "description" (VStr "N/A"))) ~;;
  emit st_divider ~;;
  (if truthy (dict_get product "imageCaption")
   then emit (st_markdown CAPTION_HEADING) ~;;
        emit (st_write (dict_get product "imageCaption"))
   else render_ret tt) ~;;
  (if truthy (dict_get product "imageDescription")
   then emit (st_markdown IMAGE_DESCRIPTION_HEADING) ~;;
        emit (st_write (dict_get product "imageDescription"))
   else render_ret tt) ~;;
  (match dict_get product "imageTags" with
   | VList ((_ :: _) as tags) =>
       emit (st_markdown TAGS_HEADING) ~;;
       emit (st_write (VStr (hash_tags py tags)))
   | _ => render_ret tt
   end) ~;;
  (if truthy (dict_get product "score")
   then emit st_divider ~;;
        score <~ render_lift (format_4f (dict_get product "score")) ;;
        emit (st_caption (relevance_caption score))
   else render_ret tt).

(** One turn of the transcript: the body of
    [for message in st.session_state.chat_messages]. *)
Definition display_chat_message (message : ChatMessage) : Render unit :=
  emit (st_chat_message (role message)) ~;;
  (match shown_product message with
   | Some product =>
       emit (st_markdown
               (recommended_heading
                  (py_str py (dict_get_default product "name" (VStr "N/A"))))) ~;;
       emit st_divider
   | None => render_ret tt
   end) ~;;
  emit (st_write (content message)) ~;;
  (match shown_product message with
   | Some product =>
       emit (st_expander PRODUCT_DETAILS_LABEL) ~;;
       product_details product
   | None => render_ret tt
   end).

(** The transcript of the chatbot view. *)
Definition display_chat_messages (chat_messages : list ChatMessage)
  : Render unit :=
  match chat_messages with
  | [] => emit (st_info GREETING_INFO)
  | _ :: _ => render_for chat_messages display_chat_message
  end.

End Transcript.

(** The products that the transcript view can show: the price is null or
    can be grouped, and the score is zero, null or can be formatted. *)
Definition presentable (product : PyDict) : bool :=
  groupable (dict_get_default product "price" (VInt 0))
  && (negb (truthy (dict_get product "score"))
      || fixed_point_formattable (dict_get product "score")).

(** Every turn of a transcript can be shown. *)
Definition renderable (py : Builtins) (chat_messages : list ChatMessage) : Prop :=
  Forall (fun message => snd (display_chat_message py message) = inr tt)
         chat_messages.

(** * Properties *)

Ltac run_monad :=
  unfold bind, ret, lift, raise, try_except, modify, get_world,
    call_embeddings, call_completions, call_search; simpl.

(** ** Configuration *)

Lemma missing_fields_spec (c : Config.t) (field : string) :
  In field (Config.missing_fields c) <->
  In field Config.required_fields /\ truthy (Config.getattr c field) = false.
Proof.
  unfold Config.missing_fields. rewrite filter_In.
  destruct (truthy (Config.getattr c field)); simpl; intuition congruence.
Qed.

Lemma getenv_missing_falsy (env : Env) (name : string) :
  env !! name = None \/ env !! name = Some "" ->
  truthy (getenv env name) = false.
Proof.
  unfold getenv. intros [-> | ->]; reflexivity.
Qed.

Lemma load_getattr (env : Env) (dimension : Z) (field : string) :
  In field Config.required_fields ->
  Config.getattr (Config.class_attributes env dimension) field = getenv env field.
Proof.
  simpl. intros [<- | [<- | [<- | []]]]; reflexivity.
Qed.

Lemma validate_missing (c : Config.t) :
  Config.missing_fields c <> [] ->
  Config.validate c =
    inl (ValueError ("Missing required configuration: "
                     +:+ join ", " (Config.missing_fields c))).
Proof.
  unfold Config.validate. destruct (Config.missing_fields c); congruence.
Qed.

(** C3, as amended. When a required connection setting is absent from the
    environment (or empty) and [int] accepts [EMBEDDING_DIMENSION],
    [Config.validate] raises a [ValueError] that names the missing settings,
    and the validation run at import catches it: a warning is printed and the
    import finishes without raising. When [int] refuses
    [EMBEDDING_DIMENSION], its exception ends the import before the
    validation, and nothing is printed. *)
Theorem config_validation_warns (py_int : string -> Result Z) (env : Env)
    (name : string) :
  In name Config.required_fields ->
  env !! name = None \/ env !! name = Some "" ->
  match py_int (getenv_default env "EMBEDDING_DIMENSION" "1536") with
  | inr dimension =>
      exists c,
        Config.load py_int env = inr c /\
        Config.EMBEDDING_DIMENSION c = dimension /\
        In name (Config.missing_fields c) /\
        Config.validate c
          = inl (ValueError ("Missing required configuration: "
                             +:+ join ", " (Config.missing_fields c))) /\
        Config.import_module py_int env
          = (["⚠️ Configuration warning: "
              +:+ ("Missing required configuration: "
                   +:+ join ", " (Config.missing_fields c))], inr tt)
  | inl e =>
      Config.load py_int env = inl e /\
      Config.import_module py_int env = ([], inl e)
  end.
Proof.
  intros Hreq Hmiss. unfold Config.import_module, Config.load.
  destruct (py_int (getenv_default env "EMBEDDING_DIMENSION" "1536"))
    as [e | dimension]; [split; reflexivity|].
  set (c := Config.class_attributes env dimension).
  assert (Hin : In name (Config.missing_fields c)).
  { apply missing_fields_spec. split; [exact Hreq|].
    unfold c. rewrite load_getattr by exact Hreq.
    now apply getenv_missing_falsy. }
  assert (Hne : Config.missing_fields c <> []).
  { intros Heq. rewrite Heq in Hin. exact Hin. }
  exists c. split; [reflexivity|]. split; [reflexivity|].
  split; [exact Hin|]. split.
  - now apply validate_missing.
  - unfold Config.module_init. rewrite (validate_missing c Hne). reflexivity.
Qed.

Lemma config_validation_warns_witness :
  exists c,
    Config.load sample_int ∅ = inr c /\
    Config.EMBEDDING_DIMENSION c = 1536 /\
    In "AZURE_OPENAI_API_KEY" (Config.missing_fields c) /\
    Config.validate c
      = inl (ValueError ("Missing required configuration: "
                         +:+ join ", " (Config.missing_fields c))) /\
    Config.import_module sample_int ∅
      = (["⚠️ Configuration warning: "
          +:+ ("Missing required configuration: "
               +:+ join ", " (Config.missing_fields c))], inr tt).
Proof.
  refine (config_validation_warns sample_int ∅ "AZURE_OPENAI_API_KEY" _ _).
  - simpl. right. left. reflexivity.
  - left. reflexivity.
Defined.

(** C3, as stated, fails: with none of the required settings in the
    environment the import of the configuration module does not raise. *)
Lemma config_missing_settings_not_fatal :
  Config.load sample_int ∅ = inr default_config /\
  Config.missing_fields default_config = Config.required_fields /\
  Config.import_module sample_int ∅ =
    (["⚠️ Configuration warning: Missing required configuration: AZURE_OPENAI_ENDPOINT, AZURE_OPENAI_API_KEY, AZURE_SEARCH_SERVICE_ENDPOINT"],
     inr tt).
Proof.
  repeat split.
Qed.

(** ** Completion client *)

Lemma chat_completion_run cfg remote messages temperature max_tokens w :
  let req := {| cr_model := gpt_deployment cfg;
                cr_messages := messages;
                cr_temperature := or_float temperature Config.DEFAULT_TEMPERATURE;
                cr_max_tokens := or_int max_tokens Config.MAX_TOKENS |} in
  chat_completion cfg remote messages temperature max_tokens w =
    (match completions_create remote w req with
     | inr choices => first_item choices
     | inl e => inl e
     end, log_completion req w).
Proof.
  unfold chat_completion, bind, call_completions, lift. simpl.
  destruct (completions_create remote w _); reflexivity.
Qed.

(** C10. A caller-supplied temperature of 0.0 or token limit of 0 is falsy,
    so the request submitted to the completion back end carries the
    configured default (0.7, 1000) in its place. *)
Theorem chat_completion_zero_uses_default cfg remote messages w :
  (forall max_tokens, exists req,
      snd (chat_completion cfg remote messages (Some 0%float) max_tokens w)
        = log_completion req w /\
      cr_messages req = messages /\
      cr_temperature req = Config.DEFAULT_TEMPERATURE /\
      Config.DEFAULT_TEMPERATURE = 0.7%float) /\
  (forall temperature, exists req,
      snd (chat_completion cfg remote messages temperature (Some 0) w)
        = log_completion req w /\
      cr_messages req = messages /\
      cr_max_tokens req = Config.MAX_TOKENS /\
      Config.MAX_TOKENS = 1000).
Proof.
  split; intros x; rewrite chat_completion_run; simpl;
    eexists; (split; [reflexivity|]); simpl; auto.
Qed.

(** ** Result normalisation *)

Lemma _process_result_lookup (result : SearchResult) :
  Forall (fun key => _process_result result !! key
                     = Some (default VNone (items result !! key))) plain_fields /\
  _process_result result !! "imageTags"
    = Some (default (VList []) (items result !! "imageTags")) /\
  _process_result result !! "score"
    = Some (default VNone (attributes result !! "@search.score")) /\
  _process_result result !! "reranker_score"
    = Some (default VNone (attributes result !! "@search.reranker_score")).
Proof.
  unfold _process_result, plain_fields, dict_get, dict_get_default.
  repeat split; repeat constructor.
Qed.

Lemma _process_result_dom (result : SearchResult) :
  dom (_process_result result) = list_to_set PRODUCT_KEYS.
Proof.
  unfold _process_result. rewrite dom_list_to_map_L. reflexivity.
Qed.

(** C8, as amended. Every payload is normalised, without a failure, into a
    record with exactly the eleven product fields. Each of the eight fields
    [id], [name], [brand], [description], [price], [imageUrl],
    [imageCaption] and [imageDescription] is the value the payload has under
    that key, and [None] when the payload has no such key. [imageTags] is the
    value the payload has under that key, whatever it is, and the empty list
    when the payload has no such key. [score] and [reranker_score] are the
    attributes [@search.score] and [@search.reranker_score] of the result
    object, and [None] when it has none. No other key of the payload is
    carried over. *)
Theorem process_results_defaults (results : list SearchResult) :
  length (_process_results results) = length results /\
  Forall2 (fun result p =>
      dom p = list_to_set PRODUCT_KEYS /\
      Forall (fun key => p !! key = Some (default VNone (items result !! key)))
             plain_fields /\
      match items result !! "imageTags" with
      | None => p !! "imageTags" = Some (VList [])
      | Some v => p !! "imageTags" = Some v
      end /\
      p !! "score" = Some (default VNone (attributes result !! "@search.score")) /\
      p !! "reranker_score"
        = Some (default VNone (attributes result !! "@search.reranker_score")))
    results (_process_results results).
Proof.
  unfold _process_results. split; [apply length_map|].
  induction results as [|result rest IH]; simpl; constructor; [|exact IH].
  destruct (_process_result_lookup result) as (Hplain & Htags & Hscore & Hrr).
  split; [apply _process_result_dom|].
  repeat split; try assumption.
  rewrite Htags. destruct (items result !! "imageTags"); reflexivity.
Qed.

(** C8, as stated, fails: a payload whose [imageTags] is an explicit null
    is normalised into a record whose [imageTags] is [None], not a sequence. *)
Lemma process_results_null_tags :
  map (fun p => p !! "imageTags") (_process_results [null_tags_result])
    = [Some VNone].
Proof.
  reflexivity.
Qed.

(** ** Retrieval *)

Lemma get_embedding_run cfg remote text w :
  get_embedding cfg remote text w =
    (match embeddings_create remote w (embedding_request_for cfg text) with
     | inr data => first_item data
     | inl e => inl e
     end, log_embedding (embedding_request_for cfg text) w).
Proof.
  unfold get_embedding, embedding_request_for. run_monad.
  destruct (embeddings_create remote w _); reflexivity.
Qed.

Lemma keyword_search_run remote query search_fields top_k w :
  let req := keyword_request query search_fields
               (or_int top_k Config.MAX_SEARCH_RESULTS) in
  keyword_search remote query search_fields top_k w =
    (processed (search remote w req), log_search req w).
Proof.
  unfold keyword_search, keyword_request, processed. run_monad.
  destruct (search remote w _); reflexivity.
Qed.

Lemma get_all_products_run remote top_k w :
  let req := {| search_text := Some "*"; vector_queries := None;
                select := SELECT_FIELDS; top := top_k; search_fields := None |} in
  get_all_products remote top_k w =
    (processed (search remote w req), log_search req w).
Proof.
  unfold get_all_products, processed. run_monad.
  destruct (search remote w _); reflexivity.
Qed.

Lemma hybrid_search_run cfg remote query search_fields top_k w :
  let w1 := log_embedding (embedding_request_for cfg query) w in
  hybrid_search cfg remote query search_fields top_k w =
    match fst (get_embedding cfg remote query w) with
    | inl e => (inl e, w1)
    | inr v =>
        let req := hybrid_request query search_fields
                     (or_int top_k Config.MAX_SEARCH_RESULTS) v in
        (processed (search remote w1 req), log_search req w1)
    end.
Proof.
  unfold hybrid_search, hybrid_request, processed, bind at 1.
  rewrite get_embedding_run. simpl.
  destruct (match embeddings_create remote w _ with inl _ => _ | inr _ => _ end);
    [reflexivity|].
  run_monad. destruct (search remote _ _); reflexivity.
Qed.

Lemma vector_search_run cfg remote query search_fields top_k w :
  let w1 := log_embedding (embedding_request_for cfg query) w in
  vector_search cfg remote query search_fields top_k w =
    match fst (get_embedding cfg remote query w) with
    | inl e => (inl e, w1)
    | inr v =>
        let req := vector_request (or_int top_k Config.MAX_SEARCH_RESULTS) v in
        (processed (search remote w1 req), log_search req w1)
    end.
Proof.
  unfold vector_search, vector_request, processed, bind at 1.
  rewrite get_embedding_run. simpl.
  destruct (match embeddings_create remote w _ with inl _ => _ | inr _ => _ end);
    [reflexivity|].
  run_monad. destruct (search remote _ _); reflexivity.
Qed.

(** C2, as amended. A [top_k] of 0 is falsy and is replaced by
    [MAX_SEARCH_RESULTS]: each strategy then does exactly what it does when
    [top_k] is not given, the query goes out with [top = 5], and the result
    is what the back end answers to that query (its error, if it raises). *)
Theorem top_k_zero_is_default cfg remote query search_fields :
  keyword_search remote query search_fields (Some 0)
    = keyword_search remote query search_fields None /\
  vector_search cfg remote query search_fields (Some 0)
    = vector_search cfg remote query search_fields None /\
  hybrid_search cfg remote query search_fields (Some 0)
    = hybrid_search cfg remote query search_fields None /\
  forall w,
    keyword_search remote query search_fields (Some 0) w
      = (processed (search remote w (keyword_request query search_fields 5)),
         log_search (keyword_request query search_fields 5) w) /\
    (let w1 := log_embedding (embedding_request_for cfg query) w in
     vector_search cfg remote query search_fields (Some 0) w =
       match fst (get_embedding cfg remote query w) with
       | inl e => (inl e, w1)
       | inr v => (processed (search remote w1 (vector_request 5 v)),
                   log_search (vector_request 5 v) w1)
       end /\
     hybrid_search cfg remote query search_fields (Some 0) w =
       match fst (get_embedding cfg remote query w) with
       | inl e => (inl e, w1)
       | inr v => (processed (search remote w1 (hybrid_request query search_fields 5 v)),
                   log_search (hybrid_request query search_fields 5 v) w1)
       end).
Proof.
  repeat split; try reflexivity.
  - apply keyword_search_run.
  - apply vector_search_run.
  - apply hybrid_search_run.
Qed.

(** C2, as stated, fails: over a catalogue of one product, each of the
    three strategies called with [top_k = 0] returns that product. *)
Lemma top_k_zero_returns_products :
  fst (keyword_search (stub_remote [coat_result]) "coat" None (Some 0) empty_world)
    = inr [_process_result coat_result] /\
  fst (vector_search default_config (stub_remote [coat_result])
         "coat" None (Some 0) empty_world)
    = inr [_process_result coat_result] /\
  fst (hybrid_search default_config (stub_remote [coat_result])
         "coat" None (Some 0) empty_world)
    = inr [_process_result coat_result].
Proof.
  repeat split; vm_compute; reflexivity.
Qed.

(** *** Effects of the search methods on the world *)

Lemma keyword_search_embeddings remote query search_fields top_k w :
  embedding_requests (snd (keyword_search remote query search_fields top_k w))
    = embedding_requests w.
Proof.
  rewrite keyword_search_run. reflexivity.
Qed.

Lemma hybrid_search_embeddings cfg remote query search_fields top_k w :
  embedding_requests (snd (hybrid_search cfg remote query search_fields top_k w))
    = embedding_requests w ++ [embedding_request_for cfg query].
Proof.
  rewrite hybrid_search_run. simpl.
  destruct (fst (get_embedding cfg remote query w)); reflexivity.
Qed.

Lemma vector_search_embeddings cfg remote query search_fields top_k w :
  embedding_requests (snd (vector_search cfg remote query search_fields top_k w))
    = embedding_requests w ++ [embedding_request_for cfg query].
Proof.
  rewrite vector_search_run. simpl.
  destruct (fst (get_embedding cfg remote query w)); reflexivity.
Qed.

Lemma search_by_strategy_embeddings cfg remote query strategy search_fields w :
  embedding_requests
    (snd (search_by_strategy cfg remote query strategy search_fields w))
    = embedding_requests w ++ embeddings_of_strategy cfg strategy query.
Proof.
  unfold search_by_strategy, embeddings_of_strategy.
  destruct (String.eqb strategy "keyword").
  - rewrite keyword_search_embeddings, app_nil_r. reflexivity.
  - destruct (String.eqb strategy "vector").
    + apply vector_search_embeddings.
    + apply hybrid_search_embeddings.
Qed.

(** [try_except] with a handler that only reports through Streamlit. *)
Lemma try_except_st {A} (body : M A) (msg : PyExn -> string) (dflt : A) w :
  try_except body (fun e => modify (log_st (st_error (msg e))) ;;; ret dflt) w =
    match body w with
    | (inr a, w1) => (inr a, w1)
    | (inl e, w1) => (inr dflt, log_st (st_error (msg e)) w1)
    end.
Proof.
  unfold try_except. destruct (body w) as [[e | a] w1]; reflexivity.
Qed.

Lemma search_products_run cfg remote query strategy search_fields w :
  search_products cfg remote query strategy search_fields w =
    match search_by_strategy cfg remote query strategy search_fields w with
    | (inr products, w1) => (inr products, w1)
    | (inl e, w1) =>
        (inr [], log_st (st_error (search_error_prefix +:+ exn_str e)) w1)
    end.
Proof.
  unfold search_products.
  apply (try_except_st _ (fun e => search_error_prefix +:+ exn_str e)).
Qed.

Lemma load_all_products_run remote w :
  load_all_products remote w =
    match get_all_products remote 100 w with
    | (inr products, w1) => (inr products, w1)
    | (inl e, w1) =>
        (inr [], log_st (st_error (load_error_prefix +:+ exn_str e)) w1)
    end.
Proof.
  unfold load_all_products.
  apply (try_except_st _ (fun e => load_error_prefix +:+ exn_str e)).
Qed.

(** C7. Keyword retrieval sends nothing to the embedding client; vector and
    hybrid retrieval send exactly one request, for the query text, whatever
    [top_k] is and whether or not the calls succeed. The same holds through
    [search_products], where any strategy other than keyword and vector is
    hybrid. *)
Theorem embedding_calls_per_strategy cfg remote query search_fields top_k w :
  embedding_requests (snd (keyword_search remote query search_fields top_k w))
    = embedding_requests w /\
  embedding_requests (snd (vector_search cfg remote query search_fields top_k w))
    = embedding_requests w ++ [embedding_request_for cfg query] /\
  embedding_requests (snd (hybrid_search cfg remote query search_fields top_k w))
    = embedding_requests w ++ [embedding_request_for cfg query] /\
  forall strategy fields,
    length (embedding_requests
              (snd (search_products cfg remote query strategy fields w)))
      = (length (embedding_requests w)
         + if String.eqb strategy "keyword" then 0 else 1)%nat.
Proof.
  split; [apply keyword_search_embeddings|].
  split; [apply vector_search_embeddings|].
  split; [apply hybrid_search_embeddings|].
  intros strategy fields. rewrite search_products_run.
  pose proof (search_by_strategy_embeddings cfg remote query strategy fields w) as H.
  destruct (search_by_strategy cfg remote query strategy fields w) as [[e | l] w1];
    simpl in *; rewrite H, length_app; unfold embeddings_of_strategy;
    destruct (String.eqb strategy "keyword"); reflexivity.
Qed.

(** C5. [search_products] and [load_all_products] never raise: when the
    service call inside raises, whatever the remote error, the result is the
    empty list and the error text is shown with [st.error]; otherwise the
    result of the service call is passed on. With every remote service down,
    each strategy and the listing end that way. *)
Theorem retrieval_errors_are_caught cfg remote query strategy search_fields w :
  (exists products w', search_products cfg remote query strategy search_fields w
                       = (inr products, w')) /\
  (exists products w', load_all_products remote w = (inr products, w')) /\
  match search_by_strategy cfg remote query strategy search_fields w with
  | (inr products, w1) =>
      search_products cfg remote query strategy search_fields w = (inr products, w1)
  | (inl e, w1) =>
      search_products cfg remote query strategy search_fields w
        = (inr [], log_st (st_error (search_error_prefix +:+ exn_str e)) w1)
  end /\
  match get_all_products remote 100 w with
  | (inr products, w1) => load_all_products remote w = (inr products, w1)
  | (inl e, w1) =>
      load_all_products remote w
        = (inr [], log_st (st_error (load_error_prefix +:+ exn_str e)) w1)
  end /\
  forall e,
    fst (search_products cfg (failing_remote e) query strategy search_fields w)
      = inr [] /\
    st_calls (snd (search_products cfg (failing_remote e) query strategy
                     search_fields w))
      = st_calls w ++ [st_error (search_error_prefix +:+ exn_str e)] /\
    load_all_products (failing_remote e) w
      = (inr [], log_st (st_error (load_error_prefix +:+ exn_str e))
                   (log_search {| search_text := Some "*"; vector_queries := None;
                                  select := SELECT_FIELDS; top := 100;
                                  search_fields := None |} w)).
Proof.
  rewrite search_products_run, load_all_products_run.
  split; [|split; [|split; [|split]]].
  - destruct (search_by_strategy _ _ _ _ _ _) as [[e | l] w1]; eauto.
  - destruct (get_all_products _ _ _) as [[e | l] w1]; eauto.
  - destruct (search_by_strategy _ _ _ _ _ _) as [[e | l] w1]; reflexivity.
  - destruct (get_all_products _ _ _) as [[e | l] w1]; reflexivity.
  - intros e. rewrite search_products_run, load_all_products_run.
    rewrite get_all_products_run. simpl.
    unfold search_by_strategy.
    destruct (String.eqb strategy "keyword");
      [|destruct (String.eqb strategy "vector")];
      rewrite ?keyword_search_run, ?vector_search_run, ?hybrid_search_run,
        ?get_embedding_run; simpl; auto.
Qed.

(** ** The chatbot *)

Lemma search_products_frame cfg remote query strategy search_fields w :
  completion_requests (snd (search_products cfg remote query strategy search_fields w))
    = completion_requests w /\
  chat_messages (snd (search_products cfg remote query strategy search_fields w))
    = chat_messages w.
Proof.
  rewrite search_products_run. unfold search_by_strategy.
  destruct (String.eqb strategy "keyword");
    [|destruct (String.eqb strategy "vector")];
    rewrite ?keyword_search_run, ?vector_search_run, ?hybrid_search_run;
    simpl;
    try (destruct (fst (get_embedding cfg remote query w)); simpl; [auto|]);
    destruct (processed _); simpl; auto.
Qed.

Lemma chat_submit_no_match cfg remote py prompt w :
  fst (search_products cfg remote prompt "hybrid" ALL_SEARCH_FIELDS
         (append_chat (user_turn prompt) w)) = inr [] ->
  chat_submit cfg remote py prompt w =
    (inr tt,
     log_st st_rerun
       (append_chat apology_turn
          (snd (search_products cfg remote prompt "hybrid" ALL_SEARCH_FIELDS
                  (append_chat (user_turn prompt) w))))).
Proof.
  intros H. unfold chat_submit, respond, bind, try_except, modify. simpl.
  fold (user_turn prompt).
  destruct (search_products cfg remote prompt "hybrid" ALL_SEARCH_FIELDS
              (append_chat (user_turn prompt) w)) as [r w1].
  simpl in H. subst r. reflexivity.
Qed.

Lemma chat_submit_request cfg remote py prompt w top_product rest ctx :
  fst (search_products cfg remote prompt "hybrid" ALL_SEARCH_FIELDS
         (append_chat (user_turn prompt) w)) = inr (top_product :: rest) ->
  product_context py top_product = inr ctx ->
  completion_requests (snd (chat_submit cfg remote py prompt w))
    = completion_requests w
      ++ [recommendation_request cfg ctx (chat_messages w ++ [user_turn prompt])].
Proof.
  intros Hs Hctx.
  pose proof (search_products_frame cfg remote prompt "hybrid" ALL_SEARCH_FIELDS
                (append_chat (user_turn prompt) w)) as [Hc Hm].
  unfold chat_submit, respond, bind, try_except, modify, lift, get_world. simpl.
  fold (user_turn prompt).
  destruct (search_products cfg remote prompt "hybrid" ALL_SEARCH_FIELDS
              (append_chat (user_turn prompt) w)) as [r w1].
  simpl in Hs, Hc, Hm. subst r. rewrite Hctx.
  rewrite chat_completion_run. rewrite Hm.
  unfold recommendation_request, system_turn.
  destruct (match completions_create remote w1 _ with inl _ => _ | inr _ => _ end);
    simpl; rewrite Hc; reflexivity.
Qed.

(** C6. When retrieval for the utterance yields no product (no match, or a
    failure caught at the search boundary), the transcript receives the
    user turn and the fixed apology, without a product, and no request is
    made to the completion client. *)
Theorem no_match_apology_without_completion cfg remote py prompt w :
  fst (search_products cfg remote prompt "hybrid" ALL_SEARCH_FIELDS
         (append_chat (user_turn prompt) w)) = inr [] ->
  fst (chat_submit cfg remote py prompt w) = inr tt /\
  chat_messages (snd (chat_submit cfg remote py prompt w))
    = chat_messages w ++ [user_turn prompt; apology_turn] /\
  product apology_turn = None /\
  content apology_turn = VStr no_product_message /\
  completion_requests (snd (chat_submit cfg remote py prompt w))
    = completion_requests w.
Proof.
  intros H. rewrite (chat_submit_no_match _ _ _ _ _ H). simpl.
  destruct (search_products_frame cfg remote prompt "hybrid" ALL_SEARCH_FIELDS
              (append_chat (user_turn prompt) w)) as [Hc Hm].
  rewrite Hc, Hm. simpl. rewrite <- app_assoc. auto.
Qed.

Lemma no_match_apology_without_completion_witness :
  fst (chat_submit default_config (stub_remote []) stub_builtins
         "a red scarf" empty_world) = inr tt /\
  chat_messages (snd (chat_submit default_config (stub_remote []) stub_builtins
                        "a red scarf" empty_world))
    = chat_messages empty_world ++ [user_turn "a red scarf"; apology_turn] /\
  product apology_turn = None /\
  content apology_turn = VStr no_product_message /\
  completion_requests (snd (chat_submit default_config (stub_remote [])
                              stub_builtins "a red scarf" empty_world))
    = completion_requests empty_world.
Proof.
  apply (no_match_apology_without_completion default_config (stub_remote [])
           stub_builtins "a red scarf" empty_world).
  reflexivity.
Defined.

(** The window is a suffix of the transcript with at most seven entries:
    what is before it is left out. *)
Lemma recent_messages_window (transcript : list ChatMessage) :
  exists dropped,
    transcript = dropped ++ recent_messages transcript /\
    length (recent_messages transcript) = Nat.min 7 (length transcript).
Proof.
  unfold recent_messages.
  destruct (Z.ltb_spec 7 (Z.of_nat (length transcript))) as [Hlt | Hge].
  - exists (firstn (length transcript - 7) transcript).
    split; [symmetry; apply firstn_skipn|].
    rewrite List.length_skipn. lia.
  - exists []. split; [reflexivity | lia].
Qed.

(** The prompt of a recommendation, for a transcript of any length: the two
    system turns and the window of the transcript as it stands once the
    utterance is appended. *)
Lemma recommendation_prompt cfg remote py prompt w top_product rest ctx :
  fst (search_products cfg remote prompt "hybrid" ALL_SEARCH_FIELDS
         (append_chat (user_turn prompt) w)) = inr (top_product :: rest) ->
  product_context py top_product = inr ctx ->
  exists req dropped,
    completion_requests (snd (chat_submit cfg remote py prompt w))
      = completion_requests w ++ [req] /\
    chat_messages w ++ [user_turn prompt]
      = dropped ++ recent_messages (chat_messages w ++ [user_turn prompt]) /\
    cr_messages req
      = [system_turn system_prompt; system_turn ctx]
        ++ recent_messages (chat_messages w ++ [user_turn prompt]) /\
    length (cr_messages req)
      = (2 + Nat.min 7 (length (chat_messages w) + 1))%nat.
Proof.
  intros Hs Hctx.
  destruct (recent_messages_window (chat_messages w ++ [user_turn prompt]))
    as (dropped & Hsplit & Hlen).
  exists (recommendation_request cfg ctx (chat_messages w ++ [user_turn prompt])),
         dropped.
  split; [now apply (chat_submit_request _ _ _ _ _ _ _ _ Hs Hctx)|].
  split; [exact Hsplit|]. split; [reflexivity|].
  simpl. rewrite Hlen, List.length_app. reflexivity.
Qed.

(** C4, as amended. With ten turns in the transcript when the utterance
    arrives, the completion client receives one request of nine messages: the
    system instruction, the system turn with the grounding context, and the
    last seven entries of the transcript as it stands then, that is with the
    utterance appended (the last six earlier turns and the utterance). The
    four oldest turns are not sent in any form. *)
Theorem history_window_last_seven cfg remote py prompt w top_product rest ctx :
  length (chat_messages w) = 10%nat ->
  fst (search_products cfg remote prompt "hybrid" ALL_SEARCH_FIELDS
         (append_chat (user_turn prompt) w)) = inr (top_product :: rest) ->
  product_context py top_product = inr ctx ->
  exists req dropped window,
    completion_requests (snd (chat_submit cfg remote py prompt w))
      = completion_requests w ++ [req] /\
    chat_messages w ++ [user_turn prompt] = dropped ++ window /\
    length dropped = 4%nat /\
    length window = 7%nat /\
    window = skipn 4 (chat_messages w) ++ [user_turn prompt] /\
    cr_messages req = [system_turn system_prompt; system_turn ctx] ++ window /\
    length (cr_messages req) = 9%nat.
Proof.
  intros Hlen Hs Hctx.
  exists (recommendation_request cfg ctx (chat_messages w ++ [user_turn prompt])),
         (firstn 4 (chat_messages w)),
         (skipn 4 (chat_messages w) ++ [user_turn prompt]).
  split; [now apply (chat_submit_request _ _ _ _ _ _ _ _ Hs Hctx)|].
  destruct (chat_messages w) as [|m0 [|m1 [|m2 [|m3 [|m4 [|m5 [|m6 [|m7 [|m8 [|m9 [|m10 l]]]]]]]]]]];
    try discriminate Hlen.
  repeat split.
Qed.

Lemma history_window_last_seven_witness :
  exists req dropped window,
    completion_requests
      (snd (chat_submit default_config (stub_remote [coat_result]) stub_builtins
              "a warm coat" (world_with ten_turns)))
      = completion_requests (world_with ten_turns) ++ [req] /\
    chat_messages (world_with ten_turns) ++ [user_turn "a warm coat"]
      = dropped ++ window /\
    length dropped = 4%nat /\
    length window = 7%nat /\
    window = skipn 4 (chat_messages (world_with ten_turns))
             ++ [user_turn "a warm coat"] /\
    cr_messages req
      = [system_turn system_prompt; system_turn coat_context] ++ window /\
    length (cr_messages req) = 9%nat.
Proof.
  apply (history_window_last_seven default_config (stub_remote [coat_result])
           stub_builtins "a warm coat" (world_with ten_turns) coat_product []
           coat_context).
  - reflexivity.
  - reflexivity.
  - reflexivity.
Defined.

(** C4, as stated, fails: of the last seven of ten earlier turns only six
    are sent. The request still has nine messages, the ninth being the
    utterance; the seventh turn from the end of the earlier transcript is not
    among them. *)
Lemma history_window_omits_seventh_turn :
  exists req,
    completion_requests
      (snd (chat_submit default_config (stub_remote [coat_result]) stub_builtins
              "a warm coat" (world_with ten_turns))) = [req] /\
    length (chat_messages (world_with ten_turns)) = 10%nat /\
    length (cr_messages req) = 9%nat /\
    cr_messages req
      = [system_turn system_prompt; system_turn coat_context]
        ++ skipn 4 ten_turns ++ [user_turn "a warm coat"] /\
    cr_messages req
      <> [system_turn system_prompt; system_turn coat_context]
         ++ skipn 3 ten_turns /\
    In (sample_turn 3) (skipn 3 ten_turns) /\
    ~ In (sample_turn 3) (cr_messages req).
Proof.
  eexists. split; [reflexivity|]. split; [reflexivity|].
  split; [reflexivity|]. split; [reflexivity|].
  split; [intros H; vm_compute in H; discriminate H|].
  split; [left; reflexivity|].
  intros Hin. vm_compute in Hin.
  repeat (destruct Hin as [Hin | Hin]; [discriminate Hin|]). exact Hin.
Qed.

(** ** The grounding context *)

Lemma append_assoc (a b c : string) : (a +:+ b) +:+ c = a +:+ (b +:+ c).
Proof.
  induction a as [|x a IH]; [reflexivity|].
  change (String x ((a +:+ b) +:+ c) = String x (a +:+ (b +:+ c))).
  f_equal. exact IH.
Qed.

Lemma contains_skip (a s sub : string) : contains s sub -> contains (a +:+ s) sub.
Proof.
  intros (pre & post & ->). exists (a +:+ pre), post.
  symmetry. apply append_assoc.
Qed.

Lemma contains_here (sub post : string) : contains (sub +:+ post) sub.
Proof.
  exists "", post. reflexivity.
Qed.

(** C1. For a top product with score 0.87, price 25000 and tags
    ["winter", "coat"], the grounding context is built without a failure and
    contains "25,000", "0.8700" and "winter, coat"; it is the content of the
    second system turn of the request sent to the completion client. *)
Theorem grounding_context_formats py (top_product : PyDict) :
  top_product !! "score" = Some (VFloat 0.87%float) ->
  top_product !! "price" = Some (VInt 25000) ->
  top_product !! "imageTags" = Some (VList [VStr "winter"; VStr "coat"]) ->
  exists ctx,
    product_context py top_product = inr ctx /\
    contains ctx "25,000" /\
    contains ctx "0.8700" /\
    contains ctx "winter, coat" /\
    forall cfg remote prompt w rest,
      fst (search_products cfg remote prompt "hybrid" ALL_SEARCH_FIELDS
             (append_chat (user_turn prompt) w)) = inr (top_product :: rest) ->
      exists req,
        completion_requests (snd (chat_submit cfg remote py prompt w))
          = completion_requests w ++ [req] /\
        nth_error (cr_messages req) 1 = Some (system_turn ctx).
Proof.
  intros Hscore Hprice Htags.
  assert (Hctx : product_context py top_product
                 = inr (product_context_template
                          (field_or_na py top_product "name")
                          (field_or_na py top_product "brand")
                          "25,000원"
                          (field_or_na py top_product "description")
                          (field_or_na py top_product "imageCaption")
                          (field_or_na py top_product "imageDescription")
                          "winter, coat" "0.8700")).
  { unfold product_context, price_str, tags_str, score_str, dict_get_default.
    rewrite Hscore, Hprice, Htags. reflexivity. }
  eexists. split; [exact Hctx|].
  unfold product_context_template.
  split; [|split; [|split]].
  - do 5 apply contains_skip. apply (contains_here "25,000").
  - do 15 apply contains_skip. apply (contains_here "0.8700").
  - do 13 apply contains_skip. apply (contains_here "winter, coat").
  - intros cfg remote prompt w rest Hs.
    eexists. split; [apply (chat_submit_request _ _ _ _ _ _ _ _ Hs Hctx)|].
    reflexivity.
Qed.

Lemma grounding_context_formats_witness :
  exists ctx,
    product_context stub_builtins coat_product = inr ctx /\
    contains ctx "25,000" /\
    contains ctx "0.8700" /\
    contains ctx "winter, coat" /\
    forall cfg remote prompt w rest,
      fst (search_products cfg remote prompt "hybrid" ALL_SEARCH_FIELDS
             (append_chat (user_turn prompt) w)) = inr (coat_product :: rest) ->
      exists req,
        completion_requests (snd (chat_submit cfg remote stub_builtins prompt w))
          = completion_requests w ++ [req] /\
        nth_error (cr_messages req) 1 = Some (system_turn ctx).
Proof.
  apply (grounding_context_formats stub_builtins coat_product); reflexivity.
Defined.

(** ** Text normalisation of the embedding client *)

Lemma chars_of_chars (l : list ascii) : chars (of_chars l) = l.
Proof.
  apply list_ascii_of_string_of_list_ascii.
Qed.

Lemma drop_prefix_spec (p s r : list ascii) :
  drop_prefix p s = Some r <-> s = p ++ r.
Proof.
  revert s. induction p as [|a p IH]; intros s; simpl.
  - split; congruence.
  - destruct s as [|b s]; [split; discriminate|].
    destruct (Ascii.eqb_spec a b) as [-> | Hne].
    + rewrite IH. split; congruence.
    + split; [discriminate | congruence].
Qed.

Lemma drop_any_Some ws s r :
  drop_any ws s = Some r -> exists w, In w ws /\ s = w ++ r.
Proof.
  induction ws as [|w ws IH]; simpl; [discriminate|].
  destruct (drop_prefix w s) as [r'|] eqn:Hw.
  - intros [= ->]. exists w. split; [now left | now apply drop_prefix_spec].
  - intros H. destruct (IH H) as (w' & Hin & Heq). exists w'. auto.
Qed.

Lemma drop_any_None ws s :
  drop_any ws s = None -> ~ starts_with_any ws s.
Proof.
  induction ws as [|w ws IH]; simpl; intros H (w' & r & Hin & Heq).
  - exact Hin.
  - destruct (drop_prefix w s) as [r'|] eqn:Hw; [discriminate|].
    destruct Hin as [<- | Hin].
    + apply drop_prefix_spec in Heq. congruence.
    + apply (IH H). exists w', r. auto.
Qed.

Lemma drop_all_spec fuel ws s :
  (forall w, In w ws -> w <> []) ->
  (length s <= fuel)%nat ->
  exists pre, s = pre ++ drop_all fuel ws s /\ all_of ws pre /\
              ~ starts_with_any ws (drop_all fuel ws s).
Proof.
  intros Hne. revert s.
  induction fuel as [|fuel IH]; intros s Hlen; simpl.
  - destruct s; [|simpl in Hlen; lia].
    exists []. split; [reflexivity|]. split; [exists []; auto|].
    intros (w & r & Hin & Heq). destruct w; [now apply (Hne _ Hin)|discriminate].
  - destruct (drop_any ws s) as [r|] eqn:Hd.
    + destruct (drop_any_Some _ _ _ Hd) as (w & Hin & ->).
      assert (Hw : w <> []) by now apply Hne.
      destruct (IH r) as (pre & Hr & (parts & Hparts & ->) & Hno).
      { rewrite List.length_app in Hlen. destruct w; [congruence|simpl in Hlen; lia]. }
      exists (w ++ concat parts). split; [|split].
      * rewrite <- app_assoc. now rewrite <- Hr.
      * exists (w :: parts). split; [constructor; assumption | reflexivity].
      * exact Hno.
    + exists []. split; [reflexivity|]. split; [exists []; auto|].
      now apply drop_any_None.
Qed.

Lemma whitespace_nonempty : forall w, In w whitespace -> w <> [].
Proof.
  apply List.Forall_forall. unfold whitespace. repeat constructor; discriminate.
Qed.

Lemma rev_whitespace_nonempty :
  forall w, In w (map (@rev ascii) whitespace) -> w <> [].
Proof.
  apply List.Forall_forall. unfold whitespace. simpl. repeat constructor; discriminate.
Qed.

Lemma lstrip_spec s :
  exists pre, s = pre ++ lstrip s /\ all_of whitespace pre /\
              ~ starts_with_any whitespace (lstrip s).
Proof.
  apply drop_all_spec; [exact whitespace_nonempty | lia].
Qed.

Lemma all_of_rev ws s : all_of (map (@rev ascii) ws) s -> all_of ws (rev s).
Proof.
  intros (parts & Hparts & ->).
  induction Hparts as [|p parts Hp _ IH]; simpl.
  - exists []. auto.
  - destruct IH as (qs & Hqs & Heq).
    apply List.in_map_iff in Hp as (w & <- & Hw).
    exists (qs ++ [w]). split.
    + apply List.Forall_app. split; [exact Hqs | repeat constructor; exact Hw].
    + rewrite rev_app_distr, rev_involutive, Heq, concat_app. simpl.
      now rewrite app_nil_r.
Qed.

Lemma rstrip_spec s :
  exists post, s = rstrip s ++ post /\ all_of whitespace post /\
               ~ ends_with_any whitespace (rstrip s).
Proof.
  unfold rstrip.
  destruct (drop_all_spec (length s) (map (@rev ascii) whitespace) (rev s))
    as (pre & Heq & Hall & Hno);
    [exact rev_whitespace_nonempty | rewrite List.length_rev; lia |].
  exists (rev pre). split; [|split].
  - rewrite <- rev_app_distr, <- Heq. now rewrite rev_involutive.
  - now apply all_of_rev.
  - intros (w & r & Hin & Hr). apply Hno.
    exists (rev w), (rev r). split; [now apply List.in_map|].
    rewrite <- rev_app_distr, <- Hr. now rewrite rev_involutive.
Qed.

Lemma replace_newlines_no_LF s : ~ In LF (replace_newlines s).
Proof.
  unfold replace_newlines. intros H.
  apply List.in_map_iff in H as (c & Hc & _).
  destruct (Ascii.eqb_spec c LF); [discriminate | congruence].
Qed.

(** C9. The text submitted to the embedding back end is the input with
    every line feed replaced by a space and then stripped: it is the replaced
    text without a leading and a trailing run of whitespace, it neither
    starts nor ends with a whitespace character, and it holds no line feed. *)
Theorem embedding_text_is_normalised cfg remote text w :
  let sent := py_strip (py_replace_newlines text) in
  snd (get_embedding cfg remote text w)
    = log_embedding {| emb_input := [sent];
                       emb_model := embedding_deployment cfg |} w /\
  chars (py_replace_newlines text)
    = map (fun c => if Ascii.eqb c LF then SP else c) (chars text) /\
  (exists pre post,
      chars (py_replace_newlines text) = pre ++ chars sent ++ post /\
      all_of whitespace pre /\ all_of whitespace post) /\
  ~ starts_with_any whitespace (chars sent) /\
  ~ ends_with_any whitespace (chars sent) /\
  ~ In LF (chars sent).
Proof.
  intros sent.
  split; [rewrite get_embedding_run; reflexivity|].
  unfold sent, py_strip, py_replace_newlines.
  rewrite !chars_of_chars.
  set (t := replace_newlines (chars text)).
  destruct (lstrip_spec t) as (pre & Hpre & Hallpre & Hstart).
  destruct (rstrip_spec (lstrip t)) as (post & Hpost & Hallpost & Hend).
  split; [reflexivity|].
  split; [|split; [|split]].
  - exists pre, post. repeat split; try assumption.
    rewrite <- Hpost. exact Hpre.
  - intros (ws & r & Hin & Hr). apply Hstart.
    exists ws, (r ++ post). split; [exact Hin|].
    rewrite Hpost at 1. rewrite Hr. now rewrite <- app_assoc.
  - exact Hend.
  - intros Hin. apply (replace_newlines_no_LF (chars text)). fold t.
    rewrite Hpre, Hpost. apply in_or_app. right. apply in_or_app. now left.
Qed.

(** ** Worked examples *)

Example format_int_grouped_examples :
  map format_int_grouped [0; 999; 1000; 25000; 1234567; -1234567]
    = ["0"; "999"; "1,000"; "25,000"; "1,234,567"; "-1,234,567"].
Proof. reflexivity. Qed.

Example format_float_4f_examples :
  map format_float_4f
      [0.87; 0.5; 0.00005; 0.00015; 0.000025; 0.12345; 1234.56789;
       (-0.00001); 1e22; infinity; neg_infinity; nan]%float
    = ["0.8700"; "0.5000"; "0.0001"; "0.0001"; "0.0000"; "0.1235"; "1234.5679";
       "-0.0000"; "10000000000000000000000.0000"; "inf"; "-inf"; "nan"].
Proof. vm_compute. reflexivity. Qed.

Example format_4f_int_examples :
  map (format_4f) [VInt 0; VInt (-7); VInt (2 ^ 53 + 1); VInt (10 ^ 400)]
    = [inr "0.0000"; inr "-7.0000"; inr "9007199254740992.0000";
       inl (OverflowError "int too large to convert to float")].
Proof. vm_compute. reflexivity. Qed.

Example py_join_examples :
  map (py_join ", ")
      [[VStr "winter"; VStr "coat"]; [VStr "a"; VNone]; [VInt 1]]
    = [inr "winter, coat";
       inl (TypeError "sequence item 1: expected str instance, NoneType found");
       inl (TypeError "sequence item 0: expected str instance, int found")].
Proof. reflexivity. Qed.

Example clean_text_example :
  py_strip (py_replace_newlines "  warm
coat for winter
 ")
    = "warm coat for winter".
Proof. reflexivity. Qed.

(** U+3000 (ideographic space) and U+00A0 (no-break space) are stripped. *)
Example py_strip_unicode_example :
  py_strip (of_chars (utf8_encode 12288 ++ chars "coat" ++ utf8_encode 160))
    = "coat".
Proof. reflexivity. Qed.

Example recent_messages_examples :
  recent_messages ten_turns = map sample_turn [3; 4; 5; 6; 7; 8; 9] /\
  recent_messages (map sample_turn [0; 1; 2]) = map sample_turn [0; 1; 2].
Proof. split; reflexivity. Qed.

(** The score is read with [getattr]: a result that carries
    ["@search.score"] as a key of the mapping only gets no score. *)
Example score_is_an_attribute :
  _process_result
    {| items := {[ "id" := VStr "p-003"; "@search.score" := VFloat 0.87%float ]};
       attributes := ∅ |} !! "score" = Some VNone /\
  score_str (_process_result
    {| items := {[ "id" := VStr "p-003"; "@search.score" := VFloat 0.87%float ]};
       attributes := ∅ |}) = inr "N/A" /\
  score_str coat_product = inr "0.8700".
Proof. repeat split. Qed.

(** A chat input that is empty or not submitted does nothing. *)
Example chat_input_nothing cfg remote py w :
  chat_input cfg remote py None w = (inr tt, w) /\
  chat_input cfg remote py (Some "") w = (inr tt, w).
Proof. split; reflexivity. Qed.

(** With every remote service down, a chat message is answered by the
    apology: the failure is caught inside [search_products]. *)
Example chat_submit_services_down :
  chat_messages
    (snd (chat_submit default_config (failing_remote (mkExn "HttpResponseError" "503"))
            stub_builtins "a warm coat" empty_world))
    = [user_turn "a warm coat"; apology_turn].
Proof. reflexivity. Qed.

(** A failure of the completion client after a successful retrieval is
    reported in an assistant turn without a product. *)
Example chat_submit_completion_down :
  chat_messages
    (snd (chat_submit default_config
            {| embeddings_create := embeddings_create (stub_remote [coat_result]);
               completions_create := fun _ _ => inl (mkExn "APIError" "quota");
               search := search (stub_remote [coat_result]) |}
            stub_builtins "a warm coat" empty_world))
    = [user_turn "a warm coat";
       {| role := "assistant";
          content := VStr (error_message_prefix +:+ "quota");
          product := None |}].
Proof. reflexivity. Qed.

(** The class body runs before the validation and outside its [try]: a
    dimension that [int] refuses ends the import with that exception, also
    when the three required settings are there. *)
Example class_body_refuses_dimension :
  Config.import_module sample_int
    {[ "AZURE_OPENAI_ENDPOINT" := "https://example.openai.azure.com";
       "AZURE_OPENAI_API_KEY" := "key";
       "AZURE_SEARCH_SERVICE_ENDPOINT" := "https://example.search.windows.net";
       "EMBEDDING_DIMENSION" := "abc" ]}
    = ([], inl (ValueError "invalid literal for int() with base 10: 'abc'")) /\
  Config.import_module sample_int
    {[ "AZURE_OPENAI_ENDPOINT" := "https://example.openai.azure.com";
       "AZURE_OPENAI_API_KEY" := "key";
       "AZURE_SEARCH_SERVICE_ENDPOINT" := "https://example.search.windows.net";
       "EMBEDDING_DIMENSION" := "3072" ]}
    = (["✅ Configuration loaded successfully"], inr tt) /\
  Config.load sample_int ∅ = inr default_config.
Proof. repeat split. Qed.

(** * Further properties *)

(** ** Configuration *)

Lemma getenv_truthy (env : Env) (name : string) :
  truthy (getenv env name) = true <-> exists v, env !! name = Some v /\ v <> "".
Proof.
  unfold getenv. destruct (env !! name) as [v|]; simpl.
  - destruct (String.eqb_spec v ""); simpl; split.
    + discriminate.
    + intros (v' & [= <-] & Hne). contradiction.
    + intros _. eauto.
    + reflexivity.
  - split; [discriminate | intros (v & Hv & _); discriminate].
Qed.

Lemma missing_fields_nil (c : Config.t) :
  Config.missing_fields c = [] <->
  forall name, In name Config.required_fields ->
               truthy (Config.getattr c name) = true.
Proof.
  split.
  - intros Hnil name Hin.
    destruct (truthy (Config.getattr c name)) eqn:Ht; [reflexivity|].
    assert (Hm : In name (Config.missing_fields c))
      by (apply missing_fields_spec; auto).
    rewrite Hnil in Hm. destruct Hm.
  - intros Hall. destruct (Config.missing_fields c) as [|name rest] eqn:Hm;
      [reflexivity|].
    assert (Hin : In name (Config.missing_fields c)) by (rewrite Hm; now left).
    apply missing_fields_spec in Hin as [Hreq Hf].
    rewrite (Hall name Hreq) in Hf. discriminate.
Qed.

Lemma validate_true_iff (env : Env) (dimension : Z) :
  Config.validate (Config.class_attributes env dimension) = inr true <->
  forall name, In name Config.required_fields ->
               exists v, env !! name = Some v /\ v <> "".
Proof.
  set (c := Config.class_attributes env dimension).
  assert (Hv : Config.validate c = inr true <-> Config.missing_fields c = []).
  { unfold Config.validate.
    destruct (Config.missing_fields c); split; congruence || discriminate. }
  rewrite Hv, missing_fields_nil. unfold c. split; intros H name Hin.
  - apply getenv_truthy. rewrite <- (load_getattr env dimension) by exact Hin.
    now apply H.
  - rewrite load_getattr by exact Hin. apply getenv_truthy. now apply H.
Qed.

Lemma module_init_success (c : Config.t) :
  Config.module_init c = (["✅ Configuration loaded successfully"], inr tt) <->
  Config.validate c = inr true.
Proof.
  unfold Config.module_init, Config.validate.
  destruct (Config.missing_fields c); simpl; split; congruence || discriminate.
Qed.

(** X1. The import of the configuration prints the success line, and
    nothing else, exactly when [int] accepts [EMBEDDING_DIMENSION] and the
    three required settings are all present and non-empty: a setting that is
    present but empty counts as missing. Once the class exists, validation
    succeeds exactly under the second condition. *)
Theorem validate_succeeds_iff (py_int : string -> Result Z) (env : Env) :
  (Config.import_module py_int env
     = (["✅ Configuration loaded successfully"], inr tt) <->
   (exists dimension,
       py_int (getenv_default env "EMBEDDING_DIMENSION" "1536") = inr dimension) /\
   forall name, In name Config.required_fields ->
                exists v, env !! name = Some v /\ v <> "") /\
  match Config.load py_int env with
  | inr c =>
      Config.validate c = inr true <->
      forall name, In name Config.required_fields ->
                   exists v, env !! name = Some v /\ v <> ""
  | inl e =>
      py_int (getenv_default env "EMBEDDING_DIMENSION" "1536") = inl e
  end.
Proof.
  unfold Config.import_module, Config.load.
  destruct (py_int (getenv_default env "EMBEDDING_DIMENSION" "1536"))
    as [e | dimension].
  - split; [|reflexivity]. split; [discriminate|].
    intros [[dimension H] _]. discriminate H.
  - split; [|apply validate_true_iff].
    rewrite module_init_success, validate_true_iff. split.
    + intros H. split; [eauto | exact H].
    + intros [_ H]. exact H.
Qed.

(** ** Completion client *)

(** X2. A temperature other than zero and a token limit other than zero
    are forwarded unchanged; an omitted one, and a temperature of negative
    zero, is replaced by the configured default. *)
Theorem sampling_parameters_forwarded cfg remote messages w
    (temperature : float) (max_tokens : Z) :
  PrimFloat.eqb temperature 0%float = false ->
  max_tokens <> 0 ->
  snd (chat_completion cfg remote messages (Some temperature) (Some max_tokens) w)
    = log_completion {| cr_model := gpt_deployment cfg;
                        cr_messages := messages;
                        cr_temperature := temperature;
                        cr_max_tokens := max_tokens |} w /\
  snd (chat_completion cfg remote messages None None w)
    = log_completion {| cr_model := gpt_deployment cfg;
                        cr_messages := messages;
                        cr_temperature := Config.DEFAULT_TEMPERATURE;
                        cr_max_tokens := Config.MAX_TOKENS |} w /\
  snd (chat_completion cfg remote messages (Some (-0)%float) (Some max_tokens) w)
    = log_completion {| cr_model := gpt_deployment cfg;
                        cr_messages := messages;
                        cr_temperature := Config.DEFAULT_TEMPERATURE;
                        cr_max_tokens := max_tokens |} w.
Proof.
  intros Ht Hn. rewrite !chat_completion_run. simpl.
  unfold or_float, or_int. rewrite Ht.
  destruct (Z.eqb_spec max_tokens 0); [contradiction|].
  repeat split.
Qed.

Lemma sampling_parameters_forwarded_witness :
  snd (chat_completion default_config (stub_remote []) []
         (Some 0.2%float) (Some 256) empty_world)
    = log_completion {| cr_model := gpt_deployment default_config;
                        cr_messages := [];
                        cr_temperature := 0.2%float;
                        cr_max_tokens := 256 |} empty_world /\
  snd (chat_completion default_config (stub_remote []) [] None None empty_world)
    = log_completion {| cr_model := gpt_deployment default_config;
                        cr_messages := [];
                        cr_temperature := Config.DEFAULT_TEMPERATURE;
                        cr_max_tokens := Config.MAX_TOKENS |} empty_world /\
  snd (chat_completion default_config (stub_remote []) []
         (Some (-0)%float) (Some 256) empty_world)
    = log_completion {| cr_model := gpt_deployment default_config;
                        cr_messages := [];
                        cr_temperature := Config.DEFAULT_TEMPERATURE;
                        cr_max_tokens := 256 |} empty_world.
Proof.
  apply (sampling_parameters_forwarded default_config (stub_remote []) []
           empty_world 0.2%float 256).
  - reflexivity.
  - discriminate.
Defined.

(** ** Retrieval requests *)

Lemma search_by_strategy_searches cfg remote query strategy search_fields w :
  search_requests
    (snd (search_by_strategy cfg remote query strategy search_fields w))
    = search_requests w
      ++ searches_of_strategy query strategy search_fields
           (fst (get_embedding cfg remote query w)).
Proof.
  unfold search_by_strategy, searches_of_strategy, selected_fields.
  destruct (String.eqb strategy "keyword");
    [|destruct (String.eqb strategy "vector")];
    rewrite ?keyword_search_run, ?vector_search_run, ?hybrid_search_run;
    simpl; [reflexivity| |];
    destruct (fst (get_embedding cfg remote query w)); simpl;
    now rewrite ?app_nil_r.
Qed.

(** X3. A retrieval through [search_products] sends at most one search
    request, after the embedding call: keyword sends one text query, vector
    and hybrid send one query carrying the embedding, and none at all when the
    embedding call fails. Every request asks for [top = 5], and for
    [k = 5] neighbours when it has a vector query. *)
Theorem search_requests_per_retrieval cfg remote query strategy search_fields w :
  search_requests
    (snd (search_products cfg remote query strategy search_fields w))
    = search_requests w
      ++ searches_of_strategy query strategy search_fields
           (fst (get_embedding cfg remote query w)) /\
  (length (searches_of_strategy query strategy search_fields
             (fst (get_embedding cfg remote query w))) <= 1)%nat /\
  Forall (fun req =>
            top req = 5 /\ select req = SELECT_FIELDS /\
            match vector_queries req with
            | Some vqs =>
                Forall (fun vq => k_nearest_neighbors vq = 5 /\
                                  vq_fields vq = "descriptionVector" /\
                                  fst (get_embedding cfg remote query w)
                                    = inr (vector vq)) vqs
            | None => strategy = "keyword"
            end)
         (searches_of_strategy query strategy search_fields
            (fst (get_embedding cfg remote query w))).
Proof.
  split.
  - rewrite search_products_run.
    pose proof (search_by_strategy_searches cfg remote query strategy
                  search_fields w) as H.
    destruct (search_by_strategy cfg remote query strategy search_fields w)
      as [[e | l] w1]; simpl in *; exact H.
  - unfold searches_of_strategy.
    destruct (String.eqb_spec strategy "keyword") as [-> | Hk].
    + split; [simpl; lia|]. repeat constructor.
    + destruct (fst (get_embedding cfg remote query w)) as [e | v];
        [split; [simpl; lia | constructor]|].
      destruct (String.eqb strategy "vector");
        (split; [simpl; lia|]); repeat constructor.
Qed.

(** X4. What a retrieval sends depends on the strategy: a vector search
    sends neither the query text nor a field restriction, whatever fields
    are chosen; keyword and hybrid searches send the query text, and the
    restriction to the chosen fields exactly when at least one field is
    chosen, so that an empty choice searches all fields. *)
Theorem field_restriction_sent cfg remote query strategy fields w :
  exists sent,
    search_requests (snd (search_products cfg remote query strategy fields w))
      = search_requests w ++ sent /\
    Forall (fun req =>
              if String.eqb strategy "vector"
              then search_text req = None /\ search_fields req = None
              else search_text req = Some query /\
                   search_fields req = match fields with
                                       | [] => None
                                       | _ :: _ => Some fields
                                       end)
           sent.
Proof.
  exists (searches_of_strategy query strategy fields
            (fst (get_embedding cfg remote query w))).
  split.
  - rewrite search_products_run.
    pose proof (search_by_strategy_searches cfg remote query strategy fields w)
      as H.
    destruct (search_by_strategy cfg remote query strategy fields w)
      as [[e | l] w1]; simpl in *; exact H.
  - unfold searches_of_strategy.
    destruct (String.eqb_spec strategy "keyword") as [-> | Hk].
    + simpl. destruct fields; repeat constructor.
    + destruct (fst (get_embedding cfg remote query w)) as [e | v];
        [constructor|].
      destruct (String.eqb strategy "vector"); destruct fields;
        repeat constructor.
Qed.

(** X5. Any strategy name other than "keyword" and "vector" is served by
    hybrid search. *)
Theorem unknown_strategy_is_hybrid cfg remote query strategy search_fields :
  strategy <> "keyword" ->
  strategy <> "vector" ->
  search_products cfg remote query strategy search_fields
    = search_products cfg remote query "hybrid" search_fields.
Proof.
  intros Hk Hv. unfold search_products, search_by_strategy.
  destruct (String.eqb_spec strategy "keyword"); [contradiction|].
  destruct (String.eqb_spec strategy "vector"); [contradiction|].
  reflexivity.
Qed.

Lemma unknown_strategy_is_hybrid_witness :
  search_products default_config (stub_remote [coat_result]) "coat" "semantic"
    ALL_SEARCH_FIELDS
    = search_products default_config (stub_remote [coat_result]) "coat" "hybrid"
        ALL_SEARCH_FIELDS.
Proof.
  apply (unknown_strategy_is_hybrid default_config (stub_remote [coat_result])
           "coat" "semantic" ALL_SEARCH_FIELDS); discriminate.
Defined.

(** X6. A normalised product has exactly the eleven product keys, whatever
    the payload holds: other keys of the payload, such as the stored vector,
    are not carried over. *)
Theorem product_keys_are_fixed (result : SearchResult) :
  dom (_process_result result) = list_to_set PRODUCT_KEYS /\
  forall key, ~ In key PRODUCT_KEYS -> _process_result result !! key = None.
Proof.
  assert (Hdom : dom (_process_result result) = list_to_set PRODUCT_KEYS)
    by (unfold _process_result; rewrite dom_list_to_map_L; reflexivity).
  split; [exact Hdom|].
  intros key Hnot. apply not_elem_of_dom. rewrite Hdom.
  rewrite elem_of_list_to_set, list_elem_of_In. exact Hnot.
Qed.

Lemma product_keys_are_fixed_witness :
  dom (_process_result coat_result) = list_to_set PRODUCT_KEYS /\
  forall key, ~ In key PRODUCT_KEYS -> _process_result coat_result !! key = None.
Proof.
  apply (product_keys_are_fixed coat_result).
Defined.

(** ** The chatbot: every outcome *)

(** The world in which the reply to [prompt] is built: the user turn is in
    the transcript and retrieval has run. *)
Lemma chat_submit_cases cfg remote py prompt w :
  let sr := search_products cfg remote prompt "hybrid" ALL_SEARCH_FIELDS
              (append_chat (user_turn prompt) w) in
  chat_submit cfg remote py prompt w =
    match fst sr with
    | inl e => (inr tt, log_st st_rerun (append_chat (error_turn e) (snd sr)))
    | inr [] => (inr tt, log_st st_rerun (append_chat apology_turn (snd sr)))
    | inr (top_product :: _) =>
        match product_context py top_product with
        | inl e => (inr tt, log_st st_rerun (append_chat (error_turn e) (snd sr)))
        | inr ctx =>
            let req := recommendation_request cfg ctx
                         (chat_messages w ++ [user_turn prompt]) in
            let w2 := log_completion req (snd sr) in
            match completions_create remote (snd sr) req with
            | inl e => (inr tt, log_st st_rerun (append_chat (error_turn e) w2))
            | inr choices =>
                match first_item choices with
                | inl e => (inr tt, log_st st_rerun (append_chat (error_turn e) w2))
                | inr text =>
                    (inr tt, log_st st_rerun
                               (append_chat (recommendation_turn text top_product) w2))
                end
            end
        end
    end.
Proof.
  intros sr.
  pose proof (search_products_frame cfg remote prompt "hybrid" ALL_SEARCH_FIELDS
                (append_chat (user_turn prompt) w)) as [_ Hm].
  fold sr in Hm. simpl in Hm.
  unfold chat_submit, respond, bind, try_except, modify, lift, get_world. simpl.
  fold (user_turn prompt). fold sr.
  destruct sr as [[e | [|top_product rest]] w1]; simpl in *; try reflexivity.
  destruct (product_context py top_product) as [e | ctx]; [reflexivity|].
  rewrite chat_completion_run. rewrite Hm.
  unfold recommendation_request, system_turn.
  destruct (completions_create remote w1 _) as [e | choices]; [reflexivity|].
  destruct (first_item choices); reflexivity.
Qed.

(** X7. Whatever happens while the reply is built, a submitted message
    never raises: the transcript keeps its earlier turns and gains exactly the
    user turn and one assistant turn, and the run ends with [st.rerun]. *)
Theorem chat_submit_appends_two_turns cfg remote py prompt w :
  exists reply w',
    chat_submit cfg remote py prompt w = (inr tt, log_st st_rerun w') /\
    chat_messages (log_st st_rerun w')
      = chat_messages w ++ [user_turn prompt; reply] /\
    role reply = "assistant".
Proof.
  rewrite chat_submit_cases.
  pose proof (search_products_frame cfg remote prompt "hybrid" ALL_SEARCH_FIELDS
                (append_chat (user_turn prompt) w)) as [_ Hm].
  simpl in Hm.
  assert (Hturns : forall reply w1,
             chat_messages w1 = chat_messages w ++ [user_turn prompt] ->
             chat_messages (log_st st_rerun (append_chat reply w1))
               = chat_messages w ++ [user_turn prompt; reply]).
  { intros reply w1 H1. simpl. rewrite H1, <- app_assoc. reflexivity. }
  destruct (fst (search_products _ _ _ _ _ _)) as [e | [|top_product rest]].
  - eexists _, _. split; [reflexivity|]. split; [now apply Hturns | reflexivity].
  - eexists _, _. split; [reflexivity|]. split; [now apply Hturns | reflexivity].
  - destruct (product_context py top_product) as [e | ctx].
    + eexists _, _. split; [reflexivity|].
      split; [now apply Hturns | reflexivity].
    + cbv zeta.
      destruct (completions_create remote _ _) as [e | choices];
        [|destruct (first_item choices)];
        (eexists _, _; split; [reflexivity|];
         split; [now apply Hturns | reflexivity]).
Qed.

(** X8. After a successful retrieval and with a well-formed top product,
    the reply is decided by the completion client: its first choice becomes
    the assistant turn, with the top product attached (the other results are
    not used); when it raises, or offers no choice, the assistant turn
    carries the error text and no product. One completion request is made in
    each case. *)
Theorem reply_follows_completion cfg remote py prompt w top_product rest ctx :
  fst (search_products cfg remote prompt "hybrid" ALL_SEARCH_FIELDS
         (append_chat (user_turn prompt) w)) = inr (top_product :: rest) ->
  product_context py top_product = inr ctx ->
  let w1 := snd (search_products cfg remote prompt "hybrid" ALL_SEARCH_FIELDS
                   (append_chat (user_turn prompt) w)) in
  let req := recommendation_request cfg ctx (chat_messages w ++ [user_turn prompt]) in
  completion_requests (snd (chat_submit cfg remote py prompt w))
    = completion_requests w ++ [req] /\
  chat_messages (snd (chat_submit cfg remote py prompt w))
    = chat_messages w
      ++ [user_turn prompt;
          match completions_create remote w1 req with
          | inl e => error_turn e
          | inr [] => error_turn (IndexError "list index out of range")
          | inr (text :: _) => recommendation_turn text top_product
          end].
Proof.
  intros Hs Hctx w1 req.
  split; [now apply (chat_submit_request _ _ _ _ _ _ _ _ Hs Hctx)|].
  pose proof (search_products_frame cfg remote prompt "hybrid" ALL_SEARCH_FIELDS
                (append_chat (user_turn prompt) w)) as [_ Hm].
  fold w1 in Hm. simpl in Hm.
  rewrite chat_submit_cases. rewrite Hs, Hctx. cbv zeta. fold w1. fold req.
  destruct (completions_create remote w1 req) as [e | [|text choices]]; simpl;
    rewrite Hm, <- app_assoc; reflexivity.
Qed.

Lemma reply_follows_completion_witness :
  completion_requests
    (snd (chat_submit default_config (no_choice_remote [coat_result])
            stub_builtins "a warm coat" empty_world))
    = completion_requests empty_world
      ++ [recommendation_request default_config coat_context
            (chat_messages empty_world ++ [user_turn "a warm coat"])] /\
  chat_messages
    (snd (chat_submit default_config (no_choice_remote [coat_result])
            stub_builtins "a warm coat" empty_world))
    = chat_messages empty_world
      ++ [user_turn "a warm coat";
          match completions_create (no_choice_remote [coat_result])
                  (snd (search_products default_config
                          (no_choice_remote [coat_result]) "a warm coat" "hybrid"
                          ALL_SEARCH_FIELDS
                          (append_chat (user_turn "a warm coat") empty_world)))
                  (recommendation_request default_config coat_context
                     (chat_messages empty_world ++ [user_turn "a warm coat"])) with
          | inl e => error_turn e
          | inr [] => error_turn (IndexError "list index out of range")
          | inr (text :: _) => recommendation_turn text coat_product
          end].
Proof.
  apply (reply_follows_completion default_config (no_choice_remote [coat_result])
           stub_builtins "a warm coat" empty_world coat_product [] coat_context);
    reflexivity.
Defined.

(** X9. When the grounding context cannot be built from the top product
    (a conversion raises), no completion request is made and the assistant
    turn carries the text of that error, without a product. *)
Theorem malformed_product_is_reported cfg remote py prompt w top_product rest e :
  fst (search_products cfg remote prompt "hybrid" ALL_SEARCH_FIELDS
         (append_chat (user_turn prompt) w)) = inr (top_product :: rest) ->
  product_context py top_product = inl e ->
  completion_requests (snd (chat_submit cfg remote py prompt w))
    = completion_requests w /\
  chat_messages (snd (chat_submit cfg remote py prompt w))
    = chat_messages w ++ [user_turn prompt; error_turn e].
Proof.
  intros Hs Hctx.
  pose proof (search_products_frame cfg remote prompt "hybrid" ALL_SEARCH_FIELDS
                (append_chat (user_turn prompt) w)) as [Hc Hm].
  simpl in Hc, Hm.
  rewrite chat_submit_cases. rewrite Hs, Hctx. simpl.
  rewrite Hc, Hm, <- app_assoc. auto.
Qed.

Lemma malformed_product_is_reported_witness :
  completion_requests
    (snd (chat_submit default_config (stub_remote [text_price_result])
            stub_builtins "a scarf" empty_world))
    = completion_requests empty_world /\
  chat_messages
    (snd (chat_submit default_config (stub_remote [text_price_result])
            stub_builtins "a scarf" empty_world))
    = chat_messages empty_world
      ++ [user_turn "a scarf";
          error_turn (ValueError "Cannot specify ',' with 's'.")].
Proof.
  apply (malformed_product_is_reported default_config
           (stub_remote [text_price_result]) stub_builtins "a scarf" empty_world
           (_process_result text_price_result) []);
    reflexivity.
Defined.

(** ** The grounding context: when it can be built *)

Lemma join_items_ok (l : list PyVal) (i : Z) :
  (exists ss, join_items i l = inr ss) <-> forallb is_str l = true.
Proof.
  revert i. induction l as [|v l IH]; intros i; simpl.
  - split; eauto.
  - destruct v; simpl; try (split; [intros [ss H]; discriminate | discriminate]).
    rewrite <- (IH (i + 1)).
    destruct (join_items (i + 1) l) as [e | ss]; split; intros [x H];
      try discriminate; eauto.
Qed.

Ltac settle_result :=
  split;
  [ intros [? ?H]; first [discriminate | reflexivity]
  | intros ?H; first [discriminate | eexists; reflexivity] ].

Lemma price_str_ok py (top_product : PyDict) :
  (exists s, price_str py top_product = inr s) <->
  groupable (dict_get_default top_product "price" (VInt 0)) = true.
Proof.
  unfold price_str.
  destruct (dict_get_default top_product "price" (VInt 0)); simpl; settle_result.
Qed.

Lemma tags_str_ok (top_product : PyDict) :
  (exists s, tags_str top_product = inr s) <->
  joinable (dict_get_default top_product "imageTags" (VList [])) = true.
Proof.
  unfold tags_str, py_join.
  destruct (dict_get_default top_product "imageTags" (VList []))
    as [|n|f|s|[|t l]]; try solve [simpl; settle_result].
  unfold joinable. rewrite <- (join_items_ok (t :: l) 0).
  destruct (join_items 0 (t :: l)) as [e | ss]; split; intros [x H];
    try discriminate; eauto.
Qed.

Lemma score_str_ok (top_product : PyDict) :
  (exists s, score_str top_product = inr s) <->
  fixed_point_formattable (dict_get_default top_product "score" (VInt 0)) = true.
Proof.
  unfold score_str.
  destruct (dict_get_default top_product "score" (VInt 0)) as [|n|f|s|l]; simpl;
    try solve [settle_result].
  destruct (int_to_float n); settle_result.
Qed.

(** X10. The grounding context can be built exactly when the price is not
    a string or a list, the tags are not a list with an item that is not a
    string, and the score is not a string, a list or an integer beyond the
    range of a double. In every other case the first failing conversion
    raises, and the context is not built. *)
Theorem product_context_succeeds_iff py (top_product : PyDict) :
  (exists ctx, product_context py top_product = inr ctx) <->
  groupable (dict_get_default top_product "price" (VInt 0)) = true /\
  joinable (dict_get_default top_product "imageTags" (VList [])) = true /\
  fixed_point_formattable (dict_get_default top_product "score" (VInt 0)) = true.
Proof.
  rewrite <- (price_str_ok py), <- tags_str_ok, <- score_str_ok.
  unfold product_context.
  destruct (price_str py top_product) as [e | price_s].
  { split; [intros [ctx H]; discriminate | intros ([x H] & _); discriminate]. }
  destruct (tags_str top_product) as [e | tags_s].
  { split; [intros [ctx H]; discriminate | intros (_ & [x H] & _); discriminate]. }
  destruct (score_str top_product) as [e | score_s].
  { split; [intros [ctx H]; discriminate | intros (_ & _ & [x H]); discriminate]. }
  split; intros _; [repeat split|]; eexists; reflexivity.
Qed.

(** X11. A product normalised from a result that lacks the text fields, the
    price, the tags and the score (absent or null) gets the context in which
    every line holds its placeholder: "N/A", and for the price the
    no-price notice. *)
Theorem blank_fields_get_placeholders py (result : SearchResult) :
  Forall (fun key => blank (items result !! key))
         ["name"; "brand"; "price"; "description"; "imageCaption";
          "imageDescription"; "imageTags"] ->
  blank (attributes result !! "@search.score") ->
  product_context py (_process_result result) = inr placeholder_context.
Proof.
  intros Hitems Hscore.
  repeat match goal with
         | H : Forall _ (_ :: _) |- _ => inversion_clear H
         end.
  destruct (_process_result_lookup result) as (Hplain & Htags & Hsc & _).
  unfold plain_fields in Hplain.
  repeat match goal with
         | H : Forall _ (_ :: _) |- _ => inversion_clear H
         end.
  unfold product_context, price_str, tags_str, score_str, field_or_na,
    dict_get_default, dict_get.
  repeat match goal with
         | H : _process_result result !! _ = _ |- _ => rewrite H; clear H
         end.
  unfold blank in *.
  repeat match goal with
         | H : _ \/ _ |- _ => destruct H as [H | H]; rewrite H; clear H
         end; reflexivity.
Qed.

Lemma blank_fields_get_placeholders_witness :
  product_context stub_builtins
    (_process_result {| items := {[ "id" := VStr "p-005"; "name" := VNone ]};
                        attributes := ∅ |})
    = inr placeholder_context.
Proof.
  apply (blank_fields_get_placeholders stub_builtins
           {| items := {[ "id" := VStr "p-005"; "name" := VNone ]};
              attributes := ∅ |}).
  - repeat constructor; ((left; reflexivity) || (right; reflexivity)).
  - left. reflexivity.
Defined.

(** ** The prompt: what is sent of the transcript *)

Lemma recent_messages_snoc (earlier : list ChatMessage) (m : ChatMessage) :
  recent_messages (earlier ++ [m])
    = skipn (length earlier - 6) earlier ++ [m].
Proof.
  unfold recent_messages. rewrite List.length_app. simpl.
  destruct (Z.ltb_spec 7 (Z.of_nat (length earlier + 1))) as [Hlt | Hge].
  - rewrite List.skipn_app.
    replace (length earlier + 1 - 7)%nat with (length earlier - 6)%nat by lia.
    replace (length earlier - 6 - length earlier)%nat with 0%nat by lia.
    reflexivity.
  - replace (length earlier - 6)%nat with 0%nat by lia. reflexivity.
Qed.

(** X12. Whenever a completion request is made, the utterance just
    submitted is its last message, the two system turns are its first, and
    between them stand the newest earlier turns, at most six: all of them
    when the transcript had six or fewer. *)
Theorem prompt_ends_with_utterance cfg remote py prompt w top_product rest ctx :
  fst (search_products cfg remote prompt "hybrid" ALL_SEARCH_FIELDS
         (append_chat (user_turn prompt) w)) = inr (top_product :: rest) ->
  product_context py top_product = inr ctx ->
  exists req,
    completion_requests (snd (chat_submit cfg remote py prompt w))
      = completion_requests w ++ [req] /\
    cr_messages req
      = [system_turn system_prompt; system_turn ctx]
        ++ skipn (length (chat_messages w) - 6) (chat_messages w)
        ++ [user_turn prompt] /\
    (length (cr_messages req) <= 9)%nat /\
    ((length (chat_messages w) <= 6)%nat ->
     cr_messages req
       = [system_turn system_prompt; system_turn ctx]
         ++ chat_messages w ++ [user_turn prompt]).
Proof.
  intros Hs Hctx.
  exists (recommendation_request cfg ctx (chat_messages w ++ [user_turn prompt])).
  split; [now apply (chat_submit_request _ _ _ _ _ _ _ _ Hs Hctx)|].
  assert (Hm : cr_messages (recommendation_request cfg ctx
                              (chat_messages w ++ [user_turn prompt]))
               = [system_turn system_prompt; system_turn ctx]
                 ++ skipn (length (chat_messages w) - 6) (chat_messages w)
                 ++ [user_turn prompt]).
  { unfold recommendation_request. simpl. now rewrite recent_messages_snoc. }
  split; [exact Hm|]. split.
  - rewrite Hm. simpl. rewrite List.length_app, List.length_skipn. simpl. lia.
  - intros Hshort. rewrite Hm.
    replace (length (chat_messages w) - 6)%nat with 0%nat by lia. reflexivity.
Qed.

Lemma prompt_ends_with_utterance_witness :
  exists req,
    completion_requests
      (snd (chat_submit default_config (stub_remote [coat_result]) stub_builtins
              "a warm coat" (world_with ten_turns)))
      = completion_requests (world_with ten_turns) ++ [req] /\
    cr_messages req
      = [system_turn system_prompt; system_turn coat_context]
        ++ skipn (length (chat_messages (world_with ten_turns)) - 6)
             (chat_messages (world_with ten_turns))
        ++ [user_turn "a warm coat"] /\
    (length (cr_messages req) <= 9)%nat /\
    ((length (chat_messages (world_with ten_turns)) <= 6)%nat ->
     cr_messages req
       = [system_turn system_prompt; system_turn coat_context]
         ++ chat_messages (world_with ten_turns) ++ [user_turn "a warm coat"]).
Proof.
  apply (prompt_ends_with_utterance default_config (stub_remote [coat_result])
           stub_builtins "a warm coat" (world_with ten_turns) coat_product []
           coat_context); reflexivity.
Defined.

(** ** Text normalisation: fixed points *)

Lemma drop_all_id fuel ws s :
  ~ starts_with_any ws s -> drop_all fuel ws s = s.
Proof.
  intros Hno. destruct fuel as [|fuel]; simpl; [reflexivity|].
  destruct (drop_any ws s) as [r|] eqn:Hd; [|reflexivity].
  exfalso. apply Hno. destruct (drop_any_Some _ _ _ Hd) as (x & Hin & Heq).
  exists x, r. auto.
Qed.

Lemma rstrip_id s : ~ ends_with_any whitespace s -> rstrip s = s.
Proof.
  intros Hno. unfold rstrip. rewrite drop_all_id; [apply rev_involutive|].
  intros (x & r & Hin & Heq). apply Hno.
  apply List.in_map_iff in Hin as (x0 & <- & Hin).
  exists x0, (rev r). split; [exact Hin|].
  rewrite <- (rev_involutive s), Heq, rev_app_distr, rev_involutive. reflexivity.
Qed.

Lemma replace_newlines_id s : ~ In LF s -> replace_newlines s = s.
Proof.
  unfold replace_newlines. induction s as [|c s IH]; simpl; intros Hno;
    [reflexivity|].
  destruct (Ascii.eqb_spec c LF) as [-> | Hne]; [exfalso; auto|].
  rewrite IH by tauto. reflexivity.
Qed.

Lemma of_chars_chars (s : string) : of_chars (chars s) = s.
Proof.
  apply string_of_list_ascii_of_string.
Qed.

Lemma clean_unchanged (s : list ascii) :
  ~ In LF s -> ~ starts_with_any whitespace s -> ~ ends_with_any whitespace s ->
  rstrip (lstrip (replace_newlines s)) = s.
Proof.
  intros Hlf Hstart Hend.
  rewrite replace_newlines_id by exact Hlf.
  unfold lstrip. rewrite drop_all_id by exact Hstart.
  now apply rstrip_id.
Qed.

Lemma clean_normal (s : list ascii) :
  let t := rstrip (lstrip (replace_newlines s)) in
  ~ In LF t /\ ~ starts_with_any whitespace t /\ ~ ends_with_any whitespace t.
Proof.
  intros t. unfold t.
  destruct (lstrip_spec (replace_newlines s)) as (pre & Hpre & _ & Hstart).
  destruct (rstrip_spec (lstrip (replace_newlines s))) as (post & Hpost & _ & Hend).
  split; [|split].
  - intros Hin. apply (replace_newlines_no_LF s).
    rewrite Hpre, Hpost. apply in_or_app. right. apply in_or_app. now left.
  - intros (x & r & Hin & Hr). apply Hstart.
    exists x, (r ++ post). split; [exact Hin|].
    rewrite Hpost at 1. rewrite Hr. now rewrite <- app_assoc.
  - exact Hend.
Qed.

(** X13. Cleaning the text for the embedding request changes nothing in a
    text that has no line feed and no whitespace at either end, and cleaning
    twice is the same as cleaning once. *)
Theorem clean_text_fixed_points (text : string) :
  (~ In LF (chars text) ->
   ~ starts_with_any whitespace (chars text) ->
   ~ ends_with_any whitespace (chars text) ->
   py_strip (py_replace_newlines text) = text) /\
  py_strip (py_replace_newlines (py_strip (py_replace_newlines text)))
    = py_strip (py_replace_newlines text).
Proof.
  unfold py_strip, py_replace_newlines. split.
  - intros Hlf Hstart Hend. rewrite chars_of_chars.
    rewrite clean_unchanged by assumption. apply of_chars_chars.
  - rewrite !chars_of_chars.
    destruct (clean_normal (chars text)) as (Hlf & Hstart & Hend).
    now rewrite clean_unchanged.
Qed.

Lemma ends_with_any_rev ws s :
  ends_with_any ws s -> starts_with_any (map (@rev ascii) ws) (rev s).
Proof.
  intros (x & r & Hin & ->). exists (rev x), (rev r).
  split; [now apply List.in_map | apply rev_app_distr].
Qed.

Lemma clean_text_fixed_points_witness :
  py_strip (py_replace_newlines "warm coat") = "warm coat" /\
  py_strip (py_replace_newlines (py_strip (py_replace_newlines "
 warm coat ")))
    = py_strip (py_replace_newlines "
 warm coat ").
Proof.
  split.
  - apply (proj1 (clean_text_fixed_points "warm coat")).
    + simpl. intuition discriminate.
    + apply drop_any_None. reflexivity.
    + intros H. apply ends_with_any_rev in H. revert H.
      apply drop_any_None. reflexivity.
  - apply (proj2 (clean_text_fixed_points "
 warm coat ")).
Defined.

(** ** Text normalisation: whitespace only *)

Ltac in_list := simpl; repeat (first [left; reflexivity | right]).

Lemma prefix_free_sound ws :
  prefix_free ws = true ->
  forall w w' l, In w ws -> In w' ws -> w' = w ++ l -> l = [].
Proof.
  unfold prefix_free. intros H w w' l Hw Hw' Heq.
  rewrite forallb_forall in H. specialize (H w Hw).
  rewrite forallb_forall in H. specialize (H w' Hw').
  apply drop_prefix_spec in Heq. rewrite Heq in H.
  destruct l; [reflexivity | discriminate].
Qed.

Lemma drop_any_prefix_code ws w r :
  prefix_free ws = true -> In w ws -> drop_any ws (w ++ r) = Some r.
Proof.
  intros Hfree Hw.
  destruct (drop_any ws (w ++ r)) as [r'|] eqn:Hd.
  - destruct (drop_any_Some _ _ _ Hd) as (w' & Hw' & Heq).
    apply List.app_eq_app in Heq as [l [[H1 H2] | [H1 H2]]].
    + pose proof (prefix_free_sound ws Hfree w' w l Hw' Hw H1) as Hl.
      subst l. now rewrite H2.
    + pose proof (prefix_free_sound ws Hfree w w' l Hw Hw' H1) as Hl.
      subst l. now rewrite H2.
  - exfalso. apply (drop_any_None _ _ Hd). exists w, r. auto.
Qed.

Lemma drop_all_all_of fuel ws s :
  prefix_free ws = true ->
  (forall w, In w ws -> w <> []) ->
  all_of ws s -> (length s <= fuel)%nat -> drop_all fuel ws s = [].
Proof.
  intros Hfree Hne (parts & Hparts & ->). revert fuel.
  induction Hparts as [|p parts Hp _ IH]; intros fuel Hlen; simpl in *.
  - destruct fuel; simpl; [reflexivity|].
    destruct (drop_any ws []) as [r|] eqn:Hd; [|reflexivity].
    destruct (drop_any_Some _ _ _ Hd) as (w & Hw & Heq).
    destruct w; [exfalso; now apply (Hne _ Hw) | discriminate].
  - assert (Hp' : p <> []) by now apply Hne.
    rewrite List.length_app in Hlen.
    destruct fuel as [|fuel]; [destruct p; [congruence | simpl in Hlen; lia]|].
    simpl. rewrite drop_any_prefix_code by assumption.
    apply IH. destruct p; [congruence | simpl in Hlen; lia].
Qed.

Lemma whitespace_prefix_free : prefix_free whitespace = true.
Proof.
  reflexivity.
Qed.

Lemma replace_newlines_whitespace s :
  all_of whitespace s -> all_of whitespace (replace_newlines s).
Proof.
  intros (parts & Hparts & ->).
  induction Hparts as [|p parts Hp _ IH]; simpl.
  - exists []. auto.
  - destruct IH as (qs & Hqs & Heq).
    exists (replace_newlines p :: qs). split.
    + constructor; [|exact Hqs].
      revert p Hp. apply List.Forall_forall. unfold whitespace.
      repeat (apply List.Forall_cons; [in_list|]).
      apply List.Forall_nil.
    + unfold replace_newlines in *. rewrite List.map_app, Heq. reflexivity.
Qed.

(** X14. A text of whitespace only (spaces, tabs, line feeds, any Unicode
    space) is submitted to the embedding back end as the empty string. *)
Theorem whitespace_only_text_is_empty cfg remote text w :
  all_of whitespace (chars text) ->
  py_strip (py_replace_newlines text) = "" /\
  embedding_requests (snd (get_embedding cfg remote text w))
    = embedding_requests w
      ++ [ {| emb_input := [""]; emb_model := embedding_deployment cfg |} ].
Proof.
  intros Hws.
  assert (Hclean : py_strip (py_replace_newlines text) = "").
  { unfold py_strip, py_replace_newlines. rewrite chars_of_chars.
    unfold lstrip. rewrite drop_all_all_of;
      [reflexivity | exact whitespace_prefix_free | exact whitespace_nonempty
      | now apply replace_newlines_whitespace | lia]. }
  split; [exact Hclean|].
  rewrite get_embedding_run. unfold embedding_request_for. simpl.
  now rewrite Hclean.
Qed.

Lemma whitespace_only_text_is_empty_witness :
  py_strip (py_replace_newlines "  
	 ") = "" /\
  embedding_requests (snd (get_embedding default_config (stub_remote []) "  
	 " empty_world))
    = embedding_requests empty_world
      ++ [ {| emb_input := [""];
              emb_model := embedding_deployment default_config |} ].
Proof.
  apply (whitespace_only_text_is_empty default_config (stub_remote []) "  
	 " empty_world).
  exists [[" "%char]; [" "%char]; [LF]; [ascii_of_N 9]; [" "%char]].
  split; [|reflexivity].
  unfold whitespace.
  repeat (apply List.Forall_cons; [in_list|]).
  apply List.Forall_nil.
Defined.

(** ** Document upload *)

Lemma sum_of_ones {A} (l : list A) (acc : Z) :
  fold_left Z.add (map (fun _ => 1) l) acc = acc + Z.of_nat (length l).
Proof.
  revert acc. induction l as [|x l IH]; intros acc; simpl; [lia|].
  rewrite IH. lia.
Qed.

Lemma success_count_spec (results : list bool) :
  success_count results = Z.of_nat (List.count_occ Bool.bool_dec results true) /\
  0 <= success_count results <= Z.of_nat (length results) /\
  (success_count results = Z.of_nat (length results)
   <-> Forall (fun succeeded => succeeded = true) results).
Proof.
  unfold success_count. rewrite sum_of_ones, Z.add_0_l.
  induction results as [|b results (IH1 & IH2 & IH3)]; simpl.
  - repeat split; try lia. constructor.
  - destruct b; simpl.
    + split; [lia|]. split; [lia|]. split.
      * intros H. constructor; [reflexivity|]. apply IH3. lia.
      * intros H. inversion_clear H. apply IH3 in H1. lia.
    + split; [lia|]. split; [lia|]. split; [lia|].
      intros H. inversion_clear H. discriminate.
Qed.

(** X15. The upload functions end with a value, never with an exception.
    [upload_products] returns the number of results reported as succeeded:
    it lies between 0 and the number of results and equals it exactly when
    all succeeded; when the call raises it returns 0 and prints one error
    line. [upload_product] returns the flag of the first result, and [False]
    with an error line when the call raises or returns no result. *)
Theorem upload_reports_success upload_documents products product :
  (exists count,
      fst (upload_products upload_documents products) = inr count /\
      match upload_documents products with
      | inr results =>
          count = Z.of_nat (List.count_occ Bool.bool_dec results true) /\
          0 <= count <= Z.of_nat (length results) /\
          (count = Z.of_nat (length results)
           <-> Forall (fun succeeded => succeeded = true) results) /\
          snd (upload_products upload_documents products) = []
      | inl e =>
          count = 0 /\
          snd (upload_products upload_documents products)
            = ["Error uploading products: " +:+ exn_str e]
      end) /\
  (exists flag,
      fst (upload_product upload_documents product) = inr flag /\
      match upload_documents [product] with
      | inr (succeeded :: _) =>
          flag = succeeded /\
          snd (upload_product upload_documents product) = []
      | inr [] =>
          flag = false /\
          snd (upload_product upload_documents product)
            = ["Error uploading product: list index out of range"]
      | inl e =>
          flag = false /\
          snd (upload_product upload_documents product)
            = ["Error uploading product: " +:+ exn_str e]
      end).
Proof.
  unfold upload_products, upload_product. split.
  - destruct (upload_documents products) as [e | results]; simpl.
    + exists 0. repeat split.
    + exists (success_count results). split; [reflexivity|].
      destruct (success_count_spec results) as (H1 & H2 & H3).
      repeat split; try assumption; try lia; apply H3.
  - destruct (upload_documents [product]) as [e | [|succeeded rest]]; simpl;
      eexists; repeat split.
Qed.

(** ** Clipped text *)

Lemma chars_append (a b : string) : chars (a +:+ b) = chars a ++ chars b.
Proof.
  induction a as [|c a IH]; simpl; [reflexivity|].
  unfold chars in *. simpl. now rewrite IH.
Qed.

Lemma str_len_app (a b : list ascii) : str_len (a ++ b) = (str_len a + str_len b)%nat.
Proof.
  unfold str_len. now rewrite List.filter_app, List.length_app.
Qed.

Lemma str_take_prefix (n : nat) (s : list ascii) :
  exists rest, s = str_take n s ++ rest.
Proof.
  revert n. induction s as [|c s IH]; intros n; simpl.
  - exists []. reflexivity.
  - destruct (is_continuation c).
    + destruct (IH n) as [rest Hrest]. exists rest. simpl. now rewrite <- Hrest.
    + destruct n as [|n].
      * exists (c :: s). reflexivity.
      * destruct (IH n) as [rest Hrest]. exists rest. simpl. now rewrite <- Hrest.
Qed.

Lemma str_len_take (n : nat) (s : list ascii) :
  str_len (str_take n s) = Nat.min n (str_len s).
Proof.
  revert n. induction s as [|c s IH]; intros n; simpl.
  - unfold str_len. simpl. lia.
  - unfold str_len in *. simpl.
    destruct (is_continuation c) eqn:Hc; simpl.
    + rewrite Hc. simpl. apply IH.
    + destruct n as [|n]; simpl; [reflexivity|].
      rewrite Hc. simpl. rewrite IH. reflexivity.
Qed.

Lemma str_take_all (n : nat) (s : list ascii) :
  (str_len s <= n)%nat -> str_take n s = s.
Proof.
  revert n. induction s as [|c s IH]; intros n; simpl; [reflexivity|].
  unfold str_len in *. simpl.
  destruct (is_continuation c) eqn:Hc; simpl; intros Hlen.
  - now rewrite IH.
  - destruct n as [|n]; [lia|]. rewrite IH by lia. reflexivity.
Qed.

(** X16. A text is shown whole when it has at most [limit] characters;
    a longer one is cut to its first [limit] characters, counted as
    characters and not as bytes, followed by three dots. Texts on the cards
    are clipped at 80 (description) and 50 (image caption) characters. *)
Theorem clip_keeps_first_characters (limit : nat) (s : string) :
  exists t,
    clip limit (VStr s) = inr (VStr t) /\
    (str_len (chars t) <= limit + 3)%nat /\
    ((str_len (chars s) <= limit)%nat -> t = s) /\
    ((limit < str_len (chars s))%nat ->
     t = of_chars (str_take limit (chars s)) +:+ "..." /\
     str_len (str_take limit (chars s)) = limit /\
     exists rest, chars s = str_take limit (chars s) ++ rest).
Proof.
  unfold clip, py_len.
  destruct (Z.ltb_spec (Z.of_nat limit) (Z.of_nat (str_len (chars s))))
    as [Hlong | Hshort].
  - eexists. split; [reflexivity|].
    assert (Hlen : str_len (str_take limit (chars s)) = limit)
      by (rewrite str_len_take; lia).
    split; [|split].
    + rewrite chars_append, chars_of_chars, str_len_app, Hlen.
      unfold str_len. simpl. lia.
    + lia.
    + intros _. split; [reflexivity|]. split; [exact Hlen|].
      apply str_take_prefix.
  - exists s. split; [reflexivity|]. split; [lia|]. split; [reflexivity | lia].
Qed.

(** ** Rendering: laws *)

Lemma render_bind_ret_l {A B} (a : A) (k : A -> Render B) :
  render_bind (render_ret a) k = k a.
Proof.
  unfold render_bind, render_ret. destruct (k a). reflexivity.
Qed.

Lemma render_bind_ret_r (m : Render unit) :
  render_bind m (fun _ => render_ret tt) = m.
Proof.
  destruct m as [shown [e | []]]; simpl; [reflexivity|].
  now rewrite app_nil_r.
Qed.

Lemma render_bind_assoc {A B C} (m : Render A) (k : A -> Render B)
    (h : B -> Render C) :
  render_bind (render_bind m k) h = render_bind m (fun a => render_bind (k a) h).
Proof.
  destruct m as [shown [e | a]]; simpl; [reflexivity|].
  destruct (k a) as [shown' [e | b]]; simpl; [reflexivity|].
  destruct (h b) as [shown'' r]. now rewrite app_assoc.
Qed.

Lemma snd_render_bind {A B} (m : Render A) (k : A -> Render B) :
  snd (render_bind m k)
    = match snd m with
      | inr a => snd (k a)
      | inl e => inl e
      end.
Proof.
  destruct m as [shown [e | a]]; simpl; [reflexivity|].
  destruct (k a). reflexivity.
Qed.

Lemma render_for_fails {A} (l : list A) (body : A -> Render unit) (x : A) e :
  In x l -> snd (body x) = inl e ->
  exists e', snd (render_for l body) = inl e'.
Proof.
  induction l as [|y l IH]; simpl; intros Hin Hx; [contradiction|].
  rewrite snd_render_bind.
  destruct (snd (body y)) as [e0 | []] eqn:Hy; [eauto|].
  destruct Hin as [-> | Hin]; [congruence | now apply IH].
Qed.

(** ** The product card *)

Lemma display_product_card_outcome py (product : PyDict) (show_score : bool) :
  snd (display_product_card py product show_score) =
    match format_grouped py (dict_get_default product "price" (VInt 0)) with
    | inl e => inl e
    | inr _ =>
        match (if show_score && truthy (dict_get product "score")
               then format_4f (dict_get product "score") else inr "") with
        | inl e => inl e
        | inr _ =>
            match (if truthy (dict_get product "description")
                   then clip 80 (dict_get product "description")
                   else inr VNone) with
            | inl e => inl e
            | inr _ =>
                match (if truthy (dict_get product "imageCaption")
                       then clip 50 (dict_get product "imageCaption")
                       else inr VNone) with
                | inl e => inl e
                | inr _ => inr tt
                end
            end
        end
    end.
Proof.
  unfold display_product_card, clipped_div.
  destruct (truthy (dict_get product "imageUrl"));
    (destruct (format_grouped py (dict_get_default product "price" (VInt 0)));
     [reflexivity|]);
    (destruct show_score;
     [destruct (truthy (dict_get product "score"));
      [destruct (format_4f (dict_get product "score")); [reflexivity|]|]|]);
    (destruct (truthy (dict_get product "description"));
     [destruct (clip 80 (dict_get product "description")); [reflexivity|]|]);
    (destruct (truthy (dict_get product "imageCaption"));
     [destruct (clip 50 (dict_get product "imageCaption")); [reflexivity|]|]);
    destruct (dict_get product "imageTags") as [| | | |[|? ?]];
    destruct (truthy (dict_get product "imageDescription")); reflexivity.
Qed.

Lemma clippable_spec (limit : nat) (v : PyVal) :
  clippable limit v =
    match v with
    | VStr _ => true
    | VList l => (length l <=? limit)%nat
    | other => negb (truthy other)
    end.
Proof.
  unfold clippable, clip.
  destruct v as [|n|x|s|l]; simpl.
  - reflexivity.
  - apply orb_false_r.
  - apply orb_false_r.
  - destruct (Z.of_nat limit <? Z.of_nat (str_len (chars s)));
      apply orb_true_r.
  - destruct l as [|a l]; [reflexivity|].
    cbn [negb orb].
    destruct (Z.ltb_spec (Z.of_nat limit) (Z.of_nat (length (a :: l))));
      symmetry; [apply Nat.leb_gt | apply Nat.leb_le]; lia.
Qed.

(** X17. A product card is rendered to the end exactly when the price can
    be grouped (it is not null, a string or a list), the score, if it is to
    be shown and is not zero, can be formatted, and the description and the
    image caption can be shown clipped to 80 and 50. A value can be shown
    clipped when it is a string, a list with no more items than the limit
    (a longer list cannot be joined with the dots), or a value that counts as
    false; a number other than zero has no length. *)
Theorem card_renders_iff py (product : PyDict) (show_score : bool) :
  (snd (display_product_card py product show_score) = inr tt <->
   match dict_get_default product "price" (VInt 0) with
   | VNone => false
   | price => groupable price
   end
   && (negb (show_score && truthy (dict_get product "score"))
       || match dict_get product "score" with
          | VNone => false
          | score => fixed_point_formattable score
          end)
   && clippable 80 (dict_get product "description")
   && clippable 50 (dict_get product "imageCaption") = true) /\
  forall limit v,
    clippable limit v =
      match v with
      | VStr _ => true
      | VList l => (length l <=? limit)%nat
      | other => negb (truthy other)
      end.
Proof.
  split; [|apply clippable_spec].
  rewrite display_product_card_outcome. unfold clippable.
  destruct (dict_get_default product "price" (VInt 0)) as [|n|f|s|l]; simpl;
    try (split; discriminate);
    (destruct (show_score && truthy (dict_get product "score")); simpl;
     [destruct (dict_get product "score") as [|n'|f'|s'|l']; simpl;
      try (split; discriminate);
      try (destruct (int_to_float n'); simpl; try (split; discriminate))|]);
    (destruct (truthy (dict_get product "description")); simpl;
     [destruct (clip 80 (dict_get product "description")); simpl;
      try (split; discriminate)|]);
    (destruct (truthy (dict_get product "imageCaption")); simpl;
     [destruct (clip 50 (dict_get product "imageCaption")); simpl;
      try (split; discriminate)|]);
    split; reflexivity.
Qed.

(** X18. The card of a product whose payload has no price (absent or
    null) cannot be rendered: after the image, the name and the brand,
    formatting the price raises a [TypeError]. The chatbot shows the no-price
    notice for the same product. *)
Theorem card_fails_without_price py (result : SearchResult) (show_score : bool) :
  blank (items result !! "price") ->
  snd (display_product_card py (_process_result result) show_score)
    = inl (TypeError "unsupported format string passed to NoneType.__format__") /\
  (length (fst (display_product_card py (_process_result result) show_score))
     <= 4)%nat /\
  price_str py (_process_result result) = inr no_price_info.
Proof.
  intros Hblank.
  destruct (_process_result_lookup result) as (Hplain & _).
  unfold plain_fields in Hplain.
  assert (Hprice : _process_result result !! "price" = Some VNone).
  { repeat match goal with
           | H : Forall _ (_ :: _) |- _ => inversion_clear H
           end.
    match goal with H : _ !! "price" = _ |- _ => rewrite H end.
    destruct Hblank as [-> | ->]; reflexivity. }
  split; [|split].
  - rewrite display_product_card_outcome.
    unfold dict_get_default. rewrite Hprice. reflexivity.
  - assert (Hgen : forall P : PyDict,
               P !! "price" = Some VNone ->
               (length (fst (display_product_card py P show_score)) <= 4)%nat).
    { intros P HP. unfold display_product_card.
      unfold dict_get_default at 3. rewrite HP.
      destruct (truthy (dict_get P "imageUrl")); simpl; lia. }
    apply Hgen, Hprice.
  - unfold price_str, dict_get_default. rewrite Hprice. reflexivity.
Qed.

Lemma card_fails_without_price_witness :
  snd (display_product_card stub_builtins (_process_result unpriced_result) true)
    = inl (TypeError "unsupported format string passed to NoneType.__format__") /\
  (length (fst (display_product_card stub_builtins
                  (_process_result unpriced_result) true)) <= 4)%nat /\
  price_str stub_builtins (_process_result unpriced_result) = inr no_price_info.
Proof.
  apply (card_fails_without_price stub_builtins unpriced_result true).
  left. reflexivity.
Defined.

(** ** Pagination *)

Lemma page_count_checked :
  forallb page_count_ok (map Z.of_nat (seq 0 (S CHECKED_PRODUCTS))) = true.
Proof.
  vm_compute. reflexivity.
Qed.

Lemma page_count (n : nat) :
  (n <= CHECKED_PRODUCTS)%nat ->
  match true_divide (Z.of_nat n) PRODUCTS_PER_PAGE with
  | inr q => math_ceil q
  | inl e => inl e
  end = inr ((Z.of_nat n + 8) / 9).
Proof.
  intros Hn. pose proof page_count_checked as H.
  rewrite forallb_forall in H.
  specialize (H (Z.of_nat n)).
  assert (Hin : In (Z.of_nat n) (map Z.of_nat (seq 0 (S CHECKED_PRODUCTS)))).
  { apply List.in_map. apply in_seq. lia. }
  specialize (H Hin). unfold page_count_ok in H.
  destruct (true_divide (Z.of_nat n) PRODUCTS_PER_PAGE) as [e | q];
    [discriminate|].
  destruct (math_ceil q) as [e | k]; [discriminate|].
  apply Z.eqb_eq in H. now subst k.
Qed.

Lemma py_slice_in_range {A} (l : list A) (start stop : Z) :
  0 <= start -> 0 <= stop ->
  py_slice l start stop = skipn (Z.to_nat start) (firstn (Z.to_nat stop) l).
Proof.
  intros Hstart Hstop. unfold py_slice, slice_index.
  destruct (Z.ltb_spec start 0); [lia|].
  destruct (Z.ltb_spec stop 0); [lia|].
  destruct (Z.le_ge_cases stop (Z.of_nat (length l))) as [Hle | Hge].
  - rewrite (Z.min_l stop) by lia.
    destruct (Z.le_ge_cases start (Z.of_nat (length l))) as [Hle' | Hge'].
    + now rewrite Z.min_l by lia.
    + rewrite Z.min_r by lia. rewrite Nat2Z.id.
      rewrite !List.skipn_all2; try reflexivity; rewrite List.length_firstn; lia.
  - rewrite (Z.min_r stop) by lia. rewrite Nat2Z.id.
    rewrite List.firstn_all, (List.firstn_all2 l) by lia.
    destruct (Z.le_ge_cases start (Z.of_nat (length l))) as [Hle' | Hge'].
    + now rewrite Z.min_l by lia.
    + rewrite Z.min_r by lia. rewrite Nat2Z.id.
      rewrite !List.skipn_all2; try reflexivity; lia.
Qed.

Lemma paginate_run (products : list PyDict) (page : Z) :
  (length products <= CHECKED_PRODUCTS)%nat ->
  let n := Z.of_nat (length products) in
  let total := (n + 8) / 9 in
  let shown := Z.max 1 (Z.min page total) in
  paginate products page
    = inr {| Pagination.total_products := n;
             Pagination.total_pages := total;
             Pagination.page := shown;
             Pagination.start_idx := (shown - 1) * 9;
             Pagination.end_idx := Z.min ((shown - 1) * 9 + 9) n;
             Pagination.page_products :=
               skipn (Z.to_nat ((shown - 1) * 9))
                 (firstn (Z.to_nat (shown * 9)) products) |}.
Proof.
  intros Hn n total shown. unfold paginate.
  rewrite (page_count _ Hn). fold n. fold total. fold shown.
  unfold PRODUCTS_PER_PAGE. f_equal. f_equal.
  rewrite py_slice_in_range by lia.
  destruct (Z.le_ge_cases ((shown - 1) * 9 + 9) n) as [Hle | Hge].
  - rewrite Z.min_l by lia. do 2 f_equal. lia.
  - rewrite Z.min_r by lia. unfold n. rewrite Nat2Z.id.
    rewrite List.firstn_all, List.firstn_all2 by lia. reflexivity.
Qed.

(** X19. For a list of 1 to 1000 products there are ceil(n / 9) pages; the
    page shown is the requested one when it exists, the first page for a
    request below 1 and the last page for a request beyond it; it holds
    between 1 and 9 products, and 9 unless it is the last page. *)
Theorem paginate_bounds (products : list PyDict) (page : Z) :
  (1 <= length products <= CHECKED_PRODUCTS)%nat ->
  exists pg,
    paginate products page = inr pg /\
    Pagination.total_pages pg = (Z.of_nat (length products) + 8) / 9 /\
    1 <= Pagination.page pg <= Pagination.total_pages pg /\
    (1 <= page <= Pagination.total_pages pg -> Pagination.page pg = page) /\
    (page < 1 -> Pagination.page pg = 1) /\
    (Pagination.total_pages pg < page ->
     Pagination.page pg = Pagination.total_pages pg) /\
    (1 <= length (Pagination.page_products pg) <= 9)%nat /\
    (Pagination.page pg < Pagination.total_pages pg ->
     length (Pagination.page_products pg) = 9%nat).
Proof.
  intros [Hpos Hmax].
  eexists. split; [apply paginate_run; exact Hmax|]. simpl.
  set (n := Z.of_nat (length products)).
  assert (Hn : 1 <= n) by (unfold n; lia).
  assert (Htotal : 1 <= (n + 8) / 9) by (apply Z.div_le_lower_bound; lia).
  assert (Hup : n <= 9 * ((n + 8) / 9)).
  { pose proof (Z.div_mod (n + 8) 9 ltac:(lia)).
    pose proof (Z.mod_pos_bound (n + 8) 9 ltac:(lia)). lia. }
  assert (Hlow : 9 * ((n + 8) / 9) < n + 9).
  { pose proof (Z.div_mod (n + 8) 9 ltac:(lia)).
    pose proof (Z.mod_pos_bound (n + 8) 9 ltac:(lia)). lia. }
  set (total := (n + 8) / 9) in *.
  set (shown := Z.max 1 (Z.min page total)).
  assert (Hshown : 1 <= shown <= total) by (unfold shown; lia).
  split; [reflexivity|]. split; [exact Hshown|].
  split; [unfold shown; lia|]. split; [unfold shown; lia|].
  split; [unfold shown; lia|].
  rewrite List.length_skipn, List.length_firstn. fold n in Hup, Hlow.
  assert (Hlen : Z.of_nat (length products) = n) by reflexivity.
  split; [|intros Hlast]; lia.
Qed.

Lemma paginate_bounds_witness :
  exists pg,
    paginate twenty_products 7 = inr pg /\
    Pagination.total_pages pg = (Z.of_nat (length twenty_products) + 8) / 9 /\
    1 <= Pagination.page pg <= Pagination.total_pages pg /\
    (1 <= 7 <= Pagination.total_pages pg -> Pagination.page pg = 7) /\
    (7 < 1 -> Pagination.page pg = 1) /\
    (Pagination.total_pages pg < 7 ->
     Pagination.page pg = Pagination.total_pages pg) /\
    (1 <= length (Pagination.page_products pg) <= 9)%nat /\
    (Pagination.page pg < Pagination.total_pages pg ->
     length (Pagination.page_products pg) = 9%nat).
Proof.
  apply (paginate_bounds twenty_products 7).
  unfold CHECKED_PRODUCTS. simpl. lia.
Defined.

Lemma chunks_concat {A} (l : list A) (m : nat) :
  concat (map (fun k => skipn (k * 9) (firstn ((k + 1) * 9) l)) (seq 0 m))
    = firstn (m * 9) l.
Proof.
  induction m as [|m IH]; [reflexivity|].
  rewrite seq_S, List.map_app, concat_app, IH. simpl concat. rewrite app_nil_r.
  replace (0 + m)%nat with m by lia.
  transitivity (firstn (m * 9) (firstn ((m + 1) * 9) l)
                ++ skipn (m * 9) (firstn ((m + 1) * 9) l)).
  - f_equal. rewrite List.firstn_firstn. f_equal. lia.
  - rewrite List.firstn_skipn. f_equal. lia.
Qed.

Lemma page_of_chunk (products : list PyDict) (k : nat) :
  (length products <= CHECKED_PRODUCTS)%nat ->
  (Z.of_nat k < (Z.of_nat (length products) + 8) / 9) ->
  page_of products (Z.of_nat (S k))
    = skipn (k * 9) (firstn ((k + 1) * 9) products).
Proof.
  intros Hn Hk. unfold page_of. rewrite (paginate_run _ _ Hn). simpl.
  replace (Z.max 1 (Z.min (Z.of_nat (S k))
                      ((Z.of_nat (length products) + 8) / 9)))
    with (Z.of_nat (S k)) by lia.
  f_equal; [lia|]. f_equal. lia.
Qed.

(** X20. The pages of a list of up to 1000 products are a partition of it:
    put one after the other, pages 1 to the last give back the list, every
    product once and in order. *)
Theorem pages_partition_products (products : list PyDict) :
  (length products <= CHECKED_PRODUCTS)%nat ->
  concat (map (page_of products)
            (pages_upto ((Z.of_nat (length products) + 8) / 9)))
    = products.
Proof.
  intros Hn. unfold pages_upto.
  set (n := Z.of_nat (length products)).
  assert (H0 : 0 <= (n + 8) / 9) by (apply Z.div_pos; unfold n; lia).
  set (m := Z.to_nat ((n + 8) / 9)).
  assert (Hm : Z.of_nat m = (n + 8) / 9) by (unfold m; lia).
  rewrite <- seq_shift, !List.map_map.
  rewrite (List.map_ext_in _
             (fun k => skipn (k * 9) (firstn ((k + 1) * 9) products))).
  - rewrite chunks_concat. apply List.firstn_all2.
    pose proof (Z.div_mod (n + 8) 9 ltac:(lia)).
    pose proof (Z.mod_pos_bound (n + 8) 9 ltac:(lia)).
    unfold n in *. lia.
  - intros k Hk. apply in_seq in Hk.
    apply page_of_chunk; [exact Hn|]. fold n. lia.
Qed.

Lemma pages_partition_products_witness :
  concat (map (page_of twenty_products)
            (pages_upto ((Z.of_nat (length twenty_products) + 8) / 9)))
    = twenty_products.
Proof.
  apply (pages_partition_products twenty_products).
  unfold CHECKED_PRODUCTS. simpl. lia.
Defined.

(** ** The rows of cards *)

Lemma py_range_done fuel start stop step :
  stop <= start -> py_range fuel start stop step = [].
Proof.
  intros H. destruct fuel; simpl; [reflexivity|].
  destruct (Z.ltb_spec start stop); [lia | reflexivity].
Qed.

Lemma grid_cell (card : PyDict -> Render unit) (done rest : list PyDict) (j : nat) :
  (if Z.of_nat (length done) + Z.of_nat j <? Z.of_nat (length (done ++ rest)) then
           match (done ++ rest) !! Z.to_nat (Z.of_nat (length done) + Z.of_nat j) with
           | Some product => card product
           | None => render_lift (inl (IndexError "list index out of range"))
           end
         else render_ret tt) = match rest !! j with Some p => card p | None => render_ret tt end.
Proof.
  rewrite List.length_app.
  replace (Z.to_nat (Z.of_nat (length done) + Z.of_nat j)) with (length done + j)%nat by lia.
  rewrite lookup_app_r by lia.
  replace (length done + j - length done)%nat with j by lia.
  destruct (Z.ltb_spec (Z.of_nat (length done) + Z.of_nat j) (Z.of_nat (length done + length rest))).
  - destruct (rest !! j) eqn:E; [reflexivity|]. apply lookup_ge_None in E. lia.
  - destruct (rest !! j) eqn:E; [|reflexivity]. apply lookup_lt_Some in E. lia.
Qed.

Lemma grid_row (card : PyDict -> Render unit) (done rest : list PyDict) :
  row_body card (done ++ rest) (Z.of_nat (length done)) = render_for (firstn 3 rest) card.
Proof.
  unfold row_body. simpl render_for.
  pose proof (grid_cell card done rest 0) as H0.
  pose proof (grid_cell card done rest 1) as H1.
  pose proof (grid_cell card done rest 2) as H2.
  change (Z.of_nat 0) with 0 in H0. change (Z.of_nat 1) with 1 in H1. change (Z.of_nat 2) with 2 in H2.
  rewrite H0, H1, H2.
  destruct rest as [|a [|b [|c rest]]]; simpl;
  rewrite ?render_bind_ret_l, ?render_bind_ret_r; reflexivity.
Qed.

Lemma render_for_app {A} (l1 l2 : list A) (body : A -> Render unit) :
  render_for (l1 ++ l2) body = (render_for l1 body ~;; render_for l2 body).
Proof.
  induction l1 as [|x l1 IH]; cbn [app render_for].
  - symmetry. apply (render_bind_ret_l tt (fun _ => render_for l2 body)).
  - rewrite IH. symmetry. apply render_bind_assoc.
Qed.

Lemma render_cards_from (card : PyDict -> Render unit) (fuel : nat)
    (done rest : list PyDict) :
  (length rest <= fuel)%nat ->
  render_for (py_range fuel (Z.of_nat (length done))
                (Z.of_nat (length (done ++ rest))) 3)
    (row_body card (done ++ rest))
    = render_for rest card.
Proof.
  revert done rest. induction fuel as [|fuel IH]; intros done rest Hlen.
  - destruct rest; [reflexivity | simpl in Hlen; lia].
  - simpl py_range. rewrite List.length_app.
    destruct (Z.ltb_spec (Z.of_nat (length done))
                (Z.of_nat (length done + length rest))) as [Hlt | Hge].
    + cbn [render_for]. rewrite <- List.length_app. rewrite grid_row.
      transitivity (render_for (firstn 3 rest ++ skipn 3 rest) card);
        [|now rewrite List.firstn_skipn].
      rewrite render_for_app.
      assert (Hrest : render_for
                        (py_range fuel (Z.of_nat (length done) + 3)
                           (Z.of_nat (length (done ++ rest))) 3)
                        (row_body card (done ++ rest))
                      = render_for (skipn 3 rest) card).
      { destruct (Nat.le_gt_cases 3 (length rest)) as [Hbig | Hsmall].
        - specialize (IH (done ++ firstn 3 rest) (skipn 3 rest)).
          rewrite <- app_assoc, List.firstn_skipn in IH.
          rewrite List.length_app, List.length_firstn in IH.
          replace (Z.of_nat (length done + Nat.min 3 (length rest)))
            with (Z.of_nat (length done) + 3) in IH by lia.
          apply IH. rewrite List.length_skipn. lia.
        - rewrite py_range_done by (rewrite List.length_app; lia).
          rewrite List.skipn_all2 by lia. reflexivity. }
      rewrite Hrest. reflexivity.
    + destruct rest; [reflexivity | simpl in Hge; lia].
Qed.

Lemma render_cards_rows (card : PyDict -> Render unit)
    (page_products : list PyDict) :
  render_cards card page_products = render_for page_products card.
Proof.
  apply (render_cards_from card (length page_products) [] page_products).
  lia.
Qed.

Lemma render_for_succeeds {A} (l : list A) (body : A -> Render unit) :
  Forall (fun x => snd (body x) = inr tt) l ->
  render_for l body = (flat_map (fun x => fst (body x)) l, inr tt).
Proof.
  induction 1 as [|x l Hx _ IH]; [reflexivity|].
  cbn [render_for flat_map]. rewrite IH. unfold render_bind.
  destruct (body x) as [shown r]. simpl in Hx. subst r. reflexivity.
Qed.

(** X21. The rows of three columns show every product of the page exactly
    once and in the order of the list: the two nested loops do what one pass
    over the products does, stopping at the first card that raises. When
    every card renders, what is shown is the cards' widgets one after the
    other. *)
Theorem render_cards_in_order (card : PyDict -> Render unit)
    (page_products : list PyDict) :
  render_cards card page_products = render_for page_products card /\
  (Forall (fun product => snd (card product) = inr tt) page_products ->
   render_cards card page_products
     = (flat_map (fun product => fst (card product)) page_products, inr tt)).
Proof.
  split; [apply render_cards_rows|].
  intros Hok. rewrite render_cards_rows. now apply render_for_succeeds.
Qed.

Lemma render_cards_in_order_witness :
  render_cards (fun product => display_product_card stub_builtins product false)
    [coat_product; coat_product; coat_product; coat_product]
  = (flat_map
       (fun product => fst (display_product_card stub_builtins product false))
       [coat_product; coat_product; coat_product; coat_product], inr tt).
Proof.
  apply (proj2 (render_cards_in_order
                  (fun product => display_product_card stub_builtins product false)
                  [coat_product; coat_product; coat_product; coat_product])).
  repeat (apply List.Forall_cons; [reflexivity|]). apply List.Forall_nil.
Defined.

(** ** The grid *)

Lemma unpriced_card_outcome py (result : SearchResult) (show_score : bool) :
  blank (items result !! "price") ->
  snd (display_product_card py (_process_result result) show_score)
    = inl (TypeError "unsupported format string passed to NoneType.__format__").
Proof.
  intros Hblank.
  destruct (_process_result_lookup result) as (Hplain & _).
  unfold plain_fields in Hplain.
  repeat match goal with
         | H : Forall _ (_ :: _) |- _ => inversion_clear H
         end.
  rewrite display_product_card_outcome. unfold dict_get_default.
  match goal with H : _ !! "price" = _ |- _ => rewrite H end.
  destruct Hblank as [-> | ->]; reflexivity.
Qed.

Lemma paginate_page (products : list PyDict) (page : Z) pg :
  paginate products page = inr pg ->
  Pagination.page pg = Z.max 1 (Z.min page (Pagination.total_pages pg)) /\
  Pagination.page_products pg
    = py_slice products (Pagination.start_idx pg) (Pagination.end_idx pg).
Proof.
  unfold paginate.
  destruct (match true_divide _ _ with inl e => inl e | inr q => math_ceil q end)
    as [e | total]; [discriminate|].
  intros [= <-]. simpl. split; reflexivity.
Qed.

Lemma display_products_grid_outcome py (products : list PyDict) (page : Z)
    (show_scores : bool) (clicked : option Button) pg :
  products <> [] ->
  paginate products page = inr pg ->
  snd (display_products_grid py products page show_scores clicked) =
    match snd (render_for (Pagination.page_products pg)
                 (fun product => display_product_card py product show_scores)) with
    | inl e => inl e
    | inr _ =>
        inr (if is_prev clicked && negb (Pagination.page pg <=? 1)
             then Some (Pagination.page pg - 1)
             else if is_next clicked
                     && negb (Pagination.total_pages pg <=? Pagination.page pg)
             then Some (Pagination.page pg + 1)
             else None)
    end.
Proof.
  intros Hne Hpg. unfold display_products_grid.
  destruct products as [|p products]; [congruence|].
  rewrite Hpg. change (render_lift (inr pg)) with (render_ret pg).
  rewrite render_bind_ret_l. cbv zeta. rewrite render_cards_rows.
  unfold emit, render_ret.
  destruct (render_for (Pagination.page_products pg) _) as [shown [e | []]];
    [reflexivity|].
  cbn [render_bind snd fst].
  destruct (is_prev clicked && negb (Pagination.page pg <=? 1)); [reflexivity|].
  destruct (is_next clicked
            && negb (Pagination.total_pages pg <=? Pagination.page pg));
    reflexivity.
Qed.

Lemma buttonless_bind {A B} (m : Render A) (k : A -> Render B) :
  buttonless m -> (forall a, buttonless (k a)) -> buttonless (render_bind m k).
Proof.
  unfold buttonless. intros Hm Hk. destruct m as [shown [e | a]]; simpl in *;
    [exact Hm|].
  specialize (Hk a). destruct (k a) as [shown' r]. simpl in *.
  apply List.Forall_app. auto.
Qed.

Lemma buttonless_emit (w : Widget) : is_button w = false -> buttonless (emit w).
Proof.
  intros H. unfold buttonless. simpl. repeat constructor. exact H.
Qed.

Lemma buttonless_lift {A} (r : Result A) : buttonless (render_lift r).
Proof.
  constructor.
Qed.

Lemma buttonless_ret {A} (a : A) : buttonless (render_ret a).
Proof.
  constructor.
Qed.

Ltac buttonless_step :=
  first
    [ apply buttonless_bind; [|intros ?]
    | apply buttonless_emit; reflexivity
    | apply buttonless_lift
    | apply buttonless_ret
    | match goal with
      | |- buttonless (if ?b then _ else _) => destruct b
      | |- buttonless (match ?x with _ => _ end) => destruct x
      end ].

Lemma card_buttonless py (product : PyDict) (show : bool) :
  buttonless (display_product_card py product show).
Proof.
  unfold display_product_card, clipped_div. repeat buttonless_step.
Qed.

Lemma cards_buttonless py (l : list PyDict) (show : bool) :
  buttonless (render_for l (fun product => display_product_card py product show)).
Proof.
  induction l as [|x l IH]; cbn [render_for].
  - apply buttonless_ret.
  - apply buttonless_bind; [apply card_buttonless | intros _; exact IH].
Qed.

(** X22. A page of the product list that holds a product without a price
    cannot be rendered: the grid raises at that card or at an earlier one,
    and the page buttons are never shown. *)
Theorem grid_fails_on_unpriced_product py (products : list PyDict) (page : Z)
    (show_scores : bool) (clicked : option Button) pg (result : SearchResult) :
  paginate products page = inr pg ->
  In (_process_result result) (Pagination.page_products pg) ->
  blank (items result !! "price") ->
  exists e,
    snd (display_products_grid py products page show_scores clicked) = inl e /\
    buttonless (display_products_grid py products page show_scores clicked).
Proof.
  intros Hpg Hin Hblank.
  assert (Hne : products <> []).
  { intros ->. destruct (paginate_page _ _ _ Hpg) as [_ Hslice].
    rewrite Hslice in Hin. unfold py_slice in Hin.
    rewrite List.firstn_nil, List.skipn_nil in Hin. exact Hin. }
  destruct (render_for_fails (Pagination.page_products pg)
              (fun product => display_product_card py product show_scores)
              (_process_result result) _ Hin
              (unpriced_card_outcome py result show_scores Hblank)) as [e He].
  exists e. split.
  - rewrite (display_products_grid_outcome _ _ _ _ _ _ Hne Hpg), He. reflexivity.
  - unfold display_products_grid.
    destruct products as [|p products]; [congruence|].
    rewrite Hpg. change (render_lift (inr pg)) with (render_ret pg).
    rewrite render_bind_ret_l. cbv zeta. rewrite render_cards_rows.
    apply buttonless_bind; [apply buttonless_emit; reflexivity | intros _].
    apply buttonless_bind; [apply buttonless_emit; reflexivity | intros _].
    pose proof (cards_buttonless py (Pagination.page_products pg) show_scores)
      as Hcards.
    destruct (render_for (Pagination.page_products pg) _) as [shown r].
    simpl in He. subst r. exact Hcards.
Qed.

Lemma grid_fails_on_unpriced_product_witness :
  exists e,
    snd (display_products_grid stub_builtins
           [coat_product; _process_result unpriced_result] 1 false None) = inl e /\
    buttonless (display_products_grid stub_builtins
                  [coat_product; _process_result unpriced_result] 1 false None).
Proof.
  apply (grid_fails_on_unpriced_product stub_builtins
           [coat_product; _process_result unpriced_result] 1 false None
           {| Pagination.total_products := 2; Pagination.total_pages := 1;
              Pagination.page := 1; Pagination.start_idx := 0;
              Pagination.end_idx := 2;
              Pagination.page_products :=
                [coat_product; _process_result unpriced_result] |}
           unpriced_result).
  - reflexivity.
  - right. left. reflexivity.
  - left. reflexivity.
Defined.

(** X23. A page button leads to a page that exists: when the grid ends
    with a new page, a button was pressed that was enabled, the new page is
    the one before or after the page shown, and it lies between 1 and the
    number of pages. Without a pressed button the page is not changed. *)
Theorem page_buttons_stay_in_range py (products : list PyDict) (page : Z)
    (show_scores : bool) (clicked : option Button) pg (new_page : Z) :
  paginate products page = inr pg ->
  snd (display_products_grid py products page show_scores clicked)
    = inr (Some new_page) ->
  1 <= new_page <= Pagination.total_pages pg /\
  ((clicked = Some Prev /\ new_page = Pagination.page pg - 1) \/
   (clicked = Some Next /\ new_page = Pagination.page pg + 1)).
Proof.
  intros Hpg Hout.
  destruct (paginate_page _ _ _ Hpg) as [Hpage _].
  destruct products as [|p products]; [simpl in Hout; discriminate Hout|].
  rewrite (display_products_grid_outcome py (p :: products) page show_scores
             clicked pg ltac:(discriminate) Hpg) in Hout.
  destruct (snd (render_for _ _)) as [e | []]; [discriminate|].
  destruct (Z.leb_spec (Pagination.page pg) 1);
    destruct (Z.leb_spec (Pagination.total_pages pg) (Pagination.page pg));
    destruct clicked as [[|]|]; simpl in Hout; inversion Hout; subst;
    (split; [lia|]); auto.
Qed.

Lemma page_buttons_stay_in_range_witness :
  1 <= 3 <= Pagination.total_pages
             {| Pagination.total_products := 20; Pagination.total_pages := 3;
                Pagination.page := 2; Pagination.start_idx := 9;
                Pagination.end_idx := 18;
                Pagination.page_products :=
                  py_slice twenty_products 9 18 |} /\
  ((Some Next = Some Prev /\ 3 = 2 - 1) \/ (Some Next = Some Next /\ 3 = 2 + 1)).
Proof.
  apply (page_buttons_stay_in_range stub_builtins twenty_products 2 false
           (Some Next)
           {| Pagination.total_products := 20; Pagination.total_pages := 3;
              Pagination.page := 2; Pagination.start_idx := 9;
              Pagination.end_idx := 18;
              Pagination.page_products := py_slice twenty_products 9 18 |} 3);
    reflexivity.
Defined.

(** ** The sidebar buttons and the product list *)

Lemma search_products_total cfg remote query strategy search_fields w :
  exists products, fst (search_products cfg remote query strategy search_fields w)
                   = inr products.
Proof.
  rewrite search_products_run.
  destruct (search_by_strategy _ _ _ _ _ _) as [[e | l] w1]; simpl; eauto.
Qed.

Lemma load_all_products_total remote w :
  exists products, fst (load_all_products remote w) = inr products.
Proof.
  rewrite load_all_products_run.
  destruct (get_all_products _ _ _) as [[e | l] w1]; simpl; eauto.
Qed.

(** X24. Pressing the search button never raises. With an empty query
    nothing is sent and nothing changes. Otherwise the query is stored; a
    search that returns products replaces the list, turns search mode on and
    goes back to page 1, announcing the count; a search that returns none
    (no match, or a failure already reported) leaves the list, the page and
    the mode as they were and shows a warning. *)
Theorem search_click_updates_listing cfg remote query strategy search_fields
    (s : Session.t) w :
  exists s' notice,
    fst (search_clicked cfg remote query strategy search_fields s w)
      = inr (s', [notice]) /\
    (query = "" ->
     s' = s /\ notice = st_warning QUERY_MISSING_WARNING /\
     snd (search_clicked cfg remote query strategy search_fields s w) = w) /\
    (query <> "" ->
     Session.search_query s' = query /\
     snd (search_clicked cfg remote query strategy search_fields s w)
       = snd (search_products cfg remote query strategy search_fields w) /\
     match fst (search_products cfg remote query strategy search_fields w) with
     | inr [] =>
         Session.products s' = Session.products s /\
         Session.current_page s' = Session.current_page s /\
         Session.is_search_mode s' = Session.is_search_mode s /\
         notice = st_warning SEARCH_EMPTY_WARNING
     | inr results =>
         Session.products s' = results /\
         Session.current_page s' = 1 /\
         Session.is_search_mode s' = true /\
         notice = st_success (found_message (str_int (Z.of_nat (length results))))
     | inl _ => False
     end).
Proof.
  unfold search_clicked.
  destruct (String.eqb_spec query "") as [-> | Hq]; simpl.
  - eexists _, _. split; [reflexivity|]. split; [auto | congruence].
  - destruct (search_products_total cfg remote query strategy search_fields w)
      as [results Hres].
    unfold bind, ret.
    destruct (search_products cfg remote query strategy search_fields w)
      as [r w1]. simpl in Hres. subst r.
    destruct results as [|p results]; simpl;
      (eexists _, _; split; [reflexivity|]; split; [congruence|]);
      intros _; simpl; repeat split; reflexivity.
Qed.

(** X25. Pressing the show-all button never raises and always resets the
    view: the list becomes what [load_all_products] returned, the page 1,
    search mode off and the query empty, and the count is announced as a
    success. When loading fails the list becomes empty and, after the error,
    a success with a count of 0 is still announced. *)
Theorem show_all_resets_listing remote (s : Session.t) w :
  (exists all_products,
      fst (load_all_products remote w) = inr all_products /\
      show_all_clicked remote s w
        = (inr ({| Session.products := all_products;
                   Session.current_page := 1;
                   Session.is_search_mode := false;
                   Session.search_query := "" |},
                [st_success
                   (loaded_message (str_int (Z.of_nat (length all_products))))]),
           snd (load_all_products remote w))) /\
  forall e,
    show_all_clicked (failing_remote e) s w
      = (inr ({| Session.products := [];
                 Session.current_page := 1;
                 Session.is_search_mode := false;
                 Session.search_query := "" |},
              [st_success (loaded_message "0")]),
         log_st (st_error (load_error_prefix +:+ exn_str e))
           (log_search {| search_text := Some "*"; vector_queries := None;
                          select := SELECT_FIELDS; top := 100;
                          search_fields := None |} w)).
Proof.
  split.
  - destruct (load_all_products_total remote w) as [all_products Hall].
    exists all_products. split; [exact Hall|].
    unfold show_all_clicked, bind, ret.
    destruct (load_all_products remote w) as [r w1]. simpl in Hall. subst r.
    reflexivity.
  - intros e. unfold show_all_clicked, bind, ret.
    rewrite load_all_products_run, get_all_products_run. reflexivity.
Qed.

(** X26. The product list view loads the catalogue only when the session
    holds no products: with products in the session it sends no request and
    keeps the list, the mode and the query, showing the grid with scores
    exactly in search mode; with none it stores what [load_all_products]
    returned and, if that is empty too, shows the notice instead of a grid. *)
Theorem listing_loaded_only_when_empty remote py (s : Session.t)
    (clicked : option Button) w :
  exists s' out,
    fst (product_list_view remote py s clicked w) = inr (s', out) /\
    Session.is_search_mode s' = Session.is_search_mode s /\
    Session.search_query s' = Session.search_query s /\
    (Session.products s <> [] ->
     snd (product_list_view remote py s clicked w) = w /\
     Session.products s' = Session.products s /\
     exists shown,
       fst out = st_subheader (if Session.is_search_mode s
                               then search_title (Session.search_query s)
                               else LISTING_TITLE) :: shown /\
       shown = fst (display_products_grid py (Session.products s)
                      (Session.current_page s) (Session.is_search_mode s)
                      clicked)) /\
    (Session.products s = [] ->
     snd (product_list_view remote py s clicked w)
       = snd (load_all_products remote w) /\
     fst (load_all_products remote w) = inr (Session.products s') /\
     (Session.products s' = [] -> out = ([st_info NOTHING_LOADED_INFO], inr tt))).
Proof.
  unfold product_list_view, bind, ret.
  destruct (Session.products s) as [|p products] eqn:Hp.
  - destruct (load_all_products_total remote w) as [loaded Hl].
    destruct (load_all_products remote w) as [r w1]. simpl in Hl. subst r.
    destruct loaded as [|q loaded]; simpl;
      (eexists _, _; split; [reflexivity|]; simpl;
       split; [reflexivity|]; split; [reflexivity|];
       split; [congruence|]; intros _;
       split; [reflexivity|]; split; [reflexivity|]);
      [reflexivity | discriminate].
  - simpl. eexists _, _. split; [reflexivity|]. simpl.
    split; [reflexivity|]. split; [reflexivity|].
    split; [|discriminate]. intros _.
    split; [reflexivity|]. split; [reflexivity|]. eauto.
Qed.

(** ** The chat transcript *)

Lemma product_details_outcome py (product : PyDict) :
  snd (product_details py product) =
    match price_str py product with
    | inl e => inl e
    | inr _ =>
        if truthy (dict_get product "score")
        then match format_4f (dict_get product "score") with
             | inl e => inl e
             | inr _ => inr tt
             end
        else inr tt
    end.
Proof.
  unfold product_details.
  destruct (truthy (dict_get product "imageUrl"));
    (destruct (price_str py product); [reflexivity|]);
    destruct (truthy (dict_get product "imageCaption"));
    destruct (truthy (dict_get product "imageDescription"));
    destruct (dict_get product "imageTags") as [| | | |[|? ?]];
    (destruct (truthy (dict_get product "score"));
     [destruct (format_4f (dict_get product "score"))|]); reflexivity.
Qed.

Lemma product_details_presentable py (product : PyDict) :
  snd (product_details py product) = inr tt <-> presentable product = true.
Proof.
  rewrite product_details_outcome. unfold presentable.
  pose proof (price_str_ok py product) as Hprice.
  destruct (price_str py product) as [e | price_s].
  - destruct (groupable _); simpl.
    + destruct (proj2 Hprice eq_refl) as [s Hs]. discriminate Hs.
    + split; discriminate.
  - rewrite (proj1 Hprice (ex_intro _ price_s eq_refl)). simpl.
    destruct (dict_get product "score") as [|n|f|s|l];
      try (simpl; tauto);
      (destruct (truthy _); [|simpl; tauto]); simpl;
      try match goal with
          | |- context [int_to_float ?k] => destruct (int_to_float k)
          end;
      split; intros H; first [reflexivity | discriminate H].
Qed.

Lemma display_chat_message_outcome py (message : ChatMessage) :
  snd (display_chat_message py message) =
    match shown_product message with
    | Some product => snd (product_details py product)
    | None => inr tt
    end.
Proof.
  unfold display_chat_message.
  destruct (shown_product message) as [product|]; [|reflexivity].
  cbn [emit render_bind render_ret app].
  destruct (product_details py product) as [shown r]. reflexivity.
Qed.

Lemma grounded_product_presentable py (top_product : PyDict) ctx :
  product_context py top_product = inr ctx -> presentable top_product = true.
Proof.
  intros Hctx. unfold presentable.
  assert (Hprice : exists s, price_str py top_product = inr s).
  { unfold product_context in Hctx.
    destruct (price_str py top_product); [discriminate | eauto]. }
  assert (Hscore : exists s, score_str top_product = inr s).
  { unfold product_context in Hctx.
    destruct (price_str py top_product); [discriminate|].
    destruct (tags_str top_product); [discriminate|].
    destruct (score_str top_product); [discriminate | eauto]. }
  apply price_str_ok in Hprice. apply score_str_ok in Hscore.
  rewrite Hprice. simpl.
  unfold dict_get, dict_get_default in *.
  destruct (top_product !! "score") as [score|]; [|reflexivity].
  simpl in *. rewrite Hscore. apply orb_true_r.
Qed.

Lemma in_render_bind_r {A B} (m : Render A) (k : A -> Render B) a w :
  snd m = inr a -> In w (fst (k a)) -> In w (fst (render_bind m k)).
Proof.
  destruct m as [shown r]. simpl. intros -> Hin.
  destruct (k a) as [shown' r']. simpl in *. apply in_or_app. now right.
Qed.

Lemma no_price_notice py (product : PyDict) :
  dict_get_default product "price" (VInt 0) = VNone ->
  In (st_markdown (detail_price no_price_info)) (fst (product_details py product)).
Proof.
  intros Hprice. unfold product_details, price_str. rewrite Hprice.
  destruct (truthy (dict_get product "imageUrl"));
    destruct (truthy (dict_get product "imageCaption"));
    destruct (truthy (dict_get product "imageDescription"));
    destruct (dict_get product "imageTags") as [| | | |[|? ?]];
    (destruct (truthy (dict_get product "score"));
     [destruct (format_4f (dict_get product "score"))|]);
    in_list.
Qed.

(** X27. A turn of the transcript is shown to the end exactly when it shows
    no product (a user turn, or an assistant turn without one) or its
    product is presentable: the price is null or a number, and the score is
    zero, null or can be formatted. A product without a price, whose card
    cannot be rendered, is shown here with the no-price notice. *)
Theorem transcript_turn_renders_iff py (message : ChatMessage) :
  (snd (display_chat_message py message) = inr tt <->
   match shown_product message with
   | Some product => presentable product = true
   | None => True
   end) /\
  (forall product,
      shown_product message = Some product ->
      dict_get_default product "price" (VInt 0) = VNone ->
      In (st_markdown (detail_price no_price_info))
         (fst (display_chat_message py message))).
Proof.
  split.
  - rewrite display_chat_message_outcome.
    destruct (shown_product message) as [product|]; [|tauto].
    apply product_details_presentable.
  - intros product Hshown Hprice.
    unfold display_chat_message. rewrite Hshown.
    repeat (eapply in_render_bind_r; [reflexivity|]).
    now apply no_price_notice.
Qed.

(** X28. Submitting a message keeps the transcript showable: when every
    earlier turn can be shown, so can the two turns that are added, and the
    transcript view of the next run does not raise. A product reaches the
    transcript only after its grounding context was built, and such a
    product is presentable. *)
Theorem chat_submit_keeps_transcript_renderable cfg remote py prompt w :
  renderable py (chat_messages w) ->
  renderable py (chat_messages (snd (chat_submit cfg remote py prompt w))) /\
  snd (display_chat_messages py
         (chat_messages (snd (chat_submit cfg remote py prompt w)))) = inr tt.
Proof.
  intros Hold.
  assert (Hnew : renderable py
                   (chat_messages (snd (chat_submit cfg remote py prompt w)))).
  { rewrite chat_submit_cases.
    pose proof (search_products_frame cfg remote prompt "hybrid" ALL_SEARCH_FIELDS
                  (append_chat (user_turn prompt) w)) as [_ Hm].
    simpl in Hm.
    assert (Hturns : forall reply w1,
               chat_messages w1 = chat_messages w ++ [user_turn prompt] ->
               snd (display_chat_message py reply) = inr tt ->
               renderable py
                 (chat_messages (log_st st_rerun (append_chat reply w1)))).
    { intros reply w1 H1 Hreply. unfold renderable. simpl. rewrite H1.
      apply Forall_app. split; [apply Forall_app; split; [exact Hold|]|];
        repeat constructor; assumption. }
    destruct (fst (search_products _ _ _ _ _ _)) as [e | [|top_product rest]];
      cbn [snd].
    - now apply Hturns.
    - now apply Hturns.
    - destruct (product_context py top_product) as [e | ctx] eqn:Hctx;
        cbn [snd]; [now apply Hturns|].
      cbv zeta.
      destruct (completions_create remote _ _) as [e | choices];
        [|destruct (first_item choices) as [e | text]]; cbn [snd];
        apply Hturns; try exact Hm; try reflexivity.
      rewrite display_chat_message_outcome.
      unfold shown_product, recommendation_turn. simpl.
      case_bool_decide; [reflexivity|].
      apply product_details_presentable.
      now apply (grounded_product_presentable py top_product ctx). }
  split; [exact Hnew|].
  unfold display_chat_messages.
  destruct (chat_messages (snd (chat_submit cfg remote py prompt w)))
    as [|m l] eqn:E; [reflexivity|].
  rewrite (render_for_succeeds (m :: l) (display_chat_message py) Hnew).
  reflexivity.
Qed.

Lemma chat_submit_keeps_transcript_renderable_witness :
  renderable stub_builtins
    (chat_messages
       (snd (chat_submit default_config (stub_remote [null_tags_result])
               stub_builtins "coat" empty_world))) /\
  snd (display_chat_messages stub_builtins
         (chat_messages
            (snd (chat_submit default_config (stub_remote [null_tags_result])
                    stub_builtins "coat" empty_world)))) = inr tt.
Proof.
  apply (chat_submit_keeps_transcript_renderable default_config
           (stub_remote [null_tags_result]) stub_builtins "coat" empty_world).
  apply List.Forall_nil.
Defined.
